(** * fiboa dataset descriptors [de_th] and [fi]

    A shallow embedding of the two dataset descriptors
    [fiboa_cli/datasets/de_th.py] and [fiboa_cli/datasets/fi.py]: their column
    maps, their column migrations and filters (lambdas over a pandas Series),
    their global migrations (functions over a GeoDataFrame) and their
    missing-schema fragments.

    The descriptors are configuration for [convert_utils.convert], which is
    imported by both files but is not part of the sources at hand; module
    [Pipeline] models it from the specification.  The pandas and numpy calls
    the descriptors make are modelled in module [Pandas]. *)

From Stdlib Require Import ZArith List String Ascii Bool Floats Lia DecimalString.
Import ListNotations.
Open Scope string_scope.
Open Scope Z_scope.

(* ===================================================================== *)
(** * Python values, exceptions and results *)
(* ===================================================================== *)

Module Py.

(** The exceptions a descriptor hook can raise, and the three fatal error
    classes of the conversion pipeline. *)
Inductive error : Type :=
| KeyError (key : string)
| ValueError (msg : string)
| TypeError (msg : string)
| AttributeError (msg : string)
| OutOfBoundsDatetime (msg : string)
| ConfigurationError (msg : string)
| CoercionError (msg : string)
| CardinalityError (msg : string).

Inductive result (A : Type) : Type :=
| Ok (a : A)
| Raise (e : error).
Arguments Ok {A} a.
Arguments Raise {A} e.

Definition bind {A B : Type} (r : result A) (k : A -> result B) : result B :=
  match r with
  | Ok a => k a
  | Raise e => Raise e
  end.

Definition is_ok {A : Type} (r : result A) : bool :=
  match r with Ok _ => true | Raise _ => false end.

Definition is_cardinality_error {A : Type} (r : result A) : bool :=
  match r with Raise (CardinalityError _) => true | _ => false end.

Definition is_coercion_error {A : Type} (r : result A) : bool :=
  match r with Raise (CoercionError _) => true | _ => false end.

(** [mapM f l]: run [f] on every element, left to right, stopping at the
    first exception. *)
Fixpoint mapM {A B : Type} (f : A -> result B) (l : list A) : result (list B) :=
  match l with
  | [] => Ok []
  | a :: l' =>
      match f a with
      | Raise e => Raise e
      | Ok b =>
          match mapM f l' with
          | Raise e => Raise e
          | Ok bs => Ok (b :: bs)
          end
      end
  end.

End Py.
Import Py.

Declare Scope py_scope.
Notation "x <- c ;; k" := (Py.bind c (fun x => k))
  (at level 61, c at next level, right associativity) : py_scope.
Open Scope py_scope.

(* ===================================================================== *)
(** * The pandas and numpy operations used by the descriptors *)
(* ===================================================================== *)

Module Pandas.

(** The only timezone the descriptors ask for ([utc = True]). *)
Inductive tzinfo : Type := UTC.

(** A geometry is carried as its well-known text; the descriptors never look
    inside one, they only hand it to [make_valid] and [area]. *)
Definition geometry : Type := string.

(** The cell objects of a column.  [np.nan] is the float NaN, so it is the
    value [VFloat nan]; a [Timestamp] is its count of nanoseconds since the
    epoch together with its timezone ([None] for a naive timestamp).  A [str]
    is the sequence of its code points, one character for each, so the texts
    of the embedding are those whose code points lie below 256. *)
Inductive value : Type :=
| VNone
| VNaT
| VBool (b : bool)
| VInt (z : Z)
| VFloat (f : float)
| VStr (s : string)
| VList (l : list string)
| VTimestamp (ns : Z) (tz : option tzinfo)
| VGeom (g : geometry).

Definition VNaN : value := VFloat nan.

(** A Series is the sequence of its cells; its dtype is the one pandas infers
    from them, see [dtype_of]. *)
Definition Series : Type := list value.

(** A (Geo)DataFrame: its columns in order, by name. *)
Definition DataFrame : Type := list (string * Series).

(** [pd.isna] on one cell. *)
Definition isna (v : value) : bool :=
  match v with
  | VNone | VNaT => true
  | VFloat f => PrimFloat.is_nan f
  | _ => false
  end.

Definition is_bool (v : value) : bool :=
  match v with VBool _ => true | _ => false end.

Definition is_int (v : value) : bool :=
  match v with VInt _ => true | _ => false end.

Definition is_float (v : value) : bool :=
  match v with VFloat _ => true | _ => false end.

Definition is_str (v : value) : bool :=
  match v with VStr _ => true | _ => false end.

(** ** The dtype of a column *)

Inductive dtype : Type := Dbool | Dint64 | Duint64 | Dfloat64 | Dobject.

Definition is_int64 (v : value) : bool :=
  match v with
  | VInt z => (- 2 ^ 63 <=? z) && (z <? 2 ^ 63)
  | _ => false
  end.

Definition is_uint64 (v : value) : bool :=
  match v with
  | VInt z => (0 <=? z) && (z <? 2 ^ 64)
  | _ => false
  end.

(** The dtype pandas infers from the cells: float64 for floats only, int64
    for ints that all fit it, uint64 for ints from 0 on that all fit it, bool
    for bools only, and object for anything else and for no cells at all. *)
Definition dtype_of (s : Series) : dtype :=
  match s with
  | [] => Dobject
  | _ :: _ =>
      if forallb is_float s then Dfloat64
      else if forallb is_int64 s then Dint64
      else if forallb is_uint64 s then Duint64
      else if forallb is_bool s then Dbool
      else Dobject
  end.

(** ** Frames: [gdf[col]] and [gdf[col] = s] *)

Fixpoint get_column (gdf : DataFrame) (col : string) : option Series :=
  match gdf with
  | [] => None
  | (name, s) :: rest => if String.eqb name col then Some s else get_column rest col
  end.

(** [gdf[col]]: a missing column raises [KeyError]. *)
Definition getitem (gdf : DataFrame) (col : string) : result Series :=
  match get_column gdf col with
  | Some s => Ok s
  | None => Raise (KeyError col)
  end.

(** [gdf[col] = s]: an existing column is replaced where it stands, a new one
    is appended. *)
Fixpoint setitem (gdf : DataFrame) (col : string) (s : Series) : DataFrame :=
  match gdf with
  | [] => [(col, s)]
  | (name, old) :: rest =>
      if String.eqb name col then (name, s) :: rest
      else (name, old) :: setitem rest col s
  end.

Definition column_names (gdf : DataFrame) : list string := map fst gdf.

(** ** [Series.map(dict)] and [Series.fillna] *)

Fixpoint dict_get (d : list (string * value)) (k : string) : option value :=
  match d with
  | [] => None
  | (k', v) :: rest => if String.eqb k' k then Some v else dict_get rest k
  end.

(** One cell of [Series.map(d)] for a dict [d] with string keys: the cell is
    looked up by hash and equality, so a list cell (unhashable) raises
    [TypeError], a string takes its entry, and anything with no entry becomes
    NaN. *)
Definition map_cell (d : list (string * value)) (v : value) : result value :=
  match v with
  | VList _ => Raise (TypeError "unhashable type: 'list'")
  | VStr k =>
      match dict_get d k with
      | Some w => Ok w
      | None => Ok VNaN
      end
  | _ => Ok VNaN
  end.

Definition series_map (d : list (string * value)) (column : Series) : result Series :=
  mapM (map_cell d) column.

(** [Series.fillna(value = w)]. *)
Definition fillna (w : value) (column : Series) : Series :=
  map (fun v => if isna v then w else v) column.

(** ** Comparison with a scalar: [col == x] *)

(** An integer as a float64: the nearest one, ties to even, as a cast from
    int64 or uint64 gives it. *)
Definition float_of_Z (z : Z) : float :=
  SF2Prim (binary_normalize prec emax z 0 false).

Definition Z_of_bool (b : bool) : Z := if b then 1 else 0.

(** Python's [==] between a cell and a scalar, as the elementwise comparison
    applies it: numbers compare by value across int, float and bool, strings
    with strings, and a missing cell equals nothing. *)
Definition py_eq (v x : value) : bool :=
  match v, x with
  | VStr a, VStr b => String.eqb a b
  | VInt a, VInt b => Z.eqb a b
  | VInt a, VBool b => Z.eqb a (Z_of_bool b)
  | VBool a, VInt b => Z.eqb (Z_of_bool a) b
  | VBool a, VBool b => Bool.eqb a b
  | VFloat a, VFloat b => PrimFloat.eqb a b
  | VFloat a, VInt b => PrimFloat.eqb a (float_of_Z b)
  | VInt a, VFloat b => PrimFloat.eqb (float_of_Z a) b
  | VFloat a, VBool b => PrimFloat.eqb a (float_of_Z (Z_of_bool b))
  | VBool a, VFloat b => PrimFloat.eqb (float_of_Z (Z_of_bool a)) b
  | _, _ => false
  end.

Definition series_eq (column : Series) (x : value) : Series :=
  map (fun v => VBool (py_eq v x)) column.

(** ** The [.str] accessor

    [StringMethods._validate] asks [lib.infer_dtype(values, skipna=True)] for
    the kind of the column and refuses every kind but "string", "empty",
    "bytes", "mixed" and "mixed-integer". *)

Inductive inferred_dtype : Type :=
| Iempty | Istring | Iboolean | Iinteger | Ifloating | Imixed_integer_float
| Idatetime | Imixed_integer | Imixed.

(** The nulls the typed validators skip: [None] and NaN. *)
Definition is_null_obj (v : value) : bool :=
  match v with
  | VNone => true
  | VFloat f => PrimFloat.is_nan f
  | _ => false
  end.

Definition is_NaT (v : value) : bool :=
  match v with VNaT => true | _ => false end.

Definition is_timestamp (v : value) : bool :=
  match v with VTimestamp _ _ | VNaT => true | _ => false end.

Definition is_number (v : value) : bool := is_int v || is_float v.

Definition nonempty {A : Type} (l : list A) : bool :=
  match l with [] => false | _ :: _ => true end.

Definition infer_dtype (values : Series) : inferred_dtype :=
  let typed := filter (fun v => negb (is_null_obj v)) values in
  let mixed := if existsb is_int values then Imixed_integer else Imixed in
  if nonempty values && forallb is_float values then Ifloating
  else
    (* the first cell that is not None, NaN or NaT decides which validator runs *)
    match filter (fun v => negb (isna v)) values with
    | [] => if existsb is_NaT values then Idatetime else Iempty
    | VInt _ :: _ =>
        if forallb is_int typed then Iinteger
        else if forallb is_number typed then Imixed_integer_float
        else Imixed_integer
    | VFloat _ :: _ =>
        if forallb is_float typed then Ifloating
        else if forallb is_number typed then Imixed_integer_float
        else mixed
    | VBool _ :: _ => if forallb is_bool typed then Iboolean else mixed
    | VStr _ :: _ => if forallb is_str typed then Istring else mixed
    | VTimestamp _ _ :: _ => if forallb is_timestamp typed then Idatetime else mixed
    | _ => mixed
    end.

Definition str_allowed (k : inferred_dtype) : bool :=
  match k with
  | Istring | Iempty | Imixed | Imixed_integer => true
  | _ => false
  end.

(** [column.str]: the accessor, or [AttributeError]. *)
Definition str_accessor (column : Series) : result Series :=
  if str_allowed (infer_dtype column) then Ok column
  else Raise (AttributeError "Can only use .str accessor with string values!").

(** ** Compiled patterns and [re.split]

    The fragment of regular expressions the descriptors use: a sequence of
    character classes, each taken once or any number of times (greedy). *)

Inductive char_class : Type :=
| Whitespace                      (* \s *)
| Char (c : ascii).                (* a literal character *)

Inductive item : Type :=
| Once (c : char_class)
| ZeroOrMore (c : char_class).     (* c* *)

Definition regex : Type := list item.

(** The characters [\s] matches in a [str] pattern, among the code points
    below 256: tab, line feed, vertical tab, form feed, carriage return, the
    four separators 28 to 31, the space, next line (133) and the no-break
    space (160). *)
Definition is_space (a : ascii) : bool :=
  let n := Z.of_nat (nat_of_ascii a) in
  ((9 <=? n) && (n <=? 13)) || ((28 <=? n) && (n <=? 32))
  || (n =? 133) || (n =? 160).

Definition in_class (c : char_class) (a : ascii) : bool :=
  match c with
  | Whitespace => is_space a
  | Char x => Ascii.eqb x a
  end.

(** What is left of [s] after [c*], for every number of repetitions, the
    longest first. *)
Fixpoint star_rests (c : char_class) (s : string) : list string :=
  match s with
  | EmptyString => [EmptyString]
  | String a r => if in_class c a then star_rests c r ++ [s] else [s]
  end.

(** What is left of [s] after a match of [p] at its start, for every way of
    matching, in the order the backtracking matcher tries them. *)
Fixpoint matches_here (p : regex) (s : string) : list string :=
  match p with
  | [] => [s]
  | Once c :: p' =>
      match s with
      | String a r => if in_class c a then matches_here p' r else []
      | EmptyString => []
      end
  | ZeroOrMore c :: p' => flat_map (matches_here p') (star_rests c s)
  end.

(** [split_from p s skip piece]: [pat.split] scanning [s] from the left;
    [skip] counts the characters still inside the match found last, [piece]
    holds the text since that match.  A match is taken at the leftmost
    position where the pattern matches; the patterns of the descriptors match
    no empty string, and a position where only the empty string matches is
    passed over. *)
Fixpoint split_from (p : regex) (s : string) (skip : nat) (piece : string) : list string :=
  match s with
  | EmptyString => [piece]
  | String a r =>
      match skip with
      | S k => split_from p r k piece
      | O =>
          match matches_here p s with
          | rest :: _ =>
              match (String.length s - String.length rest)%nat with
              | O => split_from p r O (piece ++ String a EmptyString)
              | S k => piece :: split_from p r k EmptyString
              end
          | [] => split_from p r O (piece ++ String a EmptyString)
          end
      end
  end.

Definition re_split (p : regex) (s : string) : list string :=
  split_from p s O EmptyString.

(** One cell of [Series.str.split(pat, regex=True)]: a string is split, a
    missing cell stays as it is, and any other cell becomes NaN. *)
Definition split_cell (pat : regex) (v : value) : value :=
  match v with
  | VStr s => VList (re_split pat s)
  | _ => if isna v then v else VNaN
  end.

Definition str_split (pat : regex) (column : Series) : result Series :=
  col <- str_accessor column ;;
  Ok (map (split_cell pat) col).

(** ** [pd.to_datetime(column, format = fmt, utc = flag)] *)

(** The directives the descriptors use, and literal characters. *)
Inductive directive : Type :=
| Dday                              (* %d *)
| Dmonth                            (* %m *)
| Dyear                             (* %Y *)
| Dliteral (c : ascii).

Fixpoint parse_directives (fmt : string) : result (list directive) :=
  match fmt with
  | EmptyString => Ok []
  | String "%" (String c rest) =>
      ds <- parse_directives rest ;;
      if Ascii.eqb c "d" then Ok (Dday :: ds)
      else if Ascii.eqb c "m" then Ok (Dmonth :: ds)
      else if Ascii.eqb c "Y" then Ok (Dyear :: ds)
      else Raise (ValueError "unsupported format directive")
  | String c rest =>
      ds <- parse_directives rest ;;
      Ok (Dliteral c :: ds)
  end.

(** The formats of the embedding.  pandas parses the ISO 8601 formats, which
    start with [%Y], with a parser of its own; of these the embedding has
    [%Y] alone, and it refuses a format that goes on after a leading [%Y]. *)
Definition parse_format (fmt : string) : result (list directive) :=
  ds <- parse_directives fmt ;;
  match ds with
  | Dyear :: _ :: _ => Raise (ValueError "unsupported format")
  | _ => Ok ds
  end.

Definition digit_of (a : ascii) : option Z :=
  let n := Z.of_nat (nat_of_ascii a) in
  if (48 <=? n) && (n <=? 57) then Some (n - 48) else None.

(** A candidate that reads two characters, or one. *)
Definition two_chars (s : string)
    (ok : ascii -> option Z -> option Z -> option Z) : list (Z * string) :=
  match s with
  | String a (String b rest) =>
      match ok a (digit_of a) (digit_of b) with
      | Some n => [(n, rest)]
      | None => []
      end
  | _ => []
  end.

Definition one_char (s : string) (ok : option Z -> option Z) : list (Z * string) :=
  match s with
  | String a rest =>
      match ok (digit_of a) with
      | Some n => [(n, rest)]
      | None => []
      end
  | EmptyString => []
  end.

Definition nonzero_digit (d : option Z) : option Z :=
  match d with
  | Some n => if 1 <=? n then Some n else None
  | None => None
  end.

(** The alternatives of each directive's regular expression, in the order
    the matcher tries them, each with the number read and the text left:
    - [%d] is [3[0-1]|[1-2]\d|0[1-9]|[1-9]| [1-9]],
    - [%m] is [1[0-2]|0[1-9]|[1-9]],
    - [%Y] is [\d\d\d\d]. *)
Definition candidates (d : directive) (s : string) : list (Z * string) :=
  match d with
  | Dday =>
      two_chars s (fun _ a b =>
        match a, b with
        | Some 3, Some y => if y <=? 1 then Some (30 + y) else None
        | _, _ => None
        end)
      ++ two_chars s (fun _ a b =>
        match a, b with
        | Some x, Some y => if (1 <=? x) && (x <=? 2) then Some (10 * x + y) else None
        | _, _ => None
        end)
      ++ two_chars s (fun _ a b =>
        match a, nonzero_digit b with
        | Some 0, Some y => Some y
        | _, _ => None
        end)
      ++ one_char s nonzero_digit
      ++ two_chars s (fun c _ b =>
        if Ascii.eqb c " " then nonzero_digit b else None)
  | Dmonth =>
      two_chars s (fun _ a b =>
        match a, b with
        | Some 1, Some y => if y <=? 2 then Some (10 + y) else None
        | _, _ => None
        end)
      ++ two_chars s (fun _ a b =>
        match a, nonzero_digit b with
        | Some 0, Some y => Some y
        | _, _ => None
        end)
      ++ one_char s nonzero_digit
  | Dyear =>
      match s with
      | String a (String b (String c (String d rest))) =>
          match digit_of a, digit_of b, digit_of c, digit_of d with
          | Some w, Some x, Some y, Some z => [(1000 * w + 100 * x + 10 * y + z, rest)]
          | _, _, _, _ => []
          end
      | _ => []
      end
  | Dliteral c =>
      match s with
      | String a rest => if Ascii.eqb a c then [(0, rest)] else []
      | EmptyString => []
      end
  end.

Record date_fields : Type := { year : Z; month : Z; day : Z }.

(** What [strptime] assumes for a field the format does not name. *)
Definition default_fields : date_fields := {| year := 1900; month := 1; day := 1 |}.

Definition set_field (d : directive) (n : Z) (f : date_fields) : date_fields :=
  match d with
  | Dday => {| year := year f; month := month f; day := n |}
  | Dmonth => {| year := year f; month := n; day := day f |}
  | Dyear => {| year := n; month := month f; day := day f |}
  | Dliteral _ => f
  end.

Fixpoint first_some {A B : Type} (f : A -> option B) (l : list A) : option B :=
  match l with
  | [] => None
  | a :: l' => match f a with Some b => Some b | None => first_some f l' end
  end.

(** The match of the whole format at the start of [s]: the fields read and
    the text left over. *)
Fixpoint match_format (ds : list directive) (s : string) (acc : date_fields)
    : option (date_fields * string) :=
  match ds with
  | [] => Some (acc, s)
  | d :: ds' =>
      first_some (fun c : Z * string => match_format ds' (snd c) (set_field d (fst c) acc))
                 (candidates d s)
  end.

Definition is_leap (y : Z) : bool :=
  ((y mod 4 =? 0) && negb (y mod 100 =? 0)) || (y mod 400 =? 0).

Definition days_in_month (y m : Z) : Z :=
  if m =? 2 then (if is_leap y then 29 else 28)
  else if (m =? 4) || (m =? 6) || (m =? 9) || (m =? 11) then 30
  else 31.

(** Days from 1970-01-01 to the given day of the proleptic Gregorian
    calendar. *)
Definition days_from_civil (y m d : Z) : Z :=
  let y' := if m <=? 2 then y - 1 else y in
  let era := y' / 400 in
  let yoe := y' - era * 400 in
  let mp := if 2 <? m then m - 3 else m + 9 in
  let doy := (153 * mp + 2) / 5 + d - 1 in
  let doe := yoe * 365 + yoe / 4 - yoe / 100 + doy in
  era * 146097 + doe - 719468.

Definition ns_per_day : Z := 86400 * 1000000000.

(** The largest magnitude of a [datetime64[ns]]; the least int64 is NaT. *)
Definition max_ns : Z := 9223372036854775807.

(** An instant that fits the nanosecond range, or [OutOfBoundsDatetime]. *)
Definition check_bounds (ns : Z) : result Z :=
  if (- max_ns <=? ns) && (ns <=? max_ns) then Ok ns
  else Raise (OutOfBoundsDatetime "Out of bounds nanosecond timestamp").

(** [_parse_with_format] on one string: the format has to match from the
    start and to leave nothing over, the day has to exist ([datetime.date]
    raises [ValueError] otherwise, as it does for a year below 1), and the
    instant has to fit the nanosecond range. *)
Definition parse_with_format (ds : list directive) (s : string) : result Z :=
  match match_format ds s default_fields with
  | None => Raise (ValueError "time data doesn't match format")
  | Some (f, String _ _) => Raise (ValueError "unconverted data remains")
  | Some (f, EmptyString) =>
      if year f <? 1 then Raise (ValueError "year is out of range")
      else if days_in_month (year f) (month f) <? day f
      then Raise (ValueError "day is out of range for month")
      else check_bounds (days_from_civil (year f) (month f) (day f) * ns_per_day)
  end.

Definition four_digit_number (s : string) : option Z :=
  match s with
  | String a (String b (String c (String d EmptyString))) =>
      match digit_of a, digit_of b, digit_of c, digit_of d with
      | Some w, Some x, Some y, Some z => Some (1000 * w + 100 * x + 10 * y + z)
      | _, _, _, _ => None
      end
  | _ => None
  end.

(** [string_to_dts] under the format [%Y]: the ISO 8601 parser reads a year
    of four digits, with or without a minus sign before them, and gives up on
    any other text. *)
Definition string_to_dts_year (s : string) : option Z :=
  match s with
  | String a t =>
      if Ascii.eqb a "-" then option_map Z.opp (four_digit_number t)
      else four_digit_number s
  | EmptyString => None
  end.

(** One string of [array_strptime]: under the ISO 8601 format [%Y] the year
    the ISO parser reads is taken as it is, so that only the nanosecond range
    can refuse it; a text the ISO parser gives up on, and any text under
    another format, goes to [_parse_with_format]. *)
Definition strptime (ds : list directive) (s : string) : result Z :=
  match ds with
  | [Dyear] =>
      match string_to_dts_year s with
      | Some y => check_bounds (days_from_civil y 1 1 * ns_per_day)
      | None => parse_with_format ds s
      end
  | _ => parse_with_format ds s
  end.

(** The strings read as NaT. *)
Definition nat_strings : list string := ["NaT"; "nat"; "NAT"; "nan"; "NaN"; "NAN"].

Definition str_of_int (z : Z) : string := NilZero.string_of_int (Z.to_int z).

(** The timezone of the result: UTC under [utc = True], none otherwise. *)
Definition result_tz (utc : bool) : option tzinfo := if utc then Some UTC else None.

(** The least int64, which stands for NaT where instants are counted in an
    int64. *)
Definition iNaT : Z := - 2 ^ 63.

(** One cell of [pd.to_datetime(column, format = fmt, utc = flag)] on the
    objects of a column.  A missing cell is NaT, and so is the int that stands
    for NaT; a string is parsed, an int is parsed from its decimal text; a
    timestamp stays, brought to UTC under [utc = True].  The text of a float,
    a bool, a list or a geometry matches none of the descriptors' formats. *)
Definition to_datetime_cell (ds : list directive) (utc : bool) (v : value) : result value :=
  match v with
  | VNone | VNaT => Ok VNaT
  | VFloat f =>
      if PrimFloat.is_nan f then Ok VNaT
      else Raise (ValueError "time data doesn't match format")
  | VStr s =>
      if String.eqb s "" || existsb (String.eqb s) nat_strings then Ok VNaT
      else ns <- strptime ds s ;; Ok (VTimestamp ns (result_tz utc))
  | VInt z =>
      if z =? iNaT then Ok VNaT
      else ns <- strptime ds (str_of_int z) ;; Ok (VTimestamp ns (result_tz utc))
  | VTimestamp ns tz => Ok (VTimestamp ns (if utc then Some UTC else tz))
  | VBool _ | VList _ | VGeom _ => Raise (ValueError "time data doesn't match format")
  end.

(** A finite float cut off at its decimal point. *)
Definition trunc_float (f : float) : option Z :=
  match Prim2SF f with
  | S754_zero _ => Some 0
  | S754_finite sign m e =>
      let magnitude := if 0 <=? e then Z.shiftl (Zpos m) e else Z.shiftr (Zpos m) (- e) in
      Some (if sign then - magnitude else magnitude)
  | S754_infinity _ | S754_nan => None
  end.

(** One cell of [data.astype('M8[ns]').view('i8')], which a float64 column
    goes through before it is parsed: a float is cut off to an int; NaN, the
    infinities and a float beyond the int64 range give the least int64 (as the
    conversion does on x86-64), which is NaT. *)
Definition float64_as_int (v : value) : value :=
  match v with
  | VFloat f =>
      match trunc_float f with
      | Some z => if (iNaT <? z) && (z <? 2 ^ 63) then VInt z else VNaT
      | None => VNaT
      end
  | _ => v
  end.

(** [maybe_convert_dtype]: a float64 column is read as the int64 view of
    instants, a bool column is refused, any other column is taken as it
    is. *)
Definition maybe_convert_dtype (column : Series) : result Series :=
  match dtype_of column with
  | Dfloat64 => Ok (map float64_as_int column)
  | Dbool => Raise (TypeError "dtype bool cannot be converted to datetime64[ns]")
  | _ => Ok column
  end.

Definition to_datetime (column : Series) (format : string) (utc : bool) : result Series :=
  ds <- parse_format format ;;
  objects <- maybe_convert_dtype column ;;
  mapM (to_datetime_cell ds utc) objects.

(** A cell that is an instant with a timezone. *)
Definition tz_aware (v : value) : bool :=
  match v with
  | VTimestamp _ (Some _) => true
  | _ => false
  end.

(** A cell that is an instant without one. *)
Definition tz_naive (v : value) : bool :=
  match v with
  | VTimestamp _ None => true
  | _ => false
  end.

(** ** numpy: dtypes, [np.where] and arithmetic *)

(** [np.result_type] on the five dtypes: object takes all, float64 takes the
    numbers, int64 and uint64 have only float64 in common, and bool goes with
    anything. *)
Definition result_type (a b : dtype) : dtype :=
  match a, b with
  | Dobject, _ | _, Dobject => Dobject
  | Dfloat64, _ | _, Dfloat64 => Dfloat64
  | Dint64, Duint64 | Duint64, Dint64 => Dfloat64
  | Dint64, _ | _, Dint64 => Dint64
  | Duint64, _ | _, Duint64 => Duint64
  | Dbool, Dbool => Dbool
  end.

(** One cell cast to a dtype that holds it. *)
Definition astype (d : dtype) (v : value) : value :=
  match d, v with
  | Dfloat64, VInt z => VFloat (float_of_Z z)
  | Dfloat64, VBool b => VFloat (float_of_Z (Z_of_bool b))
  | Dint64, VBool b | Duint64, VBool b => VInt (Z_of_bool b)
  | _, _ => v
  end.

(** Truth of a cell of a condition. *)
Definition truthy (v : value) : bool :=
  match v with
  | VBool b => b
  | VInt z => negb (z =? 0)
  | VFloat f => negb (PrimFloat.eqb f 0)
  | VStr s => negb (String.eqb s "")
  | VList l => nonempty l
  | VNone => false
  | _ => true
  end.

Fixpoint where_cells (cond x y : Series) : Series :=
  match cond, x, y with
  | c :: cond', a :: x', b :: y' => (if truthy c then a else b) :: where_cells cond' x' y'
  | _, _, _ => []
  end.

(** [np.where(cond, x, y)] on three columns of one length: both branches are
    brought to their common dtype, then each cell is taken from [x] where the
    condition holds and from [y] where it does not. *)
Definition np_where (cond x y : Series) : result Series :=
  if (List.length cond =? List.length x)%nat && (List.length cond =? List.length y)%nat then
    let d := result_type (dtype_of x) (dtype_of y) in
    Ok (where_cells cond (map (astype d) x) (map (astype d) y))
  else Raise (ValueError "operands could not be broadcast together").

(** One cell of [column / n] for an int [n]. *)
Definition truediv_cell (n : Z) (v : value) : result value :=
  match v with
  | VFloat f => Ok (VFloat (PrimFloat.div f (float_of_Z n)))
  | VInt z => Ok (VFloat (PrimFloat.div (float_of_Z z) (float_of_Z n)))
  | VBool b => Ok (VFloat (PrimFloat.div (float_of_Z (Z_of_bool b)) (float_of_Z n)))
  | _ => Raise (TypeError "unsupported operand type(s) for /")
  end.

Definition truediv (column : Series) (n : Z) : result Series :=
  mapM (truediv_cell n) column.

(** ** geopandas: [GeoSeries.make_valid()] and [GeoDataFrame.area]

    The two geometry operations are the GEOS library's; they are taken as
    they come. *)

Section Geometry.

Variable make_valid_geom : geometry -> geometry.
Variable geom_area : geometry -> float.

Definition make_valid_cell (v : value) : result value :=
  match v with
  | VGeom g => Ok (VGeom (make_valid_geom g))
  | VNone => Ok VNone
  | _ => Raise (TypeError "not a geometry")
  end.

Definition make_valid (column : Series) : result Series :=
  mapM make_valid_cell column.

Definition area_cell (v : value) : result value :=
  match v with
  | VGeom g => Ok (VFloat (geom_area g))
  | VNone => Ok VNaN
  | _ => Raise (TypeError "not a geometry")
  end.

(** [gdf.area]: the area of every cell of the frame's geometry column. *)
Definition area (gdf : DataFrame) : result Series :=
  geoms <- getitem gdf "geometry" ;;
  mapM area_cell geoms.

End Geometry.

End Pandas.
Import Pandas.

(* ===================================================================== *)
(** * Schemas and descriptors: the arguments of [convert_utils.convert] *)
(* ===================================================================== *)

Module Schema.

(** The type names of the schema fragments. *)
Inductive type_name : Type :=
| t_int16 | t_int64 | t_float | t_string | t_boolean | t_array | t_date_time | t_geometry.

Definition type_name_eqb (a b : type_name) : bool :=
  match a, b with
  | t_int16, t_int16 | t_int64, t_int64 | t_float, t_float | t_string, t_string
  | t_boolean, t_boolean | t_array, t_array | t_date_time, t_date_time
  | t_geometry, t_geometry => true
  | _, _ => false
  end.

(** The schema of the elements of an array property: the dict under
    ['items'].  A key the dict does not have is [None]. *)
Record items_schema : Type := {
  items_type : type_name;
  minLength : option Z;
  maxLength : option Z;
  pattern : option string
}.

(** One property's schema: the dict under its name in ['properties']. *)
Record property_schema : Type := {
  type : type_name;
  items : option items_schema;
  exclusiveMinimum : option Z;
  minimum : option Z;
  maximum : option Z
}.

(** [{'type': t}] and nothing else. *)
Definition of_type (t : type_name) : property_schema :=
  {| type := t; items := None; exclusiveMinimum := None; minimum := None; maximum := None |}.

(** A schema source: its ['required'] list and its ['properties']. *)
Record schema : Type := {
  required : list string;
  properties : list (string * property_schema)
}.

Fixpoint lookup (ps : list (string * property_schema)) (name : string) : option property_schema :=
  match ps with
  | [] => None
  | (n, p) :: rest => if String.eqb n name then Some p else lookup rest name
  end.

Definition mem (name : string) (l : list string) : bool := existsb (String.eqb name) l.

End Schema.
Import Schema.

Module Descriptor.

(** The value of a key of [COLUMNS]: one target name, or a list of them. *)
Inductive target : Type :=
| Target (name : string)
| Targets (names : list string).

Definition targets_of (t : target) : list string :=
  match t with
  | Target n => [n]
  | Targets ns => ns
  end.

(** What a dataset module hands to [convert_]; the texts (title, description,
    provider, license) and the source locator take no part in the table. *)
Record descriptor : Type := {
  id : string;
  columns : list (string * target);
  migration : option (DataFrame -> result DataFrame);
  column_filters : list (string * (Series -> result Series));
  column_migrations : list (string * (Series -> result Series));
  extensions : list string;
  missing_schemas : schema
}.

Fixpoint lookup_target (cs : list (string * target)) (source : string) : option target :=
  match cs with
  | [] => None
  | (n, t) :: rest => if String.eqb n source then Some t else lookup_target rest source
  end.

(** Every target name the column map declares. *)
Definition target_names (cs : list (string * target)) : list string :=
  flat_map (fun c => targets_of (snd c)) cs.

Fixpoint lookup_hook (hs : list (string * (Series -> result Series))) (name : string)
    : option (Series -> result Series) :=
  match hs with
  | [] => None
  | (n, f) :: rest => if String.eqb n name then Some f else lookup_hook rest name
  end.

End Descriptor.
Import Descriptor.

(* ===================================================================== *)
(** * The conversion pipeline, [convert_utils.convert] *)
(* ===================================================================== *)

Module Pipeline.

Section Engine.

(** The base standard's schema, the loader of a named extension's schema and
    the matcher of a ['pattern'] constraint are not part of the dataset
    modules; the engine takes them as they are given. *)
Variable base_schema : schema.
Variable extension_schema : string -> schema.
Variable matches_pattern : string -> string -> bool.

Definition same_length (a b : Series) : bool := (List.length a =? List.length b)%nat.

(** Every column as long as the first. *)
Definition aligned (gdf : DataFrame) : bool :=
  match gdf with
  | [] => true
  | (_, first) :: rest => forallb (fun c => same_length (snd c) first) rest
  end.

(** Modelled from the spec: stage 1, Global Migration (section 4.1), which
    is in [convert_utils.convert]: the whole-table transform of the
    descriptor, a no-op when none is configured; a table whose columns differ
    in length afterwards is a cardinality error (section 7). *)
Definition global_migration (d : descriptor) (gdf : DataFrame) : result DataFrame :=
  match migration d with
  | None => Ok gdf
  | Some f =>
      out <- f gdf ;;
      if aligned out then Ok out
      else Raise (CardinalityError "global migration: column lengths differ")
  end.

(** The cells of the rows whose mask cell holds, in their order. *)
Fixpoint select_rows (mask cells : Series) : Series :=
  match mask, cells with
  | m :: mask', c :: cells' =>
      if truthy m then c :: select_rows mask' cells' else select_rows mask' cells'
  | _, _ => []
  end.

(** Modelled from the spec: one declared filter of the Row Filter Engine
    (section 4.2), which is in [convert_utils.convert]: the named column must
    exist (configuration error otherwise); only the rows where the predicate
    holds are kept, in their order. *)
Definition apply_filter (gdf : DataFrame) (f : string * (Series -> result Series))
    : result DataFrame :=
  match get_column gdf (fst f) with
  | None => Raise (ConfigurationError "row filter: column not found")
  | Some column =>
      mask <- snd f column ;;
      if forallb (fun c => same_length (snd c) mask) gdf
      then Ok (map (fun c => (fst c, select_rows mask (snd c))) gdf)
      else Raise (CardinalityError "row filter: mask length differs from row count")
  end.

(** Modelled from the spec: stage 2, Row Filtering (section 4.2): the
    declared filters one after the other, so that a row survives when every
    predicate holds for it. *)
Fixpoint row_filtering (fs : list (string * (Series -> result Series))) (gdf : DataFrame)
    : result DataFrame :=
  match fs with
  | [] => Ok gdf
  | f :: fs' => gdf' <- apply_filter gdf f ;; row_filtering fs' gdf'
  end.

(** Modelled from the spec: one declared migration of the Column Migration
    Engine (section 4.3), which is in [convert_utils.convert]: the named
    column must exist; the transform receives that whole column, its output
    replaces the column and must be as long as its input (fatal otherwise). *)
Definition apply_migration (gdf : DataFrame) (m : string * (Series -> result Series))
    : result DataFrame :=
  match get_column gdf (fst m) with
  | None => Raise (ConfigurationError "column migration: column not found")
  | Some column =>
      out <- snd m column ;;
      if same_length out column then Ok (setitem gdf (fst m) out)
      else Raise (CardinalityError "column migration: output length differs from input length")
  end.

(** Modelled from the spec: stage 3, Column Migration (section 4.3). *)
Fixpoint column_migration (ms : list (string * (Series -> result Series))) (gdf : DataFrame)
    : result DataFrame :=
  match ms with
  | [] => Ok gdf
  | m :: ms' => gdf' <- apply_migration gdf m ;; column_migration ms' gdf'
  end.

(** Modelled from the spec: stage 4, Column Duplication (sections 4.1 and
    4.4), which is in [convert_utils.convert]: a source column mapped to a
    list of target names is copied under each of them. *)
Definition duplicate_column (gdf : DataFrame) (c : string * target) : DataFrame :=
  match snd c, get_column gdf (fst c) with
  | Targets names, Some cells => fold_left (fun g name => setitem g name cells) names gdf
  | _, _ => gdf
  end.

Definition column_duplication (cs : list (string * target)) (gdf : DataFrame) : DataFrame :=
  fold_left duplicate_column cs gdf.

(** Modelled from the spec: stage 5, Column Renaming (sections 4.1 and
    4.4): a source column mapped to one target name takes that name, where it
    stands. *)
Definition rename_column (cs : list (string * target)) (c : string * Series)
    : string * Series :=
  match lookup_target cs (fst c) with
  | Some (Target name) => (name, snd c)
  | _ => c
  end.

Definition column_renaming (cs : list (string * target)) (gdf : DataFrame) : DataFrame :=
  map (rename_column cs) gdf.

(** Modelled from the spec: stage 6, Column Pruning (section 4.1): any
    column not named as a target is dropped. *)
Definition column_pruning (cs : list (string * target)) (gdf : DataFrame) : DataFrame :=
  filter (fun c => mem (fst c) (target_names cs)) gdf.

(** Modelled from the spec: stages 4 to 6, Column Projection (section 4.4),
    which is in [convert_utils.convert]: every source column the map names
    must exist (configuration error otherwise); then duplication, renaming
    and pruning. *)
Definition column_projection (cs : list (string * target)) (gdf : DataFrame)
    : result DataFrame :=
  if forallb (fun c => existsb (String.eqb (fst c)) (column_names gdf)) cs
  then Ok (column_pruning cs (column_renaming cs (column_duplication cs gdf)))
  else Raise (ConfigurationError "column map: source column not found").

(** The schema sources of the standard, lowest priority first: the base
    standard, then the extensions in declaration order. *)
Definition standard_sources (d : descriptor) : list schema :=
  base_schema :: map extension_schema (extensions d).

Definition all_sources (d : descriptor) : list schema :=
  (standard_sources d ++ [missing_schemas d])%list.

(** The definition of the last source that has one. *)
Definition standard_property (d : descriptor) (name : string) : option property_schema :=
  fold_left (fun found s =>
               match lookup (properties s) name with
               | Some p => Some p
               | None => found
               end)
            (standard_sources d) None.

(** Modelled from the spec: the property-to-type map of the Schema Resolver
    (sections 3 and 4.5), which is in [convert_utils.convert]: the base
    standard, overridden by the extensions in declaration order; the
    dataset's fragment only for a property those do not define. *)
Definition resolve_property (d : descriptor) (name : string) : option property_schema :=
  match standard_property d name with
  | Some p => Some p
  | None => lookup (properties (missing_schemas d)) name
  end.

(** Required by any source. *)
Definition is_required (d : descriptor) (name : string) : bool :=
  existsb (fun s => mem name (required s)) (all_sources d).

(** A property both sources require, defined by both with different
    types. *)
Definition conflict (a b : schema) : bool :=
  existsb (fun name =>
             mem name (required b) &&
             match lookup (properties a) name, lookup (properties b) name with
             | Some p, Some q => negb (type_name_eqb (type p) (type q))
             | _, _ => false
             end)
          (required a).

Fixpoint any_conflict (l : list schema) : bool :=
  match l with
  | [] => false
  | a :: rest => existsb (conflict a) rest || any_conflict rest
  end.

(** Modelled from the spec: stage 8, Schema Resolution (section 4.5):
    conflicting required declarations are a fatal configuration error, and
    the resolved schema must cover every target column. *)
Definition schema_resolution (d : descriptor) : result (string -> option property_schema) :=
  if any_conflict (all_sources d)
  then Raise (ConfigurationError "conflicting required property types")
  else if forallb (fun name => match resolve_property d name with Some _ => true | None => false end)
                  (target_names (columns d))
  then Ok (resolve_property d)
  else Raise (ConfigurationError "target column without schema").

(** What coercion makes of one cell that is not null: a value of the declared
    type, or a violation. *)
Inductive outcome : Type :=
| Fits (v : value)
| Violates (msg : string).

Definition option_holds {A : Type} (o : option A) (ok : A -> bool) : bool :=
  match o with
  | Some a => ok a
  | None => true
  end.

(** The declared numeric range, on a float. *)
Definition in_range (p : property_schema) (f : float) : bool :=
  option_holds (exclusiveMinimum p) (fun m => PrimFloat.ltb (float_of_Z m) f)
  && option_holds (minimum p) (fun m => PrimFloat.leb (float_of_Z m) f)
  && option_holds (maximum p) (fun m => PrimFloat.leb f (float_of_Z m)).

(** The declared numeric range, on an integer. *)
Definition in_range_Z (p : property_schema) (z : Z) : bool :=
  option_holds (exclusiveMinimum p) (fun m => m <? z)
  && option_holds (minimum p) (fun m => m <=? z)
  && option_holds (maximum p) (fun m => z <=? m).

Definition coerce_float (p : property_schema) (f : float) : outcome :=
  if in_range p f then Fits (VFloat f) else Violates "value out of range".

Definition coerce_int (bits : Z) (p : property_schema) (z : Z) : outcome :=
  if (- 2 ^ (bits - 1) <=? z) && (z <? 2 ^ (bits - 1)) && in_range_Z p z
  then Fits (VInt z) else Violates "value out of range".

Definition element_ok (i : items_schema) (s : string) : bool :=
  option_holds (minLength i) (fun n => n <=? Z.of_nat (String.length s))
  && option_holds (maxLength i) (fun n => Z.of_nat (String.length s) <=? n)
  && option_holds (pattern i) (fun pat => matches_pattern pat s).

(** Modelled from the spec: the Type Coercion Engine on one cell (section
    4.6), which is in [convert_utils.convert]: numbers are checked against
    the type's range and the declared minimum, maximum and exclusive minimum;
    every element of an array of strings is validated; a boolean must already
    be one; an instant is normalised to a timezone-aware one. *)
Definition coerce_cell (p : property_schema) (v : value) : outcome :=
  match type p, v with
  | t_float, VFloat f => coerce_float p f
  | t_float, VInt z => coerce_float p (float_of_Z z)
  | t_int16, VInt z => coerce_int 16 p z
  | t_int64, VInt z => coerce_int 64 p z
  | t_string, VStr s => Fits (VStr s)
  | t_boolean, VBool b => Fits (VBool b)
  | t_array, VList l =>
      if forallb (fun s => option_holds (items p) (fun i => element_ok i s)) l
      then Fits (VList l) else Violates "array element does not conform"
  | t_date_time, VTimestamp ns _ => Fits (VTimestamp ns (Some UTC))
  | t_geometry, VGeom g => Fits (VGeom g)
  | _, _ => Violates "value cannot be converted to the declared type"
  end.

(** Modelled from the spec: coercion of one column (sections 4.6 and 7): a
    violation is fatal for a required property and becomes null with a
    warning for an optional one; a required property must have no null. *)
Fixpoint coerce_cells (name : string) (req : bool) (p : property_schema) (cells : Series)
    : result (Series * list string) :=
  match cells with
  | [] => Ok ([], [])
  | v :: rest =>
      first <-
        (if isna v then
           if req then Raise (CoercionError ("required property is null: " ++ name))
           else Ok (v, [])
         else
           match coerce_cell p v with
           | Fits w => Ok (w, [])
           | Violates msg =>
               if req then Raise (CoercionError (msg ++ ": " ++ name))
               else Ok (VNone, [msg ++ ": " ++ name])
           end) ;;
      others <- coerce_cells name req p rest ;;
      Ok (fst first :: fst others, (snd first ++ snd others)%list)
  end.

(** Modelled from the spec: stage 9, Type Coercion against the resolved
    schema, column by column; a column without an entry in the resolved
    schema is an error (section 3). *)
Fixpoint type_coercion (d : descriptor) (resolved : string -> option property_schema)
    (gdf : DataFrame) : result (DataFrame * list string) :=
  match gdf with
  | [] => Ok ([], [])
  | (name, cells) :: rest =>
      match resolved name with
      | None => Raise (ConfigurationError "column without schema")
      | Some p =>
          first <- coerce_cells name (is_required d name) p cells ;;
          others <- type_coercion d resolved rest ;;
          Ok ((name, fst first) :: fst others, (snd first ++ snd others)%list)
      end
  end.

(** Modelled from the spec: stages 1 to 6 of the Pipeline Orchestrator
    (section 4.1), in their fixed order. *)
Definition column_stages (d : descriptor) (gdf : DataFrame) : result DataFrame :=
  migrated <- global_migration d gdf ;;
  filtered <- row_filtering (column_filters d) migrated ;;
  transformed <- column_migration (column_migrations d) filtered ;;
  column_projection (columns d) transformed.

(** Modelled from the spec: the Pipeline Orchestrator (section 4.1), which is
    [convert_utils.convert]: the stages in their fixed order; any error
    aborts the run.  The result is the table handed to the output sink and
    the warnings raised on the way.  The collection metadata (stage 7) is
    built beside the table and does not change it. *)
Definition convert (d : descriptor) (gdf : DataFrame) : result (DataFrame * list string) :=
  projected <- column_stages d gdf ;;
  resolved <- schema_resolution d ;;
  type_coercion d resolved projected.

End Engine.

End Pipeline.

(* ===================================================================== *)
(** * [fiboa_cli/datasets/de_th.py] *)
(* ===================================================================== *)

Module De_th.

Definition ID : string := "de_th".

Definition EXTENSIONS : list string :=
  ["https://fiboa.github.io/flik-extension/v0.1.0/schema.yaml"].

Definition COLUMNS : list (string * target) :=
  [ ("geometry", Target "geometry");
    ("BEZUGSJAHR", Target "valid_year");
    ("FBI", Target "flik");
    ("FBI_KURZ", Target "id");
    ("FB_FLAECHE", Target "area");
    ("FBI_VJ", Target "flik_last_year");
    ("FB_FL_VJ", Target "area_last_year");
    ("TK10", Target "tk10");
    ("AFO", Target "afo");
    ("BNK", Target "bnk");
    ("KOND_LE", Target "kond_le");
    ("AENDERUNG", Target "change");
    ("GEO_UPDAT", Target "determination_datetime") ].

(** [re.compile(r'\s*,\s*')] *)
Definition delim : regex :=
  [ZeroOrMore Whitespace; Once (Char ","); ZeroOrMore Whitespace].

(** [lambda column: column.map({'J': True}).fillna(value=False)] *)
Definition migrate_AFO (column : Series) : result Series :=
  mapped <- series_map [("J", VBool true)] column ;;
  Ok (fillna (VBool false) mapped).

(** [lambda column: column.map({'J': True}).fillna(value=False)] *)
Definition migrate_KOND_LE (column : Series) : result Series :=
  mapped <- series_map [("J", VBool true)] column ;;
  Ok (fillna (VBool false) mapped).

(** [lambda column: column.map({'Geaendert': True, 'Unveraendert': False, 'Neu': None})] *)
Definition migrate_AENDERUNG (column : Series) : result Series :=
  series_map [("Geaendert", VBool true); ("Unveraendert", VBool false); ("Neu", VNone)] column.

(** [lambda column: column.str.split(delim, regex = True)] *)
Definition migrate_FBI_VJ (column : Series) : result Series :=
  str_split delim column.

Definition COLUMN_MIGRATIONS : list (string * (Series -> result Series)) :=
  [ ("AFO", migrate_AFO);
    ("KOND_LE", migrate_KOND_LE);
    ("AENDERUNG", migrate_AENDERUNG);
    ("FBI_VJ", migrate_FBI_VJ) ].

Definition migrate (gdf : DataFrame) : result DataFrame :=
  let col := "GEO_UPDAT" in
  old <- getitem gdf col ;;
  new <- to_datetime old "%d.%m.%Y" true ;;
  Ok (setitem gdf col new).

Definition MIGRATION : DataFrame -> result DataFrame := migrate.

(** [lambda col: col == "LF"] *)
Definition filter_LF (col : Series) : result Series :=
  Ok (series_eq col (VStr "LF")).

Definition COLUMN_FILTERS : list (string * (Series -> result Series)) :=
  [ ("LF", filter_LF) ].

Definition MISSING_SCHEMAS : schema :=
  {| required := ["valid_year"; "area_last_year"; "tk10"; "bnk"];
     properties :=
       [ ("valid_year", of_type t_int16);
         ("flik_last_year",
           {| type := t_array;
              items := Some {| items_type := t_string;
                               minLength := Some 16;
                               maxLength := Some 16;
                               pattern := Some "^[A-Z]{2}[A-Z0-9]{2}[A-Z0-9]{2}[A-Z0-9]{10}$" |};
              exclusiveMinimum := None; minimum := None; maximum := None |});
         ("area_last_year",
           {| type := t_float;
              items := None;
              exclusiveMinimum := Some 0; minimum := None; maximum := Some 100000 |});
         ("tk10", of_type t_string);
         ("afo", of_type t_boolean);
         ("bnk", of_type t_string);
         ("kond_le", of_type t_boolean);
         ("change", of_type t_boolean) ] |}.

(** The arguments of the call of [convert_] in [convert] that bear on the
    table. *)
Definition descriptor : Descriptor.descriptor :=
  {| id := ID;
     columns := COLUMNS;
     migration := Some MIGRATION;
     column_filters := COLUMN_FILTERS;
     column_migrations := COLUMN_MIGRATIONS;
     extensions := EXTENSIONS;
     missing_schemas := MISSING_SCHEMAS |}.

(** [convert]: the call of [convert_] on the table read from the source. *)
Definition convert (base_schema : schema) (extension_schema : string -> schema)
    (matches_pattern : string -> string -> bool) (gdf : DataFrame)
    : result (DataFrame * list string) :=
  Pipeline.convert base_schema extension_schema matches_pattern descriptor gdf.

End De_th.

(* ===================================================================== *)
(** * [fiboa_cli/datasets/fi.py] *)
(* ===================================================================== *)

Module Fi.

Definition ID : string := "fi".

Definition COLUMNS : list (string * target) :=
  [ ("geometry", Target "geometry");
    ("PERUSLOHKOTUNNUS", Target "id");
    ("LOHKONUMERO", Target "block_id");
    ("area", Target "area");
    ("KASVIKOODI", Target "crop_code");
    ("KASVIKOODI_SELITE_FI", Target "crop_name") ].

(** The dict has no ['required'] key. *)
Definition MISSING_SCHEMAS : schema :=
  {| required := [];
     properties :=
       [ ("block_id", of_type t_int64);
         ("crop_name", of_type t_string);
         ("crop_code", of_type t_string) ] |}.

Section Geometry.

Variable make_valid_geom : geometry -> geometry.
Variable geom_area : geometry -> float.

Definition migrate (gdf : DataFrame) : result DataFrame :=
  (* Make year (1st january) from column "VUOSI" *)
  vuosi <- getitem gdf "VUOSI" ;;
  dt <- to_datetime vuosi "%Y" false ;;
  let gdf := setitem gdf "determination_datetime" dt in
  geoms <- getitem gdf "geometry" ;;
  valid <- make_valid make_valid_geom geoms ;;
  let gdf := setitem gdf "geometry" valid in
  pinta_ala <- getitem gdf "PINTA_ALA" ;;
  let cond := series_eq pinta_ala (VInt 0) in
  a <- area geom_area gdf ;;
  hectares <- truediv a 10000 ;;
  pinta_ala' <- getitem gdf "PINTA_ALA" ;;
  cells <- np_where cond hectares pinta_ala' ;;
  Ok (setitem gdf "area" cells).

Definition descriptor : Descriptor.descriptor :=
  {| id := ID;
     columns := COLUMNS;
     migration := Some migrate;
     column_filters := [];
     column_migrations := [];
     extensions := [];
     missing_schemas := MISSING_SCHEMAS |}.

(** [convert]: the call of [convert_] on the table read from the source. *)
Definition convert (base_schema : schema) (extension_schema : string -> schema)
    (matches_pattern : string -> string -> bool) (gdf : DataFrame)
    : result (DataFrame * list string) :=
  Pipeline.convert base_schema extension_schema matches_pattern descriptor gdf.

End Geometry.

End Fi.

(* ===================================================================== *)
(** * Predicates and cell functions used in the statements *)
(* ===================================================================== *)

(** A cell a source column can hold: anything but a list, which only the
    split of [FBI_VJ] produces. *)
Definition hashable (v : value) : bool :=
  match v with VList _ => false | _ => true end.

(** A missing value, a boolean, or neither. *)
Definition bool_or_null (v : value) : bool := is_bool v || isna v.

(** The cell [column.map({'J': True}).fillna(value=False)] gives. *)
Definition J_cell (v : value) : value :=
  match v with
  | VStr s => VBool (String.eqb s "J")
  | _ => VBool false
  end.

(** The cell [column.map({'Geaendert': True, 'Unveraendert': False, 'Neu': None})]
    gives. *)
Definition AENDERUNG_cell (v : value) : value :=
  match v with
  | VStr s =>
      if String.eqb s "Geaendert" then VBool true
      else if String.eqb s "Unveraendert" then VBool false
      else if String.eqb s "Neu" then VNone
      else VNaN
  | _ => VNaN
  end.

(** A string or [None]: what a text column of the source holds. *)
Definition str_or_None (v : value) : bool :=
  match v with VStr _ | VNone => true | _ => false end.

(** A string, [None] or NaN. *)
Definition str_or_missing (v : value) : bool :=
  match v with
  | VStr _ | VNone => true
  | VFloat f => PrimFloat.is_nan f
  | _ => false
  end.




(** The schema of [area_last_year] in the missing-schema fragment of
    [de_th]. *)
Definition area_last_year_schema : property_schema :=
  {| type := t_float; items := None;
     exclusiveMinimum := Some 0; minimum := None; maximum := Some 100000 |}.

(** An instant without a timezone is the one kind of cell that is not
    normalised. *)
Definition normalised (v : value) : bool := negb (tz_naive v).

(* ===================================================================== *)
(** * Sample schemas and tables for the concrete runs *)
(* ===================================================================== *)

Module Sample.

(** A base schema with the properties of the standard that the two datasets
    use. *)
Definition base_schema : schema :=
  {| required := ["id"; "geometry"];
     properties :=
       [ ("id", of_type t_string);
         ("geometry", of_type t_geometry);
         ("area",
           {| type := t_float; items := None;
              exclusiveMinimum := Some 0; minimum := None; maximum := Some 100000 |});
         ("determination_datetime", of_type t_date_time) ] |}.

(** The schema of the one extension [de_th] names. *)
Definition extension_schema (url : string) : schema :=
  {| required := ["flik"]; properties := [("flik", of_type t_string)] |}.

Definition upper_or_digit (a : ascii) : bool :=
  let n := Z.of_nat (nat_of_ascii a) in
  ((65 <=? n) && (n <=? 90)) || ((48 <=? n) && (n <=? 57)).

(** A matcher for the one pattern of the fragments: capital letters and
    digits only. *)
Definition matches_pattern (pat s : string) : bool :=
  forallb upper_or_digit (list_ascii_of_string s).

Definition square : value := VGeom "POLYGON ((0 0, 500 0, 500 500, 0 500, 0 0))".

(** [make_valid] leaves a valid polygon as it is; the square has 250000
    square metres. *)
Definition make_valid_geom (g : geometry) : geometry := g.
Definition geom_area (g : geometry) : float := 250000%float.

(** Three field blocks of Thuringia; the third is no agricultural area. *)
Definition de_th_table : DataFrame :=
  [ ("geometry", [square; square; square]);
    ("BEZUGSJAHR", [VInt 2023; VInt 2023; VInt 2023]);
    ("FBI", [VStr "DETHLI0512340001"; VStr "DETHLI0512340002"; VStr "DETHLI0512340003"]);
    ("FBI_KURZ", [VStr "0512340001"; VStr "0512340002"; VStr "0512340003"]);
    ("FB_FLAECHE", [VFloat 25; VFloat 1.5; VFloat 3]);
    ("FBI_VJ", [VStr "DETHLI0512340001"; VStr "DETHLI0512340002 , DETHLI0512340009"; VNone]);
    ("FB_FL_VJ", [VFloat 25; VFloat 1.25; VFloat 3]);
    ("TK10", [VStr "5032-SW"; VStr "5032-SW"; VStr "5032-SO"]);
    ("AFO", [VStr "J"; VStr "N"; VNone]);
    ("LF", [VStr "LF"; VStr "LF"; VStr "XX"]);
    ("BNK", [VStr "AL"; VStr "GL"; VStr "NW"]);
    ("KOND_LE", [VStr "N"; VStr "J"; VStr "N"]);
    ("AENDERUNG", [VStr "Geaendert"; VStr "Unveraendert"; VStr "Neu"]);
    ("GEO_UPDAT", [VStr "24.12.2023"; VStr "01.03.2024"; VStr "5.1.2022"]) ].

(** The same blocks, the second with no area in the year before. *)
Definition de_th_table_zero : DataFrame :=
  setitem de_th_table "FB_FL_VJ" [VFloat 25; VFloat 0; VFloat 3].

(** Two parcels of Finland; the second has no recorded area. *)
Definition fi_table : DataFrame :=
  [ ("geometry", [square; square]);
    ("PERUSLOHKOTUNNUS", [VStr "0010000123"; VStr "0010000456"]);
    ("LOHKONUMERO", [VInt 1; VInt 2]);
    ("VUOSI", [VInt 2023; VInt 2023]);
    ("PINTA_ALA", [VFloat 1.5; VFloat 0]);
    ("KASVIKOODI", [VStr "1110"; VStr "6121"]);
    ("KASVIKOODI_SELITE_FI", [VStr "Kevatvehna"; VStr "Nurmi"]) ].

Definition unwrap {A : Type} (default : A) (r : result A) : A :=
  match r with
  | Ok a => a
  | Raise _ => default
  end.

(** The sample tables after the global migrations, and the outputs of the
    sample runs. *)
Definition de_th_migrated : DataFrame :=
  Eval vm_compute in unwrap [] (De_th.migrate de_th_table).

Definition fi_migrated : DataFrame :=
  Eval vm_compute in unwrap [] (Fi.migrate make_valid_geom geom_area fi_table).

Definition de_th_output : DataFrame * list string :=
  Eval vm_compute in
    unwrap ([], []) (De_th.convert base_schema extension_schema matches_pattern de_th_table).

Definition fi_output : DataFrame * list string :=
  Eval vm_compute in
    unwrap ([], []) (Fi.convert make_valid_geom geom_area base_schema extension_schema
                       matches_pattern fi_table).

End Sample.

(* ===================================================================== *)
(** * Texts used in the statements on splitting and parsing *)
(* ===================================================================== *)

Fixpoint string_forall (p : ascii -> bool) (s : string) : bool :=
  match s with
  | EmptyString => true
  | String a r => p a && string_forall p r
  end.

Definition is_comma (a : ascii) : bool := Ascii.eqb a ",".

(** A text without a comma. *)
Definition no_comma (s : string) : bool := string_forall (fun a => negb (is_comma a)) s.

(** A text of whitespace only. *)
Definition all_space (s : string) : bool := string_forall is_space s.

(** A code: a text with neither whitespace nor a comma in it. *)
Definition code_like (s : string) : bool :=
  string_forall (fun a => negb (is_space a) && negb (is_comma a)) s.

Definition nonempty_string (s : string) : bool :=
  match s with EmptyString => false | String _ _ => true end.

(** Codes written one after the other, each behind a comma that may have
    whitespace on either side: [(before, after, code)] stands for
    [before , after code]. *)
Fixpoint join_codes (rest : list (string * string * string)) : string :=
  match rest with
  | [] => EmptyString
  | (before, after, code) :: rest' =>
      before ++ String "," (after ++ code ++ join_codes rest')
  end.

Definition separator_ok (x : string * string * string) : bool :=
  all_space (fst (fst x)) && all_space (snd (fst x))
  && code_like (snd x) && nonempty_string (snd x).

(** The character of a digit. *)
Definition digit_char (k : Z) : ascii := ascii_of_nat (48 + Z.to_nat k).

(** A number below 100 in two digits, a number below 10000 in four. *)
Definition two_digits (n : Z) : string :=
  String (digit_char (n / 10)) (String (digit_char (n mod 10)) EmptyString).

Definition four_digits (y : Z) : string :=
  String (digit_char (y / 1000))
    (String (digit_char (y / 100 mod 10))
       (String (digit_char (y / 10 mod 10))
          (String (digit_char (y mod 10)) EmptyString))).

(** A day or a month as it is written: with a leading zero or, below 10,
    without one. *)
Definition day_or_month_text (padded : bool) (n : Z) : string :=
  if padded || (10 <=? n) then two_digits n else String (digit_char n) EmptyString.

(** A date written day.month.year. *)
Definition date_text (pad_day pad_month : bool) (d m y : Z) : string :=
  day_or_month_text pad_day d
  ++ String "." (day_or_month_text pad_month m ++ String "." (four_digits y)).

(** A day of the calendar of the years 1 to 9999. *)
Definition valid_date (y m d : Z) : bool :=
  (1 <=? y) && (y <=? 9999) && (1 <=? m) && (m <=? 12)
  && (1 <=? d) && (d <=? days_in_month y m).

(** Midnight of the first of January of a year, in nanoseconds since the
    epoch. *)
Definition first_of_january (y : Z) : Z := days_from_civil y 1 1 * ns_per_day.

(** What [pd.to_datetime(..., format = '%Y')] makes of the int [y], checked
    against the first of January: an instant without timezone for the years
    1678 to 2262, an out-of-bounds error for the others. *)
Definition year_cell_check (y : Z) : bool :=
  match to_datetime_cell [Dyear] false (VInt y) with
  | Ok (VTimestamp ns None) =>
      (1678 <=? y) && (y <=? 2262) && (ns =? first_of_january y)
  | Raise (OutOfBoundsDatetime _) => (y <? 1678) || (2262 <? y)
  | _ => false
  end.

(** The years written in four digits. *)
Definition four_digit_years : list Z :=
  map (fun k => 1000 + Z.of_nat k) (seq 0 (Z.to_nat 9000)).

(* ===================================================================== *)
(** * Lemmas on the operations *)
(* ===================================================================== *)

Section MapM.

Context {A B : Type} (f : A -> result B).

Lemma mapM_Forall2 (l : list A) (l' : list B) :
  mapM f l = Ok l' -> Forall2 (fun a b => f a = Ok b) l l'.
Proof.
  revert l'. induction l as [|a l IH]; intros l' H; simpl in H.
  - inversion H. constructor.
  - destruct (f a) as [b|e] eqn:Hf; [|discriminate].
    destruct (mapM f l) as [bs|e]; [|discriminate].
    inversion H; subst. constructor; auto.
Qed.

Lemma mapM_length (l : list A) (l' : list B) :
  mapM f l = Ok l' -> List.length l' = List.length l.
Proof.
  intros H. apply mapM_Forall2 in H.
  induction H; simpl; congruence.
Qed.

Lemma mapM_total (l : list A) :
  Forall (fun a => exists b, f a = Ok b) l -> exists l', mapM f l = Ok l'.
Proof.
  induction 1 as [|a l [b Hb] _ [l' IH]]; simpl.
  - eexists; reflexivity.
  - rewrite Hb, IH. eexists; reflexivity.
Qed.

Lemma mapM_pure (g : A -> B) (l : list A) :
  (forall a, In a l -> f a = Ok (g a)) -> mapM f l = Ok (map g l).
Proof.
  induction l as [|a l IH]; intros H; simpl; [reflexivity|].
  rewrite (H a (or_introl eq_refl)), IH; [reflexivity|].
  intros x Hx. apply H. now right.
Qed.

End MapM.

Lemma forallb_In {A : Type} (p : A -> bool) (l : list A) (a : A) :
  forallb p l = true -> In a l -> p a = true.
Proof. intros H Hin. rewrite forallb_forall in H. auto. Qed.

Lemma get_column_setitem_same (gdf : DataFrame) (col : string) (s : Series) :
  get_column (setitem gdf col s) col = Some s.
Proof.
  induction gdf as [|[name old] rest IH]; simpl.
  - now rewrite String.eqb_refl.
  - destruct (String.eqb name col) eqn:E; simpl; rewrite E; auto.
Qed.

Lemma get_column_setitem_other (gdf : DataFrame) (col col' : string) (s : Series) :
  col <> col' -> get_column (setitem gdf col s) col' = get_column gdf col'.
Proof.
  intros Hne. induction gdf as [|[name old] rest IH]; simpl.
  - destruct (String.eqb_spec col col'); congruence.
  - destruct (String.eqb_spec name col) as [->|Hn]; simpl.
    + destruct (String.eqb_spec col col'); congruence.
    + destruct (String.eqb name col'); auto.
Qed.

Lemma map_cell_J (v : value) :
  hashable v = true ->
  map_cell [("J", VBool true)] v
  = Ok (match v with
        | VStr s => if String.eqb s "J" then VBool true else VNaN
        | _ => VNaN
        end).
Proof.
  destruct v; try discriminate; intros _; try reflexivity.
  unfold map_cell, dict_get. rewrite (String.eqb_sym "J" s).
  destruct (String.eqb s "J"); reflexivity.
Qed.

Lemma map_cell_AENDERUNG (v : value) :
  hashable v = true ->
  map_cell [("Geaendert", VBool true); ("Unveraendert", VBool false); ("Neu", VNone)] v
  = Ok (AENDERUNG_cell v).
Proof.
  destruct v; try discriminate; intros _; try reflexivity.
  unfold map_cell, dict_get, AENDERUNG_cell.
  rewrite !(String.eqb_sym _ s).
  destruct (String.eqb s "Geaendert"); [reflexivity|].
  destruct (String.eqb s "Unveraendert"); [reflexivity|].
  destruct (String.eqb s "Neu"); reflexivity.
Qed.

Lemma migrate_AFO_cells (column : Series) :
  forallb hashable column = true ->
  De_th.migrate_AFO column = Ok (map J_cell column).
Proof.
  intros H. unfold De_th.migrate_AFO, series_map.
  rewrite (mapM_pure _ _ column
             (fun v Hv => map_cell_J v (forallb_In _ _ _ H Hv))).
  unfold bind, fillna. rewrite map_map. f_equal.
  apply map_ext. intros v. destruct v; try reflexivity.
  unfold J_cell. destruct (String.eqb s "J"); reflexivity.
Qed.

Lemma migrate_KOND_LE_cells (column : Series) :
  forallb hashable column = true ->
  De_th.migrate_KOND_LE column = Ok (map J_cell column).
Proof. exact (migrate_AFO_cells column). Qed.

Lemma migrate_AENDERUNG_cells (column : Series) :
  forallb hashable column = true ->
  De_th.migrate_AENDERUNG column = Ok (map AENDERUNG_cell column).
Proof.
  intros H. unfold De_th.migrate_AENDERUNG, series_map.
  apply mapM_pure. intros v Hv. apply map_cell_AENDERUNG.
  exact (forallb_In _ _ _ H Hv).
Qed.

Lemma J_cell_spec (v : value) :
  (v = VStr "J" -> J_cell v = VBool true) /\
  (v <> VStr "J" -> J_cell v = VBool false).
Proof.
  split; intros H.
  - subst. reflexivity.
  - destruct v; try reflexivity. unfold J_cell.
    destruct (String.eqb_spec s "J"); [subst; congruence | reflexivity].
Qed.

Lemma AENDERUNG_cell_spec (v : value) :
  (v = VStr "Geaendert" -> AENDERUNG_cell v = VBool true) /\
  (v = VStr "Unveraendert" -> AENDERUNG_cell v = VBool false) /\
  (v <> VStr "Geaendert" -> v <> VStr "Unveraendert" -> isna (AENDERUNG_cell v) = true).
Proof.
  repeat split; intros; subst; try reflexivity.
  destruct v; try reflexivity. unfold AENDERUNG_cell.
  destruct (String.eqb_spec s "Geaendert"); [subst; congruence|].
  destruct (String.eqb_spec s "Unveraendert"); [subst; congruence|].
  destruct (String.eqb s "Neu"); reflexivity.
Qed.

(** A value map that returns has met no list cell. *)
Lemma series_map_Ok_hashable (d : list (string * value)) (column out : Series) :
  series_map d column = Ok out -> forallb hashable column = true.
Proof.
  unfold series_map. intros H. apply mapM_Forall2 in H.
  induction H as [|v w vs ws' Hv F IH]; [reflexivity|].
  simpl. rewrite IH, andb_true_r. destruct v; try reflexivity. discriminate.
Qed.

Lemma migrate_AFO_Ok (column out : Series) :
  De_th.migrate_AFO column = Ok out -> out = map J_cell column.
Proof.
  intros H.
  assert (Hh : forallb hashable column = true).
  { unfold De_th.migrate_AFO in H.
    destruct (series_map [("J", VBool true)] column) as [m|e] eqn:Hm; [|discriminate].
    exact (series_map_Ok_hashable _ _ _ Hm). }
  rewrite (migrate_AFO_cells column Hh) in H. congruence.
Qed.

Lemma migrate_AENDERUNG_Ok (column out : Series) :
  De_th.migrate_AENDERUNG column = Ok out -> out = map AENDERUNG_cell column.
Proof.
  intros H.
  pose proof (series_map_Ok_hashable _ _ _ H) as Hh.
  rewrite (migrate_AENDERUNG_cells column Hh) in H. congruence.
Qed.

Lemma AENDERUNG_cell_values (v : value) :
  AENDERUNG_cell v = VBool true \/ AENDERUNG_cell v = VBool false \/
  isna (AENDERUNG_cell v) = true.
Proof.
  destruct v; try (right; right; reflexivity). unfold AENDERUNG_cell.
  destruct (String.eqb s "Geaendert"); [now left|].
  destruct (String.eqb s "Unveraendert"); [now (right; left)|].
  destruct (String.eqb s "Neu"); right; right; reflexivity.
Qed.

Lemma Forall2_map_right {A B : Type} (g : A -> B) (R : A -> B -> Prop) (l : list A) :
  (forall a, In a l -> R a (g a)) -> Forall2 R l (map g l).
Proof.
  induction l as [|a l IH]; intros H; simpl; constructor.
  - apply H. now left.
  - apply IH. intros x Hx. apply H. now right.
Qed.

(** ** The pattern [delim] *)

Lemma star_rests_length (c : char_class) (s r : string) :
  In r (star_rests c s) -> (String.length r <= String.length s)%nat.
Proof.
  induction s as [|a s IH]; simpl.
  - intros [<-|[]]. reflexivity.
  - destruct (in_class c a).
    + intros H. apply in_app_or in H as [H|[<-|[]]]; [|reflexivity].
      specialize (IH H). lia.
    + intros [<-|[]]. reflexivity.
Qed.

(** Every match of [delim] takes its comma: no match is empty, so [re.split]
    with [delim] never meets the empty match that [split_from] passes
    over. *)
Lemma delim_match_consumes (s r : string) :
  In r (matches_here De_th.delim s) -> (String.length r < String.length s)%nat.
Proof.
  unfold De_th.delim. cbn [matches_here]. intros H.
  apply in_flat_map in H as [s1 [H1 H]].
  apply star_rests_length in H1.
  destruct s1 as [|a r1]; [destruct H|].
  destruct (in_class (Char ",") a); [|destruct H].
  apply in_flat_map in H as [s2 [H2 [<-|[]]]].
  apply star_rests_length in H2. simpl in H1. lia.
Qed.

(** ** The [.str] accessor on a column of strings and missing values *)

Lemma filter_present_strings (column : Series) :
  forallb str_or_missing column = true ->
  forallb is_str (filter (fun v => negb (isna v)) column) = true
  /\ forallb is_str (filter (fun v => negb (is_null_obj v)) column) = true
  /\ existsb is_NaT column = false.
Proof.
  induction column as [|v column IH]; [auto|].
  cbn [forallb]. intros H. apply andb_prop in H as [Hv H].
  destruct (IH H) as [IH1 [IH2 IH3]].
  destruct v as [| |b|z|f|s|l|ns tz|g]; try discriminate.
  - cbn [filter isna is_null_obj negb existsb is_NaT orb]. auto.
  - cbn [str_or_missing] in Hv.
    cbn [filter isna is_null_obj existsb is_NaT orb]. rewrite Hv. cbn [negb]. auto.
  - cbn [filter isna is_null_obj negb existsb is_NaT orb forallb is_str andb]. auto.
Qed.

Lemma filter_all {A : Type} (q : A -> bool) (l : list A) :
  (forall a, In a l -> q a = true) -> filter q l = l.
Proof.
  induction l as [|a l IH]; intros H; [reflexivity|].
  cbn [filter]. rewrite (H a (or_introl eq_refl)), IH; [reflexivity|].
  intros x Hx. apply H. now right.
Qed.

(** The accessor takes a column of strings, [None] and NaN that is empty or
    holds a string or a [None]. *)
Lemma str_accessor_strings (column : Series) :
  forallb str_or_missing column = true ->
  column = [] \/ existsb str_or_None column = true ->
  str_accessor column = Ok column.
Proof.
  intros H Hsome. unfold str_accessor.
  assert (Hk : str_allowed (infer_dtype column) = true); [|now rewrite Hk].
  unfold infer_dtype.
  assert (Hf : nonempty column && forallb is_float column = false).
  { destruct Hsome as [->|Hsome]; [reflexivity|].
    apply existsb_exists in Hsome as [v [Hin Hv]].
    destruct (forallb is_float column) eqn:E; [|apply andb_false_r].
    pose proof (forallb_In _ _ _ E Hin) as Hfl.
    destruct v; discriminate. }
  rewrite Hf.
  destruct (filter_present_strings column H) as [Hs [Ht Hn]]. rewrite Hn, Ht.
  destruct (filter (fun v => negb (isna v)) column) as [|v present]; [reflexivity|].
  cbn [forallb] in Hs. apply andb_prop in Hs as [Hv _].
  destruct v; try discriminate. reflexivity.
Qed.

(** The accessor refuses a column of numbers only and a column of bools
    only, a column of NaN only among them. *)
Lemma str_accessor_refuses (column : Series) :
  column <> [] ->
  forallb is_float column = true \/ forallb is_int column = true
  \/ forallb is_bool column = true ->
  str_accessor column
  = Raise (AttributeError "Can only use .str accessor with string values!").
Proof.
  intros Hne Hkind. unfold str_accessor.
  assert (Hk : str_allowed (infer_dtype column) = false); [|now rewrite Hk].
  destruct column as [|v column]; [congruence|]. clear Hne.
  unfold infer_dtype.
  destruct Hkind as [Hfl|[Hi|Hb]].
  - rewrite Hfl. reflexivity.
  - assert (Hf : forallb is_float (v :: column) = false).
    { cbn [forallb] in *. apply andb_prop in Hi as [Hv _].
      destruct v; try discriminate. reflexivity. }
    rewrite Hf. cbn [nonempty andb].
    rewrite !filter_all.
    + rewrite Hi. cbn [forallb] in Hi. apply andb_prop in Hi as [Hv _].
      destruct v; try discriminate. reflexivity.
    + intros a Ha. pose proof (forallb_In _ _ _ Hi Ha). destruct a; try discriminate.
      reflexivity.
    + intros a Ha. pose proof (forallb_In _ _ _ Hi Ha). destruct a; try discriminate.
      reflexivity.
  - assert (Hf : forallb is_float (v :: column) = false).
    { cbn [forallb] in *. apply andb_prop in Hb as [Hv _].
      destruct v; try discriminate. reflexivity. }
    rewrite Hf. cbn [nonempty andb].
    rewrite !filter_all.
    + rewrite Hb. cbn [forallb] in Hb. apply andb_prop in Hb as [Hv _].
      destruct v; try discriminate. reflexivity.
    + intros a Ha. pose proof (forallb_In _ _ _ Hb Ha). destruct a; try discriminate.
      reflexivity.
    + intros a Ha. pose proof (forallb_In _ _ _ Hb Ha). destruct a; try discriminate.
      reflexivity.
Qed.

Lemma str_split_cells (pat : regex) (column out : Series) :
  str_split pat column = Ok out -> out = map (split_cell pat) column.
Proof.
  unfold str_split, str_accessor.
  destruct (str_allowed (infer_dtype column)); simpl; congruence.
Qed.

Lemma str_split_strings (pat : regex) (column : Series) :
  forallb str_or_missing column = true ->
  column = [] \/ existsb str_or_None column = true ->
  str_split pat column = Ok (map (split_cell pat) column).
Proof.
  intros H Hsome. unfold str_split. now rewrite (str_accessor_strings column H Hsome).
Qed.

(** Whenever a declared column migration of [de_th] returns, its output is as
    long as its input. *)
Lemma de_th_migration_length (name : string) (f : Series -> result Series)
    (column out : Series) :
  In (name, f) De_th.COLUMN_MIGRATIONS ->
  f column = Ok out -> List.length out = List.length column.
Proof.
  intros Hin Hf. simpl in Hin.
  destruct Hin as [E|[E|[E|[E|[]]]]]; inversion E; subst; clear E.
  - unfold De_th.migrate_AFO in Hf.
    destruct (series_map _ column) as [m|e] eqn:Hm; [|discriminate].
    simpl in Hf. inversion Hf; subst. unfold fillna. rewrite length_map.
    exact (mapM_length _ _ _ Hm).
  - unfold De_th.migrate_KOND_LE in Hf.
    destruct (series_map _ column) as [m|e] eqn:Hm; [|discriminate].
    simpl in Hf. inversion Hf; subst. unfold fillna. rewrite length_map.
    exact (mapM_length _ _ _ Hm).
  - exact (mapM_length _ _ _ Hf).
  - apply str_split_cells in Hf. subst. apply length_map.
Qed.

Lemma mapM_raises {A B : Type} (f : A -> result B) (l : list A) (e : error) :
  mapM f l = Raise e -> exists a, In a l /\ f a = Raise e.
Proof.
  induction l as [|a l IH]; simpl; [discriminate|].
  destruct (f a) as [b|e'] eqn:Hf.
  - destruct (mapM f l) as [bs|e'']; [discriminate|].
    intros H. inversion H; subst. destruct (IH eq_refl) as [x [Hx Hfx]].
    exists x. split; [now right | exact Hfx].
  - intros H. inversion H; subst. exists a. split; [now left | exact Hf].
Qed.

Lemma series_map_not_cardinality (d : list (string * value)) (column : Series) :
  is_cardinality_error (series_map d column) = false.
Proof.
  unfold series_map. destruct (mapM (map_cell d) column) as [out|e] eqn:H; [reflexivity|].
  apply mapM_raises in H as [v [_ Hv]].
  destruct v; simpl in Hv; try discriminate;
    try (destruct (dict_get d s); discriminate).
  inversion Hv. reflexivity.
Qed.

(** A declared column migration of [de_th] raises no cardinality error of
    its own. *)
Lemma de_th_migration_not_cardinality (name : string) (f : Series -> result Series)
    (column : Series) :
  In (name, f) De_th.COLUMN_MIGRATIONS -> is_cardinality_error (f column) = false.
Proof.
  intros Hin. simpl in Hin.
  destruct Hin as [E|[E|[E|[E|[]]]]]; inversion E; subst; clear E.
  - unfold De_th.migrate_AFO.
    pose proof (series_map_not_cardinality [("J", VBool true)] column) as H.
    destruct (series_map _ column); [reflexivity | exact H].
  - unfold De_th.migrate_KOND_LE.
    pose proof (series_map_not_cardinality [("J", VBool true)] column) as H.
    destruct (series_map _ column); [reflexivity | exact H].
  - apply series_map_not_cardinality.
  - unfold De_th.migrate_FBI_VJ, str_split, str_accessor.
    destruct (str_allowed (infer_dtype column)); reflexivity.
Qed.

(* ===================================================================== *)
(** * The column migrations of [de_th] *)
(* ===================================================================== *)

(** C2. The [AENDERUNG] migration of [de_th], applied to the column
    ["Geaendert", "Unveraendert", "Neu"], gives exactly the column
    [True, False, None], in that order. *)
Theorem AENDERUNG_example :
  exists f,
    lookup_hook De_th.COLUMN_MIGRATIONS "AENDERUNG" = Some f /\
    f [VStr "Geaendert"; VStr "Unveraendert"; VStr "Neu"]
    = Ok [VBool true; VBool false; VNone].
Proof. exists De_th.migrate_AENDERUNG. split; reflexivity. Qed.

(** C10. In the column the [AENDERUNG] migration returns, every cell other
    than 'Geaendert' and 'Unveraendert' has become null: the mapped 'Neu', any
    unmapped code, a missing value.  In the columns the [AFO] and [KOND_LE]
    migrations return, every cell other than 'J', unmapped or missing, has
    become [False].  All three return on every column of source cells. *)
Theorem AENDERUNG_unmapped_is_null :
  (forall column out,
     De_th.migrate_AENDERUNG column = Ok out ->
     Forall2 (fun v w => v <> VStr "Geaendert" -> v <> VStr "Unveraendert" -> isna w = true)
             column out) /\
  (forall column out,
     De_th.migrate_AFO column = Ok out ->
     Forall2 (fun v w => v <> VStr "J" -> w = VBool false) column out) /\
  (forall column out,
     De_th.migrate_KOND_LE column = Ok out ->
     Forall2 (fun v w => v <> VStr "J" -> w = VBool false) column out) /\
  (forall column,
     forallb hashable column = true ->
     is_ok (De_th.migrate_AENDERUNG column) = true /\
     is_ok (De_th.migrate_AFO column) = true /\
     is_ok (De_th.migrate_KOND_LE column) = true).
Proof.
  repeat split.
  - intros column out H. rewrite (migrate_AENDERUNG_Ok _ _ H).
    apply Forall2_map_right. intros v _. apply AENDERUNG_cell_spec.
  - intros column out H. rewrite (migrate_AFO_Ok _ _ H).
    apply Forall2_map_right. intros v _. apply J_cell_spec.
  - intros column out H. rewrite (migrate_AFO_Ok _ _ H).
    apply Forall2_map_right. intros v _. apply J_cell_spec.
  - now rewrite (migrate_AENDERUNG_cells column H).
  - now rewrite (migrate_AFO_cells column H).
  - now rewrite (migrate_KOND_LE_cells column H).
Qed.

Lemma AENDERUNG_unmapped_is_null_witness :
  Forall2 (fun v w => v <> VStr "Geaendert" -> v <> VStr "Unveraendert" -> isna w = true)
          [VStr "Neu"; VStr "Sonstiges"; VNone; VStr "Geaendert"]
          [VNone; VNaN; VNaN; VBool true] /\
  is_ok (De_th.migrate_AENDERUNG [VStr "Neu"; VStr "Sonstiges"; VNone; VStr "Geaendert"]) = true.
Proof.
  split.
  - exact (proj1 AENDERUNG_unmapped_is_null
             [VStr "Neu"; VStr "Sonstiges"; VNone; VStr "Geaendert"]
             [VNone; VNaN; VNaN; VBool true] eq_refl).
  - exact (proj1 (proj2 (proj2 (proj2 AENDERUNG_unmapped_is_null))
             [VStr "Neu"; VStr "Sonstiges"; VNone; VStr "Geaendert"] eq_refl)).
Defined.

(** C4. The targets of [de_th] that the missing-schema fragment declares
    boolean are [afo], [kond_le] and [change]; the column map takes them from
    [AFO], [KOND_LE] and [AENDERUNG], each of which has a column migration.
    The column such a migration returns holds booleans and nulls only: [AFO]
    and [KOND_LE] give [True] exactly where the cell is 'J' and [False]
    everywhere else, missing cells included; [AENDERUNG] gives only [True],
    [False] or a null.  All three return on every column of source cells. *)
Theorem boolean_targets_after_migration :
  map fst (filter (fun np => type_name_eqb (type (snd np)) t_boolean)
                  (properties De_th.MISSING_SCHEMAS))
  = ["afo"; "kond_le"; "change"] /\
  (lookup_target De_th.COLUMNS "AFO" = Some (Target "afo") /\
   lookup_hook De_th.COLUMN_MIGRATIONS "AFO" = Some De_th.migrate_AFO /\
   forall column out,
     De_th.migrate_AFO column = Ok out ->
     forallb bool_or_null out = true /\
     Forall2 (fun v w => (v = VStr "J" -> w = VBool true) /\
                         (v <> VStr "J" -> w = VBool false)) column out) /\
  (lookup_target De_th.COLUMNS "KOND_LE" = Some (Target "kond_le") /\
   lookup_hook De_th.COLUMN_MIGRATIONS "KOND_LE" = Some De_th.migrate_KOND_LE /\
   forall column out,
     De_th.migrate_KOND_LE column = Ok out ->
     forallb bool_or_null out = true /\
     Forall2 (fun v w => (v = VStr "J" -> w = VBool true) /\
                         (v <> VStr "J" -> w = VBool false)) column out) /\
  (lookup_target De_th.COLUMNS "AENDERUNG" = Some (Target "change") /\
   lookup_hook De_th.COLUMN_MIGRATIONS "AENDERUNG" = Some De_th.migrate_AENDERUNG /\
   forall column out,
     De_th.migrate_AENDERUNG column = Ok out ->
     forallb bool_or_null out = true /\
     Forall (fun w => w = VBool true \/ w = VBool false \/ isna w = true) out) /\
  (forall column,
     forallb hashable column = true ->
     is_ok (De_th.migrate_AFO column) = true /\
     is_ok (De_th.migrate_KOND_LE column) = true /\
     is_ok (De_th.migrate_AENDERUNG column) = true).
Proof.
  assert (HJ : forall column out,
            De_th.migrate_AFO column = Ok out ->
            forallb bool_or_null out = true /\
            Forall2 (fun v w => (v = VStr "J" -> w = VBool true) /\
                                (v <> VStr "J" -> w = VBool false)) column out).
  { intros column out H. rewrite (migrate_AFO_Ok _ _ H). split.
    - rewrite forallb_forall. intros w Hw. apply in_map_iff in Hw as [v [<- _]].
      destruct v; reflexivity.
    - apply Forall2_map_right. intros v _. apply J_cell_spec. }
  split; [reflexivity|].
  split; [split; [reflexivity | split; [reflexivity | exact HJ]]|].
  split; [split; [reflexivity | split; [reflexivity | exact HJ]]|].
  split; [split; [reflexivity | split; [reflexivity|]]|].
  - intros column out H. rewrite (migrate_AENDERUNG_Ok _ _ H).
    assert (HA : Forall (fun w => w = VBool true \/ w = VBool false \/ isna w = true)
                        (map AENDERUNG_cell column)).
    { rewrite Forall_forall. intros w Hw. apply in_map_iff in Hw as [v [<- _]].
      apply AENDERUNG_cell_values. }
    split; [|exact HA].
    rewrite forallb_forall. intros w Hw. rewrite Forall_forall in HA.
    destruct (HA w Hw) as [->|[->|Hn]]; try reflexivity.
    unfold bool_or_null. rewrite Hn. apply orb_true_r.
  - intros column H.
    rewrite (migrate_AFO_cells column H), (migrate_KOND_LE_cells column H),
      (migrate_AENDERUNG_cells column H). auto.
Qed.

Lemma boolean_targets_after_migration_witness :
  forallb bool_or_null [VBool true; VBool false; VBool false; VBool false] = true /\
  Forall2 (fun v w => (v = VStr "J" -> w = VBool true) /\
                      (v <> VStr "J" -> w = VBool false))
          [VStr "J"; VStr "N"; VNone; VNaN]
          [VBool true; VBool false; VBool false; VBool false].
Proof.
  exact (proj2 (proj2 (proj1 (proj2 boolean_targets_after_migration)))
           [VStr "J"; VStr "N"; VNone; VNaN]
           [VBool true; VBool false; VBool false; VBool false] eq_refl).
Defined.

(** C6, as the code has it.  Whenever a declared column migration of [de_th]
    returns, its output is as long as its input, so the column-migration
    stage never ends in a cardinality error for them.  The three value maps
    ([AFO], [KOND_LE], [AENDERUNG]) return on every column without list
    cells.  The [FBI_VJ] split returns, with one output cell per input cell,
    on every column of strings, [None] and NaN that is empty or holds a
    string or a [None]; on a column that is not empty and holds floats only
    (NaN only, for one), ints only or bools only, it raises [AttributeError]
    and returns no column. *)
Theorem column_migrations_keep_length (name : string) (f : Series -> result Series) :
  In (name, f) De_th.COLUMN_MIGRATIONS ->
  (forall column out, f column = Ok out -> List.length out = List.length column) /\
  (forall gdf, is_cardinality_error (Pipeline.apply_migration gdf (name, f)) = false) /\
  (forall column,
     name <> "FBI_VJ" -> forallb hashable column = true ->
     exists out, f column = Ok out /\ List.length out = List.length column) /\
  (forall column,
     name = "FBI_VJ" -> forallb str_or_missing column = true ->
     column = [] \/ existsb str_or_None column = true ->
     exists out, f column = Ok out /\ List.length out = List.length column) /\
  (forall column,
     name = "FBI_VJ" -> column <> [] ->
     forallb is_float column = true \/ forallb is_int column = true
     \/ forallb is_bool column = true ->
     f column = Raise (AttributeError "Can only use .str accessor with string values!")).
Proof.
  intros Hin.
  assert (Hlen : forall column out, f column = Ok out -> List.length out = List.length column).
  { intros column out. exact (de_th_migration_length name f column out Hin). }
  split; [exact Hlen|]. split.
  { intros gdf. unfold Pipeline.apply_migration. simpl fst; simpl snd.
    destruct (get_column gdf name) as [column|]; [|reflexivity].
    destruct (f column) as [out|e] eqn:Hf; simpl.
    - unfold Pipeline.same_length. rewrite (Hlen column out Hf), Nat.eqb_refl. reflexivity.
    - pose proof (de_th_migration_not_cardinality name f column Hin) as Hc.
      rewrite Hf in Hc. exact Hc. }
  simpl in Hin. destruct Hin as [E|[E|[E|[E|[]]]]]; inversion E; subst; clear E.
  - repeat split; try discriminate; try congruence.
    intros column _ H. exists (map J_cell column).
    split; [exact (migrate_AFO_cells column H) | apply length_map].
  - repeat split; try discriminate; try congruence.
    intros column _ H. exists (map J_cell column).
    split; [exact (migrate_KOND_LE_cells column H) | apply length_map].
  - repeat split; try discriminate; try congruence.
    intros column _ H. exists (map AENDERUNG_cell column).
    split; [exact (migrate_AENDERUNG_cells column H) | apply length_map].
  - split; [congruence|]. split.
    + intros column _ H Hsome. exists (map (split_cell De_th.delim) column).
      split; [exact (str_split_strings _ column H Hsome) | apply length_map].
    + intros column _ Hne Hkind. unfold De_th.migrate_FBI_VJ, str_split.
      now rewrite (str_accessor_refuses column Hne Hkind).
Qed.

Lemma column_migrations_keep_length_witness :
  (exists out,
     De_th.migrate_FBI_VJ [VStr "DETHLI0512340001 , DETHLI0512340002"; VNone; VNaN] = Ok out /\
     List.length out = 3%nat) /\
  De_th.migrate_FBI_VJ [VNaN; VNaN]
  = Raise (AttributeError "Can only use .str accessor with string values!").
Proof.
  split.
  - apply (proj1 (proj2 (proj2 (proj2
      (column_migrations_keep_length "FBI_VJ" De_th.migrate_FBI_VJ
         (or_intror (or_intror (or_intror (or_introl eq_refl))))))))).
    + reflexivity.
    + reflexivity.
    + right. reflexivity.
  - apply (proj2 (proj2 (proj2 (proj2
      (column_migrations_keep_length "FBI_VJ" De_th.migrate_FBI_VJ
         (or_intror (or_intror (or_intror (or_introl eq_refl))))))))).
    + reflexivity.
    + discriminate.
    + left. reflexivity.
Defined.

(** C6, as stated, fails: on a column of numbers the [FBI_VJ] migration
    returns no column at all, the [.str] accessor raises; a column of ints
    and a column of NaN only are two such columns. *)
Lemma FBI_VJ_refuses_numbers :
  De_th.migrate_FBI_VJ [VInt 5]
  = Raise (AttributeError "Can only use .str accessor with string values!") /\
  De_th.migrate_FBI_VJ [VNaN; VNaN]
  = Raise (AttributeError "Can only use .str accessor with string values!") /\
  ~ (forall name f column,
       In (name, f) De_th.COLUMN_MIGRATIONS ->
       exists out, f column = Ok out /\ List.length out = List.length column).
Proof.
  split; [reflexivity|]. split; [reflexivity|].
  intros H.
  destruct (H "FBI_VJ" De_th.migrate_FBI_VJ [VInt 5]) as [out [Hout _]].
  - simpl. right; right; right; left; reflexivity.
  - vm_compute in Hout. discriminate.
Qed.

(* ===================================================================== *)
(** * The global migrations *)
(* ===================================================================== *)

Ltac split_to_datetime H :=
  repeat match type of H with
         | context [PrimFloat.is_nan ?f] => destruct (PrimFloat.is_nan f)
         | context [orb ?a ?b] => destruct (orb a b)
         | context [Z.eqb ?z iNaT] => destruct (Z.eqb z iNaT)
         | context [strptime ?d ?s] => destruct (strptime d s)
         end;
  simpl in H; try discriminate; inversion H; subst.

Lemma to_datetime_cell_utc (ds : list directive) (v w : value) :
  to_datetime_cell ds true v = Ok w -> w = VNaT \/ tz_aware w = true.
Proof.
  destruct v as [| |b|z|f|s|l|ns tz|g]; cbn [to_datetime_cell]; intros H;
    split_to_datetime H; auto.
Qed.

Lemma to_datetime_cell_no_utc (ds : list directive) (v w : value) :
  to_datetime_cell ds false v = Ok w ->
  (tz_aware w = true -> tz_aware v = true) /\
  (w = VNaT \/ tz_naive w = true \/ tz_aware v = true).
Proof.
  destruct v as [| |b|z|f|s|l|ns tz|g]; cbn [to_datetime_cell]; intros H;
    split_to_datetime H; (split; [try discriminate; auto | auto]).
  destruct tz; simpl; auto.
Qed.

(** What the parser meets in place of a cell: the cell itself, or, in a
    float64 column, the int the float is cut off to. *)
Lemma maybe_convert_dtype_Ok (column objects : Series) :
  maybe_convert_dtype column = Ok objects ->
  Forall2 (fun v o => o = v \/ exists f, v = VFloat f /\ o = float64_as_int v)
          column objects.
Proof.
  unfold maybe_convert_dtype.
  assert (Hsame : Forall2 (fun v o : value =>
                             o = v \/ exists f, v = VFloat f /\ o = float64_as_int v)
                          column column).
  { induction column; constructor; auto. }
  destruct (dtype_of column) eqn:Hd; intros H; inversion H; subst; try exact Hsame.
  clear H Hsame. destruct column as [|v0 column]; [discriminate|].
  unfold dtype_of in Hd. destruct (forallb is_float (v0 :: column)) eqn:Hf.
  - clear Hd. revert Hf. generalize (v0 :: column). intros l.
    induction l as [|v l IH]; intros Hf; simpl; constructor.
    + simpl in Hf. apply andb_prop in Hf as [Hv _].
      destruct v; try discriminate. right. eauto.
    + apply IH. simpl in Hf. now apply andb_prop in Hf as [_ Hf].
  - destruct (forallb is_int64 _); [discriminate|].
    destruct (forallb is_uint64 _); [discriminate|].
    destruct (forallb is_bool _); discriminate.
Qed.

(** A column that holds a cell that is neither a float nor a bool is parsed
    cell by cell as it is. *)
Lemma maybe_convert_dtype_same (column : Series) (v : value) :
  In v column -> is_float v = false -> is_bool v = false ->
  maybe_convert_dtype column = Ok column.
Proof.
  intros Hin Hf Hb. unfold maybe_convert_dtype, dtype_of.
  destruct column as [|v0 column]; [reflexivity|].
  assert (Ef : forallb is_float (v0 :: column) = false).
  { destruct (forallb is_float (v0 :: column)) eqn:E; [|reflexivity].
    rewrite (forallb_In _ _ _ E Hin) in Hf. discriminate. }
  assert (Eb : forallb is_bool (v0 :: column) = false).
  { destruct (forallb is_bool (v0 :: column)) eqn:E; [|reflexivity].
    rewrite (forallb_In _ _ _ E Hin) in Hb. discriminate. }
  rewrite Ef, Eb.
  destruct (forallb is_int64 _); [reflexivity|].
  destruct (forallb is_uint64 _); reflexivity.
Qed.

Lemma Forall2_compose {A B C : Type} (R : A -> B -> Prop) (S : B -> C -> Prop)
    (l : list A) (m : list B) (n : list C) :
  Forall2 R l m -> Forall2 S m n ->
  Forall2 (fun a c => exists b, R a b /\ S b c) l n.
Proof.
  intros F. revert n. induction F as [|a b l m Hab F IH]; intros n G; inversion G; subst.
  - constructor.
  - constructor; eauto.
Qed.

Lemma to_datetime_Forall2 (column out : Series) (format : string) (utc : bool) :
  to_datetime column format utc = Ok out ->
  exists ds,
    Forall2 (fun v w =>
               exists o, (o = v \/ exists f, v = VFloat f /\ o = float64_as_int v)
                         /\ to_datetime_cell ds utc o = Ok w)
            column out.
Proof.
  unfold to_datetime. destruct (parse_format format) as [ds|e]; [|discriminate].
  cbn [bind]. destruct (maybe_convert_dtype column) as [objects|e] eqn:Hm; [|discriminate].
  cbn [bind]. intros H. exists ds.
  exact (Forall2_compose _ _ _ _ _ (maybe_convert_dtype_Ok _ _ Hm) (mapM_Forall2 _ _ _ H)).
Qed.

(** What a float of a float64 column is read as has no timezone. *)
Lemma is_nan_Prim2SF (f : float) :
  PrimFloat.is_nan f = true -> Prim2SF f = S754_nan.
Proof.
  unfold PrimFloat.is_nan. rewrite FloatAxioms.eqb_spec.
  destruct (Prim2SF f) as [s|s| |s m e]; try reflexivity; intros H; exfalso;
    unfold SFeqb, SFcompare in H.
  - destruct s; discriminate.
  - destruct s; discriminate.
  - rewrite Z.compare_refl in H.
    replace (PosDef.Pos.compare_cont Eq m m) with Eq in H
      by (symmetry; apply Pos.compare_cont_refl).
    destruct s; discriminate.
Qed.

(** NaN in a float64 column is read as NaT. *)
Lemma float64_as_int_nan (f : float) :
  PrimFloat.is_nan f = true -> float64_as_int (VFloat f) = VNaT.
Proof.
  intros H. unfold float64_as_int, trunc_float.
  now rewrite (is_nan_Prim2SF f H).
Qed.

Lemma float64_as_int_cases (f : float) :
  float64_as_int (VFloat f) = VNaT \/ exists z, float64_as_int (VFloat f) = VInt z.
Proof.
  unfold float64_as_int. destruct (trunc_float f) as [z|]; [|now left].
  destruct (_ && _); [right; eauto | now left].
Qed.

Lemma to_datetime_cells (column out : Series) (format : string)
    (ds : list directive) (utc : bool) :
  parse_format format = Ok ds ->
  to_datetime column format utc = Ok out ->
  Forall2 (fun v w =>
             exists o, (o = v \/ exists f, v = VFloat f /\ o = float64_as_int v)
                       /\ to_datetime_cell ds utc o = Ok w)
          column out.
Proof.
  intros Hp. unfold to_datetime. rewrite Hp. cbn [bind].
  destruct (maybe_convert_dtype column) as [objects|e] eqn:Hm; [|discriminate].
  cbn [bind]. intros H.
  exact (Forall2_compose _ _ _ _ _ (maybe_convert_dtype_Ok _ _ Hm) (mapM_Forall2 _ _ _ H)).
Qed.

(** A column without floats and bools is parsed cell by cell as it is. *)
Lemma maybe_convert_dtype_id (column : Series) :
  Forall (fun v => is_float v = false /\ is_bool v = false) column ->
  maybe_convert_dtype column = Ok column.
Proof.
  intros H. destruct column as [|v column]; [reflexivity|].
  inversion H as [|v' l [Hf Hb] _]; subst.
  exact (maybe_convert_dtype_same (v :: column) v (or_introl eq_refl) Hf Hb).
Qed.

(** What the parser returns is neither a float nor a bool. *)
Lemma to_datetime_cell_instant (ds : list directive) (utc : bool) (v w : value) :
  to_datetime_cell ds utc v = Ok w -> is_float w = false /\ is_bool w = false.
Proof.
  destruct v as [| |b|z|f|s|l|ns tz|g]; cbn [to_datetime_cell]; intros H;
    split_to_datetime H; auto.
Qed.

Lemma Forall2_impl {A B : Type} (R S : A -> B -> Prop) (l : list A) (l' : list B) :
  (forall a b, R a b -> S a b) -> Forall2 R l l' -> Forall2 S l l'.
Proof. intros H F. induction F; constructor; auto. Qed.

Lemma Forall2_right {A B : Type} (R : A -> B -> Prop) (P : B -> Prop)
    (l : list A) (l' : list B) :
  (forall a b, R a b -> P b) -> Forall2 R l l' -> Forall P l'.
Proof. intros H F. induction F; constructor; eauto. Qed.

Lemma getitem_Ok (gdf : DataFrame) (col : string) (s : Series) :
  getitem gdf col = Ok s -> get_column gdf col = Some s.
Proof. unfold getitem. destruct (get_column gdf col); congruence. Qed.

(** Years given as ints or strings parse, without [utc], to instants that
    have no timezone. *)
Lemma to_datetime_years_naive (ds : list directive) (column out : Series) :
  Forall2 (fun v w =>
             exists o, (o = v \/ exists f, v = VFloat f /\ o = float64_as_int v)
                       /\ to_datetime_cell ds false o = Ok w)
          column out ->
  forallb (fun v => is_int v || is_str v) column = true ->
  Forall (fun w => w = VNaT \/ tz_naive w = true) out.
Proof.
  induction 1 as [|v w vs ws' Hv F IH]; intros Hk; constructor.
  - simpl in Hk. apply andb_prop in Hk as [Hk _].
    destruct Hv as [o [[->|[f [-> _]]] Hv]]; [|discriminate].
    destruct (proj2 (to_datetime_cell_no_utc ds v w Hv)) as [E|[E|E]]; auto.
    destruct v; discriminate.
  - apply IH. simpl in Hk. apply andb_prop in Hk as [_ Hk]. exact Hk.
Qed.

(** What [De_th.migrate] returns: the frame with [GEO_UPDAT] parsed. *)
Lemma de_th_migrate_Ok (gdf gdf' : DataFrame) :
  De_th.migrate gdf = Ok gdf' ->
  exists old new,
    get_column gdf "GEO_UPDAT" = Some old /\
    to_datetime old "%d.%m.%Y" true = Ok new /\
    gdf' = setitem gdf "GEO_UPDAT" new.
Proof.
  unfold De_th.migrate.
  destruct (getitem gdf "GEO_UPDAT") as [old|e] eqn:Hold; [|discriminate].
  cbn [bind].
  destruct (to_datetime old "%d.%m.%Y" true) as [new|e] eqn:Hnew; [|discriminate].
  cbn [bind]. intros H. inversion H; subst.
  exists old, new. auto using getitem_Ok.
Qed.

(** What [Fi.migrate] returns, step by step. *)
Lemma fi_migrate_Ok (mv : geometry -> geometry) (ar : geometry -> float)
    (gdf gdf' : DataFrame) :
  Fi.migrate mv ar gdf = Ok gdf' ->
  exists vuosi dt geoms valid pinta areas hectares cells,
    get_column gdf "VUOSI" = Some vuosi /\
    to_datetime vuosi "%Y" false = Ok dt /\
    get_column gdf "geometry" = Some geoms /\
    make_valid mv geoms = Ok valid /\
    get_column gdf "PINTA_ALA" = Some pinta /\
    mapM (area_cell ar) valid = Ok areas /\
    truediv areas 10000 = Ok hectares /\
    np_where (series_eq pinta (VInt 0)) hectares pinta = Ok cells /\
    gdf' = setitem (setitem (setitem gdf "determination_datetime" dt) "geometry" valid)
                   "area" cells.
Proof.
  unfold Fi.migrate.
  destruct (getitem gdf "VUOSI") as [vuosi|e] eqn:H1; [|discriminate]. cbn [bind].
  destruct (to_datetime vuosi "%Y" false) as [dt|e] eqn:H2; [|discriminate]. cbn [bind].
  destruct (getitem (setitem gdf "determination_datetime" dt) "geometry")
    as [geoms|e] eqn:H3; [|discriminate]. cbn [bind].
  destruct (make_valid mv geoms) as [valid|e] eqn:H4; [|discriminate]. cbn [bind].
  set (g2 := setitem (setitem gdf "determination_datetime" dt) "geometry" valid).
  destruct (getitem g2 "PINTA_ALA") as [pinta|e] eqn:H5; [|discriminate]. cbn [bind].
  unfold area. destruct (getitem g2 "geometry") as [valid'|e] eqn:H6; [|discriminate].
  cbn [bind].
  destruct (mapM (area_cell ar) valid') as [areas|e] eqn:H7; [|discriminate]. cbn [bind].
  destruct (truediv areas 10000) as [hectares|e] eqn:H8; [|discriminate]. cbn [bind].
  destruct (np_where _ hectares pinta) as [cells|e] eqn:H9; [|discriminate]. cbn [bind].
  intros H. inversion H; subst gdf'.
  apply getitem_Ok in H1, H3, H5, H6.
  rewrite get_column_setitem_other in H3 by discriminate.
  unfold g2 in H5, H6.
  rewrite !get_column_setitem_other in H5 by discriminate.
  rewrite get_column_setitem_same in H6. inversion H6; subst valid'.
  exists vuosi, dt, geoms, valid, pinta, areas, hectares, cells.
  repeat split; assumption.
Qed.

(* ===================================================================== *)
(** * Lemmas on the pipeline *)
(* ===================================================================== *)

Section PipelineFacts.

Variable base_schema : schema.
Variable extension_schema : string -> schema.
Variable matches_pattern : string -> string -> bool.

Local Abbreviation coerce_cell := (Pipeline.coerce_cell matches_pattern).
Local Abbreviation coerce_cells := (Pipeline.coerce_cells matches_pattern).
Local Abbreviation type_coercion := (Pipeline.type_coercion base_schema extension_schema matches_pattern).
Local Abbreviation schema_resolution := (Pipeline.schema_resolution base_schema extension_schema).
Local Abbreviation resolve_property := (Pipeline.resolve_property base_schema extension_schema).
Local Abbreviation is_required := (Pipeline.is_required base_schema extension_schema).
Local Abbreviation convert := (Pipeline.convert base_schema extension_schema matches_pattern).

Lemma coerce_cell_normalised (p : property_schema) (v w : value) :
  coerce_cell p v = Pipeline.Fits w -> normalised w = true.
Proof.
  unfold Pipeline.coerce_cell, Pipeline.coerce_float, Pipeline.coerce_int.
  destruct (type p); destruct v; intros H; try discriminate;
    repeat match type of H with
           | context [if ?c then _ else _] => destruct c
           end;
    try discriminate; inversion H; reflexivity.
Qed.

Lemma isna_normalised (v : value) : isna v = true -> normalised v = true.
Proof. destruct v; simpl; try discriminate; reflexivity. Qed.

Lemma coerce_cells_Ok (name : string) (req : bool) (p : property_schema)
    (cells out : Series) (ws : list string) :
  coerce_cells name req p cells = Ok (out, ws) ->
  List.length out = List.length cells /\ forallb normalised out = true.
Proof.
  revert out ws. induction cells as [|v cells IH]; intros out ws H; simpl in H.
  - inversion H. auto.
  - destruct (isna v) eqn:Hna.
    + destruct req; [discriminate|]. cbn [bind] in H.
      destruct (coerce_cells name false p cells) as [[o w]|e]; [|discriminate].
      cbn [bind fst snd] in H. inversion H; subst.
      destruct (IH _ _ eq_refl) as [IH1 IH2]. simpl.
      rewrite (isna_normalised v Hna), IH2. auto.
    + destruct (coerce_cell p v) as [w0|msg] eqn:Hc.
      * cbn [bind] in H.
        destruct (coerce_cells name req p cells) as [[o w]|e]; [|discriminate].
        cbn [bind fst snd] in H. inversion H; subst.
        destruct (IH _ _ eq_refl) as [IH1 IH2]. simpl.
        rewrite (coerce_cell_normalised p v w0 Hc), IH2. auto.
      * destruct req; [discriminate|]. cbn [bind] in H.
        destruct (coerce_cells name false p cells) as [[o w]|e]; [|discriminate].
        cbn [bind fst snd] in H. inversion H; subst.
        destruct (IH _ _ eq_refl) as [IH1 IH2]. simpl. rewrite IH2. auto.
Qed.

Lemma coerce_cells_Raise (name : string) (req : bool) (p : property_schema)
    (cells : Series) (e : error) :
  coerce_cells name req p cells = Raise e -> exists msg, e = CoercionError msg.
Proof.
  induction cells as [|v cells IH]; intros H; simpl in H; [discriminate|].
  destruct (isna v).
  - destruct req; [inversion H; eauto|]. cbn [bind] in H.
    destruct (coerce_cells name false p cells) as [[o w]|e']; [discriminate|].
    cbn [bind] in H. inversion H; subst. auto.
  - destruct (coerce_cell p v) as [w0|msg].
    + cbn [bind] in H.
      destruct (coerce_cells name req p cells) as [[o w]|e']; [discriminate|].
      cbn [bind] in H. inversion H; subst. auto.
    + destruct req; [inversion H; eauto|]. cbn [bind] in H.
      destruct (coerce_cells name false p cells) as [[o w]|e']; [discriminate|].
      cbn [bind] in H. inversion H; subst. auto.
Qed.

(** A required column with a cell that is null or violates its schema is a
    fatal coercion error. *)
Lemma coerce_cells_required_fails (name : string) (p : property_schema)
    (cells : Series) (v : value) :
  In v cells ->
  (isna v = true \/ exists msg, coerce_cell p v = Pipeline.Violates msg) ->
  is_coercion_error (coerce_cells name true p cells) = true.
Proof.
  intros Hin Hbad.
  destruct (coerce_cells name true p cells) as [[out ws]|e] eqn:H.
  - exfalso. revert out ws H. induction cells as [|c cells IH]; [destruct Hin|].
    intros out ws H. simpl in H. destruct Hin as [->|Hin].
    + destruct Hbad as [Hna|[msg Hv]].
      * rewrite Hna in H. discriminate.
      * destruct (isna v); [discriminate|]. rewrite Hv in H. discriminate.
    + destruct (isna c); [discriminate|].
      destruct (coerce_cell p c); [|discriminate]. cbn [bind] in H.
      destruct (coerce_cells name true p cells) as [[o w]|e]; [|discriminate].
      exact (IH Hin o w eq_refl).
  - destruct (coerce_cells_Raise _ _ _ _ _ H) as [msg ->]. reflexivity.
Qed.

(** An optional column always coerces: a violating cell becomes [None] and
    leaves a warning. *)
Lemma coerce_cells_optional (name : string) (p : property_schema) (cells : Series) :
  exists out ws,
    coerce_cells name false p cells = Ok (out, ws) /\
    Forall2 (fun v w =>
               (isna v = true -> w = v) /\
               (isna v = false -> forall u, coerce_cell p v = Pipeline.Fits u -> w = u) /\
               (isna v = false -> forall msg, coerce_cell p v = Pipeline.Violates msg ->
                                  w = VNone /\ In (msg ++ ": " ++ name) ws))
            cells out.
Proof.
  induction cells as [|v cells [out [ws [IH1 IH2]]]].
  - exists [], []. split; [reflexivity | constructor].
  - simpl. rewrite IH1.
    assert (Hweak : forall ws0,
      Forall2 (fun v w =>
                 (isna v = true -> w = v) /\
                 (isna v = false -> forall u, coerce_cell p v = Pipeline.Fits u -> w = u) /\
                 (isna v = false -> forall msg, coerce_cell p v = Pipeline.Violates msg ->
                                    w = VNone /\ In (msg ++ ": " ++ name) (ws0 ++ ws)%list))
              cells out).
    { intros ws0. eapply Forall2_impl; [|exact IH2].
      intros a b [Ha [Hb Hc]]. split; [exact Ha|]. split; [exact Hb|].
      intros Hn msg Hm. destruct (Hc Hn msg Hm) as [-> Hi].
      split; [reflexivity|]. apply in_or_app. now right. }
    destruct (isna v) eqn:Hna.
    + exists (v :: out), ws. split; [reflexivity|]. constructor.
      * repeat split; congruence.
      * exact (Hweak []).
    + destruct (coerce_cell p v) as [u|msg] eqn:Hc.
      * exists (u :: out), ws. split; [reflexivity|]. constructor.
        -- repeat split; congruence.
        -- exact (Hweak []).
      * exists (VNone :: out), ((msg ++ ": " ++ name)%string :: ws).
        split; [reflexivity|]. constructor.
        -- split; [congruence|]. split; [congruence|].
           intros _ m Hm. rewrite Hc in Hm. inversion Hm; subst.
           split; [reflexivity | now left].
        -- exact (Hweak [msg ++ ": " ++ name]).
Qed.

Lemma type_coercion_Ok (d : descriptor) (resolved : string -> option property_schema)
    (gdf out : DataFrame) (ws : list string) :
  type_coercion d resolved gdf = Ok (out, ws) ->
  column_names out = column_names gdf /\
  Forall2 (fun c o => List.length (snd o) = List.length (snd c)) gdf out /\
  (forall name cells, In (name, cells) out -> forallb normalised cells = true).
Proof.
  revert out ws. induction gdf as [|[name cells] gdf IH]; intros out ws H; simpl in H.
  - inversion H. repeat split; [constructor | intros ? ? []].
  - destruct (resolved name) as [p|]; [|discriminate].
    destruct (coerce_cells name (is_required d name) p cells) as [[o w]|e] eqn:Hc;
      [|discriminate]. cbn [bind] in H.
    destruct (type_coercion d resolved gdf) as [[os w']|e]; [|discriminate].
    cbn [bind fst snd] in H. inversion H; subst.
    destruct (IH os w' eq_refl) as [IH1 [IH2 IH3]].
    destruct (coerce_cells_Ok _ _ _ _ _ _ Hc) as [Hl Hn].
    repeat split.
    + simpl. now rewrite IH1.
    + constructor; [exact Hl | exact IH2].
    + intros n cs [E|Hin]; [inversion E; subst; exact Hn | eauto].
Qed.

(** A column that fails on its own makes the whole coercion fail. *)
Lemma type_coercion_fails (d : descriptor) (resolved : string -> option property_schema)
    (gdf : DataFrame) (name : string) (cells : Series) (p : property_schema) :
  In (name, cells) gdf ->
  resolved name = Some p ->
  is_ok (coerce_cells name (is_required d name) p cells) = false ->
  is_ok (type_coercion d resolved gdf) = false.
Proof.
  intros Hin Hp Hbad. induction gdf as [|[n cs] gdf IH]; [destruct Hin|].
  simpl. destruct Hin as [E|Hin].
  - inversion E; subst. rewrite Hp.
    destruct (coerce_cells name (is_required d name) p cells); [discriminate | reflexivity].
  - destruct (resolved n) as [q|]; [|reflexivity].
    destruct (coerce_cells n (is_required d n) q cs); [|reflexivity]. cbn [bind].
    specialize (IH Hin).
    destruct (type_coercion d resolved gdf); [discriminate | reflexivity].
Qed.

(** Where every column has a schema, coercion fails with a coercion error
    only. *)
Lemma type_coercion_Raise (d : descriptor) (resolved : string -> option property_schema)
    (gdf : DataFrame) (e : error) :
  (forall name, In name (column_names gdf) -> resolved name <> None) ->
  type_coercion d resolved gdf = Raise e -> exists msg, e = CoercionError msg.
Proof.
  induction gdf as [|[n cs] gdf IH]; intros Hall H; simpl in H; [discriminate|].
  destruct (resolved n) as [q|] eqn:Hq.
  - destruct (coerce_cells n (is_required d n) q cs) as [[o w]|e'] eqn:Hc.
    + cbn [bind] in H.
      destruct (type_coercion d resolved gdf) as [[os w']|e''] eqn:Ht; [discriminate|].
      cbn [bind] in H. inversion H; subst. apply IH; [|reflexivity].
      intros name Hn. apply Hall. now right.
    + cbn [bind] in H. inversion H; subst. exact (coerce_cells_Raise _ _ _ _ _ Hc).
  - exfalso. apply (Hall n); [now left | exact Hq].
Qed.

Lemma lookup_target_In (cs : list (string * target)) (source : string) (t : target) :
  lookup_target cs source = Some t -> In (source, t) cs.
Proof.
  induction cs as [|[n t'] cs IH]; simpl; [discriminate|].
  destruct (String.eqb_spec n source) as [->|Hne].
  - intros H. inversion H. now left.
  - intros H. right. auto.
Qed.

(** Only declared targets leave the projection. *)
Lemma column_projection_names (cs : list (string * target)) (gdf out : DataFrame) :
  Pipeline.column_projection cs gdf = Ok out ->
  forall name, In name (column_names out) -> In name (target_names cs).
Proof.
  unfold Pipeline.column_projection. destruct (forallb _ cs); [|discriminate].
  intros H. inversion H; subst. clear H. intros name Hin.
  unfold column_names in Hin. apply in_map_iff in Hin as [[n cells] [Hn Hin]].
  simpl in Hn. subst n. unfold Pipeline.column_pruning in Hin.
  apply filter_In in Hin as [_ Hm]. cbn [fst] in Hm. unfold mem in Hm.
  apply existsb_exists in Hm as [x [Hx E]]. apply String.eqb_eq in E. now subst.
Qed.

Lemma schema_resolution_Ok (d : descriptor) (resolved : string -> option property_schema) :
  schema_resolution d = Ok resolved ->
  resolved = resolve_property d /\
  forall name, In name (target_names (columns d)) -> resolved name <> None.
Proof.
  unfold Pipeline.schema_resolution.
  destruct (Pipeline.any_conflict _); [discriminate|].
  destruct (forallb _ (target_names (columns d))) eqn:Hall; [|discriminate].
  intros H. inversion H; subst. split; [reflexivity|].
  intros name Hin. rewrite forallb_forall in Hall. specialize (Hall name Hin).
  destruct (resolve_property d name); [discriminate | discriminate].
Qed.

(** A successful run, stage by stage. *)
Lemma convert_Ok (d : descriptor) (gdf out : DataFrame) (ws : list string) :
  convert d gdf = Ok (out, ws) ->
  exists migrated filtered transformed projected resolved,
    Pipeline.global_migration d gdf = Ok migrated /\
    Pipeline.row_filtering (column_filters d) migrated = Ok filtered /\
    Pipeline.column_migration (column_migrations d) filtered = Ok transformed /\
    Pipeline.column_projection (columns d) transformed = Ok projected /\
    schema_resolution d = Ok resolved /\
    type_coercion d resolved projected = Ok (out, ws).
Proof.
  unfold Pipeline.convert, Pipeline.column_stages.
  destruct (Pipeline.global_migration d gdf) as [m|e] eqn:H1; [|discriminate]. cbn [bind].
  destruct (Pipeline.row_filtering _ m) as [f|e] eqn:H2; [|discriminate]. cbn [bind].
  destruct (Pipeline.column_migration _ f) as [t|e] eqn:H3; [|discriminate]. cbn [bind].
  destruct (Pipeline.column_projection _ t) as [p|e] eqn:H4; [|discriminate]. cbn [bind].
  destruct (schema_resolution d) as [r|e] eqn:H5; [|discriminate]. cbn [bind].
  intros H. exists m, f, t, p, r. auto 10.
Qed.

(** The columns of the output are declared targets, and no cell of the
    output is an instant without a timezone. *)
Lemma convert_output (d : descriptor) (gdf out : DataFrame) (ws : list string) :
  convert d gdf = Ok (out, ws) ->
  (forall name, In name (column_names out) -> In name (target_names (columns d))) /\
  (forall name cells, In (name, cells) out -> forallb normalised cells = true).
Proof.
  intros H. apply convert_Ok in H as [m [f [t [p [r [_ [_ [_ [Hp [_ Hc]]]]]]]]]].
  destruct (type_coercion_Ok _ _ _ _ _ Hc) as [Hn [_ Hz]].
  split; [|exact Hz]. intros name Hin. rewrite Hn in Hin.
  exact (column_projection_names _ _ _ Hp name Hin).
Qed.

End PipelineFacts.

(* ===================================================================== *)
(** * Date and time values *)
(* ===================================================================== *)

(** C1, as the code has it.  No instant of the output table is without a
    timezone: the coercion engine normalises every one.  The [de_th] global
    migration parses [GEO_UPDAT] with the format [%d.%m.%Y] under
    [utc = True], so every cell of its result is NaT or an instant in UTC.
    The [fi] global migration parses [VUOSI] with the format [%Y] and no
    [utc] flag: a cell of [determination_datetime] is timezone-aware only
    where the cell of [VUOSI] already was, and a year given as an int or a
    string becomes NaT or an instant without a timezone. *)
Theorem datetimes_normalised
    (base_schema : schema) (extension_schema : string -> schema)
    (matches_pattern : string -> string -> bool)
    (make_valid_geom : geometry -> geometry) (geom_area : geometry -> float)
    (d : descriptor) (gdf out : DataFrame) (ws : list string)
    (gdf_th gdf_th' gdf_fi gdf_fi' : DataFrame) :
  Pipeline.convert base_schema extension_schema matches_pattern d gdf = Ok (out, ws) ->
  De_th.migrate gdf_th = Ok gdf_th' ->
  Fi.migrate make_valid_geom geom_area gdf_fi = Ok gdf_fi' ->
  (forall name cells, In (name, cells) out -> forallb normalised cells = true) /\
  (exists old new,
     get_column gdf_th "GEO_UPDAT" = Some old /\
     to_datetime old "%d.%m.%Y" true = Ok new /\
     get_column gdf_th' "GEO_UPDAT" = Some new /\
     Forall (fun w => w = VNaT \/ tz_aware w = true) new) /\
  (exists vuosi dt,
     get_column gdf_fi "VUOSI" = Some vuosi /\
     to_datetime vuosi "%Y" false = Ok dt /\
     get_column gdf_fi' "determination_datetime" = Some dt /\
     Forall2 (fun v w => tz_aware w = true -> tz_aware v = true) vuosi dt /\
     (forallb (fun v => is_int v || is_str v) vuosi = true ->
      Forall (fun w => w = VNaT \/ tz_naive w = true) dt)).
Proof.
  intros Hc Hth Hfi. split; [|split].
  - exact (proj2 (convert_output _ _ _ _ _ _ _ Hc)).
  - destruct (de_th_migrate_Ok _ _ Hth) as [old [new [H1 [H2 ->]]]].
    exists old, new. repeat split; auto using get_column_setitem_same.
    destruct (to_datetime_Forall2 _ _ _ _ H2) as [ds F].
    eapply Forall2_right; [|exact F]. intros v w [o [_ Ho]].
    exact (to_datetime_cell_utc ds o w Ho).
  - destruct (fi_migrate_Ok _ _ _ _ Hfi)
      as [vuosi [dt [geoms [valid [pinta [areas [hectares [cells
         [H1 [H2 [_ [_ [_ [_ [_ [_ ->]]]]]]]]]]]]]]]].
    exists vuosi, dt. split; [exact H1|]. split; [exact H2|]. split.
    { rewrite !get_column_setitem_other by discriminate.
      apply get_column_setitem_same. }
    destruct (to_datetime_Forall2 _ _ _ _ H2) as [ds F]. split.
    + eapply Forall2_impl; [|exact F]. intros v w [o [[->|[f [-> ->]]] Ho]].
      * exact (proj1 (to_datetime_cell_no_utc ds v w Ho)).
      * intros Hw. apply (proj1 (to_datetime_cell_no_utc ds _ w Ho)) in Hw.
        destruct (float64_as_int_cases f) as [E|[z E]]; rewrite E in Hw; discriminate.
    + intros Hk. exact (to_datetime_years_naive ds vuosi dt F Hk).
Qed.

Lemma datetimes_normalised_witness :
  exists old new,
    get_column Sample.de_th_table "GEO_UPDAT" = Some old /\
    to_datetime old "%d.%m.%Y" true = Ok new /\
    get_column Sample.de_th_migrated "GEO_UPDAT" = Some new /\
    Forall (fun w => w = VNaT \/ tz_aware w = true) new.
Proof.
  refine (proj1 (proj2
    (datetimes_normalised Sample.base_schema Sample.extension_schema Sample.matches_pattern
       Sample.make_valid_geom Sample.geom_area De_th.descriptor
       Sample.de_th_table (fst Sample.de_th_output) (snd Sample.de_th_output)
       Sample.de_th_table Sample.de_th_migrated
       Sample.fi_table Sample.fi_migrated _ _ _)));
    vm_compute; reflexivity.
Defined.

(** C1, as stated, fails for [fi]: the instant made from the year 2023 has no
    timezone. *)
Lemma fi_determination_datetime_naive :
  exists gdf',
    Fi.migrate Sample.make_valid_geom Sample.geom_area
      [ ("geometry", [Sample.square]); ("VUOSI", [VInt 2023]); ("PINTA_ALA", [VFloat 1.5]) ]
    = Ok gdf' /\
    get_column gdf' "determination_datetime" = Some [VTimestamp 1672531200000000000 None] /\
    forallb tz_aware [VTimestamp 1672531200000000000 None] = false.
Proof.
  exists [ ("geometry", [Sample.square]); ("VUOSI", [VInt 2023]); ("PINTA_ALA", [VFloat 1.5]);
           ("determination_datetime", [VTimestamp 1672531200000000000 None]);
           ("area", [VFloat 1.5]) ].
  repeat split; vm_compute; reflexivity.
Qed.

(* ===================================================================== *)
(** * The area column of [fi] *)
(* ===================================================================== *)





(** The common dtype of a column of floats and any other column is float64
    or object. *)
Lemma result_type_floats (x y : Series) :
  nonempty x = true -> forallb is_float x = true ->
  (result_type (dtype_of x) (dtype_of y) = Dfloat64 /\ dtype_of y <> Dobject) \/
  (result_type (dtype_of x) (dtype_of y) = Dobject /\ dtype_of y = Dobject).
Proof.
  intros Hn Hf.
  assert (Hx : dtype_of x = Dfloat64).
  { destruct x as [|a x]; [discriminate|]. unfold dtype_of. now rewrite Hf. }
  rewrite Hx. destruct (dtype_of y); simpl;
    try (left; split; [reflexivity | discriminate]).
  right. split; reflexivity.
Qed.










(* ===================================================================== *)
(** * Rows and columns through the stages *)
(* ===================================================================== *)

Lemma get_column_In (gdf : DataFrame) (col : string) (s : Series) :
  get_column gdf col = Some s -> In (col, s) gdf.
Proof.
  induction gdf as [|[n c] gdf IH]; simpl; [discriminate|].
  destruct (String.eqb_spec n col) as [->|Hne]; intros H.
  - inversion H. now left.
  - right. auto.
Qed.

Lemma In_setitem_other (gdf : DataFrame) (col name : string) (s cells : Series) :
  name <> col -> In (name, cells) gdf -> In (name, cells) (setitem gdf col s).
Proof.
  intros Hne. induction gdf as [|[n c] gdf IH]; simpl; [tauto|].
  intros [E|Hin].
  - inversion E; subst. destruct (String.eqb_spec name col); [contradiction | now left].
  - destruct (String.eqb n col); right; auto.
    (* the replaced column is the head, the tail is unchanged *)
Qed.

Lemma setitem_lengths (gdf : DataFrame) (col : string) (s : Series) (n : nat) :
  (forall c, In c gdf -> List.length (snd c) = n) -> List.length s = n ->
  forall c, In c (setitem gdf col s) -> List.length (snd c) = n.
Proof.
  intros Hall Hs. induction gdf as [|[name old] gdf IH]; simpl.
  - intros c [<-|[]]. exact Hs.
  - destruct (String.eqb name col).
    + intros c [<-|Hin]; [exact Hs | apply Hall; now right].
    + intros c [<-|Hin].
      * apply (Hall (name, old)). now left.
      * apply IH; [|exact Hin]. intros c' Hc'. apply Hall. now right.
Qed.

Lemma aligned_lengths (gdf : DataFrame) (col : string) (s : Series) :
  Pipeline.aligned gdf = true -> get_column gdf col = Some s ->
  forall c, In c gdf -> List.length (snd c) = List.length s.
Proof.
  destruct gdf as [|[n first] rest]; [discriminate|].
  unfold Pipeline.aligned. intros Hall Hs.
  assert (Hfirst : forall c, In c ((n, first) :: rest) ->
                             List.length (snd c) = List.length first).
  { intros c [<-|Hin]; [reflexivity|].
    rewrite forallb_forall in Hall. specialize (Hall c Hin).
    unfold Pipeline.same_length in Hall. now apply Nat.eqb_eq in Hall. }
  apply get_column_In in Hs. intros c Hc.
  rewrite (Hfirst c Hc). symmetry. exact (Hfirst _ Hs).
Qed.

Lemma select_rows_length_le (mask cells : Series) :
  (List.length (Pipeline.select_rows mask cells) <= List.length cells)%nat.
Proof.
  revert cells. induction mask as [|m mask IH]; intros [|c cells]; simpl; try lia.
  destruct (truthy m); simpl; specialize (IH cells); lia.
Qed.

(** A row whose mask cell holds survives. *)
Lemma select_rows_In (mask cells : Series) (i : nat) (m v : value) :
  nth_error mask i = Some m -> truthy m = true -> nth_error cells i = Some v ->
  In v (Pipeline.select_rows mask cells).
Proof.
  revert cells i. induction mask as [|m0 mask IH]; intros cells i Hm Ht Hv.
  - destruct i; discriminate.
  - destruct cells as [|c cells]; [destruct i; discriminate|].
    destruct i as [|i]; simpl in *.
    + inversion Hm; inversion Hv; subst. rewrite Ht. now left.
    + destruct (truthy m0); [right|]; eapply IH; eauto.
Qed.

(** The mask of the [LF] filter on the column ["LF", "LF", "XX"] keeps the
    first two rows of a column of three. *)
Lemma select_first_two (cells : Series) :
  List.length cells = 3%nat ->
  Pipeline.select_rows (series_eq [VStr "LF"; VStr "LF"; VStr "XX"] (VStr "LF")) cells
  = firstn 2 cells.
Proof.
  destruct cells as [|a [|b [|c [|e cells]]]]; try discriminate. reflexivity.
Qed.

(** The one filter of [de_th], on a table with the [LF] column of the
    example. *)
Lemma de_th_row_filtering (gdf : DataFrame) :
  get_column gdf "LF" = Some [VStr "LF"; VStr "LF"; VStr "XX"] ->
  (forall c, In c gdf -> List.length (snd c) = 3%nat) ->
  Pipeline.row_filtering De_th.COLUMN_FILTERS gdf
  = Ok (map (fun c => (fst c, firstn 2 (snd c))) gdf).
Proof.
  intros HLF Hlen. unfold De_th.COLUMN_FILTERS, Pipeline.row_filtering, Pipeline.apply_filter.
  cbn [fst snd]. rewrite HLF. unfold De_th.filter_LF. cbn [bind].
  assert (Hall : forallb (fun c : string * Series =>
                   Pipeline.same_length (snd c)
                     (series_eq [VStr "LF"; VStr "LF"; VStr "XX"] (VStr "LF"))) gdf = true).
  { rewrite forallb_forall. intros c Hc. unfold Pipeline.same_length.
    rewrite (Hlen c Hc). reflexivity. }
  rewrite Hall. cbn [bind]. f_equal. apply map_ext_in. intros c Hc.
  now rewrite select_first_two by auto.
Qed.

(** The column-migration stage keeps the length of every column. *)
Lemma column_migration_lengths (ms : list (string * (Series -> result Series)))
    (gdf out : DataFrame) (n : nat) :
  Pipeline.column_migration ms gdf = Ok out ->
  (forall c, In c gdf -> List.length (snd c) = n) ->
  forall c, In c out -> List.length (snd c) = n.
Proof.
  revert gdf. induction ms as [|[name f] ms IH]; intros gdf H Hall; simpl in H.
  - inversion H; subst. exact Hall.
  - unfold Pipeline.apply_migration in H. cbn [fst snd] in H.
    destruct (get_column gdf name) as [column|] eqn:Hcol; [|discriminate].
    destruct (f column) as [o|e]; [|discriminate]. cbn [bind] in H.
    destruct (Pipeline.same_length o column) eqn:Hs; [|discriminate]. cbn [bind] in H.
    apply (IH _ H). apply setitem_lengths; [exact Hall|].
    unfold Pipeline.same_length in Hs. apply Nat.eqb_eq in Hs. rewrite Hs.
    exact (Hall _ (get_column_In _ _ _ Hcol)).
Qed.

Lemma In_setitem_inv (gdf : DataFrame) (col : string) (s : Series) (c : string * Series) :
  In c (setitem gdf col s) -> c = (col, s) \/ In c gdf.
Proof.
  induction gdf as [|[n old] gdf IH]; simpl.
  - intros [<-|[]]. now left.
  - destruct (String.eqb_spec n col) as [->|Hne]; intros [<-|Hin]; auto.
    destruct (IH Hin); auto.
Qed.

(** Duplication adds copies of cells that are in the table already. *)
Lemma column_duplication_cells (cs : list (string * target)) (gdf : DataFrame)
    (c : string * Series) :
  In c (Pipeline.column_duplication cs gdf) -> exists source, In (source, snd c) gdf.
Proof.
  unfold Pipeline.column_duplication. revert gdf.
  induction cs as [|[src t] cs IH]; intros gdf Hin; simpl in Hin.
  - destruct c as [n cells]. eauto.
  - destruct (IH _ Hin) as [source Hs]. clear IH Hin.
    unfold Pipeline.duplicate_column in Hs. cbn [fst snd] in Hs.
    destruct t as [name|names]; [eauto|].
    destruct (get_column gdf src) as [cells|] eqn:Hsrc; [|eauto].
    apply get_column_In in Hsrc.
    assert (Hfold : forall g,
              (forall x, In x g -> exists source', In (source', snd x) gdf) ->
              forall x, In x (fold_left (fun g0 name => setitem g0 name cells) names g) ->
                        exists source', In (source', snd x) gdf).
    { clear Hs. induction names as [|n names IHn]; intros g Hg x Hx; simpl in Hx.
      - exact (Hg x Hx).
      - apply (IHn (setitem g n cells)); [|exact Hx].
        intros y Hy. destruct (In_setitem_inv _ _ _ _ Hy) as [->|Hy']; eauto. }
    assert (Hbase : forall x, In x gdf -> exists source', In (source', snd x) gdf).
    { intros [n0 c0] Hx. exists n0. exact Hx. }
    exact (Hfold gdf Hbase (source, snd c) Hs).
Qed.

(** A column map without lists duplicates nothing. *)
Lemma column_duplication_single (cs : list (string * target)) (gdf : DataFrame) :
  forallb (fun c => match snd c with Target _ => true | Targets _ => false end) cs = true ->
  Pipeline.column_duplication cs gdf = gdf.
Proof.
  unfold Pipeline.column_duplication. revert gdf.
  induction cs as [|[src t] cs IH]; intros gdf H; simpl in *; [reflexivity|].
  apply andb_prop in H as [Ht H]. destruct t; [|discriminate].
  unfold Pipeline.duplicate_column. cbn [snd]. exact (IH gdf H).
Qed.

(** The projection hands on cells of source columns, unchanged. *)
Lemma column_projection_cells (cs : list (string * target)) (gdf out : DataFrame)
    (name : string) (cells : Series) :
  Pipeline.column_projection cs gdf = Ok out -> In (name, cells) out ->
  exists source, In (source, cells) gdf.
Proof.
  unfold Pipeline.column_projection. destruct (forallb _ cs); [|discriminate].
  intros H Hin. inversion H; subst. unfold Pipeline.column_pruning in Hin.
  apply filter_In in Hin as [Hin _]. unfold Pipeline.column_renaming in Hin.
  apply in_map_iff in Hin as [c [E Hc]].
  destruct (column_duplication_cells _ _ _ Hc) as [source Hs].
  exists source. replace cells with (snd c); [exact Hs|].
  unfold Pipeline.rename_column in E.
  destruct (lookup_target cs (fst c)) as [[t|ts]|]; inversion E; subst; reflexivity.
Qed.

(** Under a column map without lists, a source column the map names reaches
    the projection under its target. *)
Lemma column_projection_In (cs : list (string * target)) (gdf out : DataFrame)
    (source name : string) (cells : Series) :
  forallb (fun c => match snd c with Target _ => true | Targets _ => false end) cs = true ->
  Pipeline.column_projection cs gdf = Ok out ->
  lookup_target cs source = Some (Target name) ->
  In (source, cells) gdf -> In (name, cells) out.
Proof.
  intros Hsingle H Ht Hin. unfold Pipeline.column_projection in H.
  destruct (forallb (fun c => existsb _ _) cs); [|discriminate].
  inversion H; subst.
  rewrite (column_duplication_single cs gdf Hsingle).
  unfold Pipeline.column_pruning. apply filter_In. split.
  - unfold Pipeline.column_renaming. apply in_map_iff. exists (source, cells).
    split; [|exact Hin]. unfold Pipeline.rename_column. cbn [fst snd]. now rewrite Ht.
  - cbn [fst]. unfold mem. apply existsb_exists. exists name.
    split; [|apply String.eqb_refl].
    unfold target_names. apply in_flat_map. exists (source, Target name).
    split; [exact (lookup_target_In _ _ _ Ht) | now left].
Qed.

Lemma Forall2_lengths (gdf out : DataFrame) (n : nat) :
  Forall2 (fun c o : string * Series => List.length (snd o) = List.length (snd c)) gdf out ->
  (forall c, In c gdf -> List.length (snd c) = n) ->
  forall o, In o out -> List.length (snd o) = n.
Proof.
  induction 1 as [|c o gdf out Hco F IH]; intros Hall x Hx; [destruct Hx|].
  destruct Hx as [<-|Hx].
  - rewrite Hco. apply Hall. now left.
  - apply IH; [|exact Hx]. intros c' Hc'. apply Hall. now right.
Qed.

Lemma column_names_setitem (gdf : DataFrame) (col name : string) (s : Series) :
  In name (column_names (setitem gdf col s)) <-> name = col \/ In name (column_names gdf).
Proof.
  induction gdf as [|[n c] gdf IH]; simpl.
  - intuition congruence.
  - destruct (String.eqb_spec n col) as [->|Hne]; simpl.
    + intuition congruence.
    + rewrite IH. intuition congruence.
Qed.

(** The global-migration stage of [de_th]: [GEO_UPDAT] is replaced, and the
    columns are of one length. *)
Lemma de_th_global_migration (gdf migrated : DataFrame) :
  Pipeline.global_migration De_th.descriptor gdf = Ok migrated ->
  Pipeline.aligned migrated = true /\
  exists new, migrated = setitem gdf "GEO_UPDAT" new.
Proof.
  unfold Pipeline.global_migration. cbn [migration De_th.descriptor].
  unfold De_th.MIGRATION.
  destruct (De_th.migrate gdf) as [m|e] eqn:Hm; [|discriminate]. cbn [bind].
  destruct (Pipeline.aligned m) eqn:Ha; [|discriminate].
  intros H. inversion H; subst. split; [exact Ha|].
  destruct (de_th_migrate_Ok _ _ Hm) as [old [new [_ [_ ->]]]]. eauto.
Qed.

(** The stages of [fi] before the projection are its global migration
    alone. *)
Lemma fi_stages (mv : geometry -> geometry) (ar : geometry -> float)
    (gdf migrated filtered transformed : DataFrame) :
  Pipeline.global_migration (Fi.descriptor mv ar) gdf = Ok migrated ->
  Pipeline.row_filtering (column_filters (Fi.descriptor mv ar)) migrated = Ok filtered ->
  Pipeline.column_migration (column_migrations (Fi.descriptor mv ar)) filtered
  = Ok transformed ->
  Fi.migrate mv ar gdf = Ok migrated /\ transformed = migrated.
Proof.
  unfold Pipeline.global_migration. cbn [migration Fi.descriptor column_filters
    column_migrations Pipeline.row_filtering Pipeline.column_migration].
  destruct (Fi.migrate mv ar gdf) as [m|e]; [|discriminate]. cbn [bind].
  destruct (Pipeline.aligned m); [|discriminate].
  intros H1 H2 H3. inversion H1; inversion H2; inversion H3; subst. auto.
Qed.

Lemma not_In_LF : ~ In "LF" (target_names De_th.COLUMNS).
Proof. simpl. intuition discriminate. Qed.

(* ===================================================================== *)
(** * The row filter of [de_th] and the pruned columns *)
(* ===================================================================== *)

(** C3. On a table whose [LF] column is ["LF", "LF", "XX"] the row filter of
    [de_th] (keep the rows where [LF] equals "LF") leaves exactly the first
    two rows of every column, in their order; [LF] is no target of the column
    map, and a run on such a table that succeeds ends in a table of two rows
    without a column [LF]. *)
Theorem LF_filter_example
    (base_schema : schema) (extension_schema : string -> schema)
    (matches_pattern : string -> string -> bool)
    (gdf out : DataFrame) (ws : list string) :
  get_column gdf "LF" = Some [VStr "LF"; VStr "LF"; VStr "XX"] ->
  ((forall c, In c gdf -> List.length (snd c) = 3%nat) ->
   Pipeline.row_filtering De_th.COLUMN_FILTERS gdf
   = Ok (map (fun c => (fst c, firstn 2 (snd c))) gdf)) /\
  ~ In "LF" (target_names De_th.COLUMNS) /\
  (De_th.convert base_schema extension_schema matches_pattern gdf = Ok (out, ws) ->
   (forall name cells, In (name, cells) out -> List.length cells = 2%nat) /\
   ~ In "LF" (column_names out)).
Proof.
  intros HLF. split; [exact (de_th_row_filtering gdf HLF)|].
  split; [exact not_In_LF|]. intros Hc.
  destruct (convert_output _ _ _ _ _ _ _ Hc) as [Hnames _].
  split; [|intros Hin; exact (not_In_LF (Hnames _ Hin))].
  apply convert_Ok in Hc as [m [f [t [p [r [Hm [Hf [Ht [Hp [_ Hco]]]]]]]]]].
  destruct (de_th_global_migration _ _ Hm) as [Ha [new ->]].
  assert (HLF' : get_column (setitem gdf "GEO_UPDAT" new) "LF"
                 = Some [VStr "LF"; VStr "LF"; VStr "XX"]).
  { rewrite get_column_setitem_other by discriminate. exact HLF. }
  pose proof (aligned_lengths _ _ _ Ha HLF') as H3.
  cbn [column_filters De_th.descriptor] in Hf.
  rewrite (de_th_row_filtering _ HLF' H3) in Hf. inversion Hf; subst f. clear Hf.
  assert (H2 : forall c, In c t -> List.length (snd c) = 2%nat).
  { apply (column_migration_lengths _ _ _ _ Ht).
    intros c Hc. apply in_map_iff in Hc as [c0 [<- Hc0]]. cbn [snd].
    specialize (H3 c0 Hc0). destruct c0 as [n0 l0]. cbn [snd] in *.
    destruct l0 as [|a [|b [|c1 [|e l]]]]; try discriminate H3. reflexivity. }
  assert (Hp2 : forall c, In c p -> List.length (snd c) = 2%nat).
  { intros [n cells] Hc. destruct (column_projection_cells _ _ _ _ _ Hp Hc) as [src Hsrc].
    exact (H2 _ Hsrc). }
  destruct (type_coercion_Ok _ _ _ _ _ _ _ _ Hco) as [_ [F _]].
  intros name cells Hin. exact (Forall2_lengths _ _ _ F Hp2 _ Hin).
Qed.

Lemma LF_filter_example_witness :
  Pipeline.row_filtering De_th.COLUMN_FILTERS Sample.de_th_table
  = Ok (map (fun c => (fst c, firstn 2 (snd c))) Sample.de_th_table) /\
  ~ In "LF" (column_names (fst Sample.de_th_output)).
Proof.
  destruct (LF_filter_example Sample.base_schema Sample.extension_schema
              Sample.matches_pattern Sample.de_th_table
              (fst Sample.de_th_output) (snd Sample.de_th_output) eq_refl)
    as [Hstage [_ Hrun]].
  split.
  - apply Hstage. intros c Hc. simpl in Hc.
    repeat (destruct Hc as [<-|Hc]; [reflexivity|]). destruct Hc.
  - apply Hrun. vm_compute. reflexivity.
Defined.

(** C7. Every column of the output of [fi] bears one of the target names of
    its column map: geometry, id, block_id, area, crop_code, crop_name.  The
    column [determination_datetime], which the global migration creates and
    which is no target of the map, is in the table up to the renaming and is
    dropped by the pruning. *)
Theorem fi_output_columns
    (make_valid_geom : geometry -> geometry) (geom_area : geometry -> float)
    (base_schema : schema) (extension_schema : string -> schema)
    (matches_pattern : string -> string -> bool)
    (gdf out : DataFrame) (ws : list string) :
  Fi.convert make_valid_geom geom_area base_schema extension_schema matches_pattern gdf
  = Ok (out, ws) ->
  target_names Fi.COLUMNS = ["geometry"; "id"; "block_id"; "area"; "crop_code"; "crop_name"] /\
  (forall name, In name (column_names out) ->
                In name ["geometry"; "id"; "block_id"; "area"; "crop_code"; "crop_name"]) /\
  ~ In "determination_datetime" (column_names out) /\
  exists migrated renamed,
    Fi.migrate make_valid_geom geom_area gdf = Ok migrated /\
    In "determination_datetime" (column_names migrated) /\
    renamed = Pipeline.column_renaming Fi.COLUMNS
                (Pipeline.column_duplication Fi.COLUMNS migrated) /\
    In "determination_datetime" (column_names renamed) /\
    ~ In "determination_datetime" (column_names (Pipeline.column_pruning Fi.COLUMNS renamed)) /\
    column_names out = column_names (Pipeline.column_pruning Fi.COLUMNS renamed).
Proof.
  intros Hc. split; [reflexivity|].
  destruct (convert_output _ _ _ _ _ _ _ Hc) as [Hnames _].
  assert (Hno : ~ In "determination_datetime" (target_names Fi.COLUMNS)).
  { simpl. intuition discriminate. }
  split; [exact Hnames|]. split; [intros Hin; exact (Hno (Hnames _ Hin))|].
  apply convert_Ok in Hc as [m [f [t [p [r [Hm [Hf [Ht [Hp [_ Hco]]]]]]]]]].
  destruct (fi_stages _ _ _ _ _ _ Hm Hf Ht) as [Hmig ->].
  assert (Hcreated : In "determination_datetime" (column_names m)).
  { destruct (fi_migrate_Ok _ _ _ _ Hmig)
      as [vuosi [dt [geoms [valid [pinta [areas [hectares [cells
         [_ [_ [_ [_ [_ [_ [_ [_ ->]]]]]]]]]]]]]]]].
    rewrite !column_names_setitem. right; right; left. reflexivity. }
  exists m, (Pipeline.column_renaming Fi.COLUMNS (Pipeline.column_duplication Fi.COLUMNS m)).
  split; [exact Hmig|]. split; [exact Hcreated|]. split; [reflexivity|].
  assert (Hp2 : p = Pipeline.column_pruning Fi.COLUMNS
                      (Pipeline.column_renaming Fi.COLUMNS
                         (Pipeline.column_duplication Fi.COLUMNS m))).
  { pose proof Hp as Hp'. unfold Pipeline.column_projection in Hp'.
    cbn [columns Fi.descriptor] in Hp'.
    destruct (forallb _ Fi.COLUMNS); [|discriminate]. congruence. }
  rewrite <- Hp2. split; [|split].
  - rewrite (column_duplication_single Fi.COLUMNS m eq_refl).
    unfold column_names in Hcreated. apply in_map_iff in Hcreated as [[n cells] [Hn Hin]].
    cbn [fst] in Hn. subst n. unfold column_names, Pipeline.column_renaming.
    rewrite map_map. apply in_map_iff. exists ("determination_datetime", cells).
    split; [reflexivity | exact Hin].
  - intros Hin. exact (Hno (column_projection_names _ _ _ Hp _ Hin)).
  - exact (proj1 (type_coercion_Ok _ _ _ _ _ _ _ _ Hco)).
Qed.

Lemma fi_output_columns_witness :
  target_names Fi.COLUMNS = ["geometry"; "id"; "block_id"; "area"; "crop_code"; "crop_name"] /\
  ~ In "determination_datetime" (column_names (fst Sample.fi_output)) /\
  In "determination_datetime" (column_names Sample.fi_migrated).
Proof.
  destruct (fi_output_columns Sample.make_valid_geom Sample.geom_area Sample.base_schema
              Sample.extension_schema Sample.matches_pattern Sample.fi_table
              (fst Sample.fi_output) (snd Sample.fi_output))
    as [Ht [_ [Hno _]]].
  - vm_compute. reflexivity.
  - split; [exact Ht|]. split; [exact Hno|]. vm_compute. tauto.
Defined.

(* ===================================================================== *)
(** * The range of [area_last_year] *)
(* ===================================================================== *)

(** A column no migration names goes through the column-migration stage
    unchanged. *)
Lemma column_migration_other (ms : list (string * (Series -> result Series)))
    (gdf out : DataFrame) (name : string) (cells : Series) :
  Pipeline.column_migration ms gdf = Ok out ->
  (forall m, In m ms -> fst m <> name) ->
  In (name, cells) gdf -> In (name, cells) out.
Proof.
  revert gdf. induction ms as [|[n f] ms IH]; intros gdf H Hne Hin; simpl in H.
  - inversion H; subst. exact Hin.
  - unfold Pipeline.apply_migration in H. cbn [fst snd] in H.
    destruct (get_column gdf n) as [column|]; [|discriminate].
    destruct (f column) as [o|e]; [|discriminate]. cbn [bind] in H.
    destruct (Pipeline.same_length o column); [|discriminate]. cbn [bind] in H.
    apply (IH _ H).
    + intros m Hm. apply Hne. now right.
    + apply In_setitem_other; [|exact Hin].
      intros E. apply (Hne (n, f)); [now left | symmetry; exact E].
Qed.

(** A cell of [FB_FL_VJ] in a row whose [LF] is "LF" is, after the stages
    up to the projection, a cell of [area_last_year]. *)
Lemma de_th_area_last_year_cell (gdf projected : DataFrame) (lf fb : Series)
    (i : nat) (v : value) :
  Pipeline.column_stages De_th.descriptor gdf = Ok projected ->
  get_column gdf "LF" = Some lf ->
  get_column gdf "FB_FL_VJ" = Some fb ->
  nth_error lf i = Some (VStr "LF") ->
  nth_error fb i = Some v ->
  exists cells, In ("area_last_year", cells) projected /\ In v cells.
Proof.
  unfold Pipeline.column_stages. intros H HLF HFB Hlf Hfb.
  destruct (Pipeline.global_migration De_th.descriptor gdf) as [m|e] eqn:Hm;
    [|discriminate]. cbn [bind] in H.
  destruct (Pipeline.row_filtering _ m) as [f|e] eqn:Hf; [|discriminate]. cbn [bind] in H.
  destruct (Pipeline.column_migration _ f) as [t|e] eqn:Ht; [|discriminate].
  cbn [bind] in H.
  destruct (de_th_global_migration _ _ Hm) as [_ [new ->]].
  cbn [column_filters De_th.descriptor De_th.COLUMN_FILTERS Pipeline.row_filtering] in Hf.
  unfold Pipeline.apply_filter in Hf. cbn [fst snd] in Hf.
  rewrite get_column_setitem_other in Hf by discriminate. rewrite HLF in Hf.
  unfold De_th.filter_LF in Hf. cbn [bind] in Hf.
  destruct (forallb _ _); [|discriminate]. cbn [bind] in Hf. inversion Hf; subst f.
  exists (Pipeline.select_rows (series_eq lf (VStr "LF")) fb). split.
  - apply (column_projection_In De_th.COLUMNS _ _ "FB_FL_VJ" _ _ eq_refl H); [reflexivity|].
    apply (column_migration_other _ _ _ _ _ Ht).
    + cbn [column_migrations De_th.descriptor De_th.COLUMN_MIGRATIONS].
      intros mg [<-|[<-|[<-|[<-|[]]]]]; discriminate.
    + apply in_map_iff. exists ("FB_FL_VJ", fb). split; [reflexivity|].
      apply In_setitem_other; [discriminate|]. exact (get_column_In _ _ _ HFB).
  - apply (select_rows_In _ _ i (VBool (py_eq (VStr "LF") (VStr "LF"))) v).
    + unfold series_eq. rewrite nth_error_map, Hlf. reflexivity.
    + reflexivity.
    + exact Hfb.
Qed.

Lemma column_stages_names (d : descriptor) (gdf projected : DataFrame) :
  Pipeline.column_stages d gdf = Ok projected ->
  forall name, In name (column_names projected) -> In name (target_names (columns d)).
Proof.
  unfold Pipeline.column_stages.
  destruct (Pipeline.global_migration d gdf) as [m|e]; [|discriminate]. cbn [bind].
  destruct (Pipeline.row_filtering _ m) as [f|e]; [|discriminate]. cbn [bind].
  destruct (Pipeline.column_migration _ f) as [t|e]; [|discriminate]. cbn [bind].
  apply column_projection_names.
Qed.

Lemma area_last_year_zero_violates (matches_pattern : string -> string -> bool) (v : value) :
  v = VFloat 0 \/ v = VInt 0 ->
  isna v = false /\
  Pipeline.coerce_cell matches_pattern area_last_year_schema v
  = Pipeline.Violates "value out of range".
Proof. intros [->| ->]; split; reflexivity. Qed.

(** C5, as the pipeline has it.  [area_last_year], the target of
    [FB_FL_VJ], is declared by the missing-schema fragment of [de_th] as a
    required float above 0 and up to 100000.  Where the standard does not
    define the property itself, a 0 in [FB_FL_VJ], in a row that passes the
    filter on [LF], makes the run fail, and with a coercion error once the
    stages before the coercion have gone through.  Under the same schema an
    optional property coerces: every 0 becomes [None] and leaves a
    warning. *)
Theorem area_last_year_zero
    (base_schema : schema) (extension_schema : string -> schema)
    (matches_pattern : string -> string -> bool)
    (gdf : DataFrame) (lf fb : Series) (i : nat) (v : value) :
  Pipeline.standard_property base_schema extension_schema De_th.descriptor "area_last_year"
  = None ->
  get_column gdf "LF" = Some lf ->
  get_column gdf "FB_FL_VJ" = Some fb ->
  nth_error lf i = Some (VStr "LF") ->
  nth_error fb i = Some v ->
  v = VFloat 0 \/ v = VInt 0 ->
  (lookup_target De_th.COLUMNS "FB_FL_VJ" = Some (Target "area_last_year") /\
   lookup (properties De_th.MISSING_SCHEMAS) "area_last_year" = Some area_last_year_schema /\
   mem "area_last_year" (required De_th.MISSING_SCHEMAS) = true) /\
  is_ok (De_th.convert base_schema extension_schema matches_pattern gdf) = false /\
  (is_ok (Pipeline.column_stages De_th.descriptor gdf) = true ->
   is_ok (Pipeline.schema_resolution base_schema extension_schema De_th.descriptor) = true ->
   is_coercion_error (De_th.convert base_schema extension_schema matches_pattern gdf) = true) /\
  (forall name cells,
     exists out ws,
       Pipeline.coerce_cells matches_pattern name false area_last_year_schema cells
       = Ok (out, ws) /\
       Forall2 (fun c w => c = VFloat 0 \/ c = VInt 0 ->
                           w = VNone /\ In ("value out of range: " ++ name) ws)
               cells out).
Proof.
  intros Hstd HLF HFB Hlf Hfb Hv.
  split; [repeat split; reflexivity|].
  assert (Hrun : forall projected resolved,
            Pipeline.column_stages De_th.descriptor gdf = Ok projected ->
            Pipeline.schema_resolution base_schema extension_schema De_th.descriptor
            = Ok resolved ->
            is_coercion_error
              (Pipeline.type_coercion base_schema extension_schema matches_pattern
                 De_th.descriptor resolved projected) = true).
  { intros projected resolved Hst Hres.
    destruct (de_th_area_last_year_cell _ _ _ _ _ _ Hst HLF HFB Hlf Hfb)
      as [cells [Hcol Hcell]].
    destruct (schema_resolution_Ok _ _ _ _ Hres) as [-> Hcover].
    assert (Hp : Pipeline.resolve_property base_schema extension_schema De_th.descriptor
                   "area_last_year" = Some area_last_year_schema).
    { unfold Pipeline.resolve_property. rewrite Hstd. reflexivity. }
    assert (Hreq : Pipeline.is_required base_schema extension_schema De_th.descriptor
                     "area_last_year" = true).
    { unfold Pipeline.is_required, Pipeline.all_sources. rewrite existsb_app.
      apply orb_true_iff. right. reflexivity. }
    assert (Hbad : is_coercion_error
                     (Pipeline.coerce_cells matches_pattern "area_last_year" true
                        area_last_year_schema cells) = true).
    { apply (coerce_cells_required_fails _ _ _ _ v Hcell). right.
      exists "value out of range".
      exact (proj2 (area_last_year_zero_violates matches_pattern v Hv)). }
    destruct (Pipeline.type_coercion _ _ _ _ _ projected) as [[o w]|e] eqn:Hco.
    - exfalso.
      assert (Hf : is_ok (Pipeline.type_coercion base_schema extension_schema
                            matches_pattern De_th.descriptor
                            (Pipeline.resolve_property base_schema extension_schema
                               De_th.descriptor) projected) = false).
      { apply (type_coercion_fails _ _ _ _ _ _ _ _ _ Hcol Hp). rewrite Hreq.
        destruct (Pipeline.coerce_cells _ _ _ _ cells); [discriminate | reflexivity]. }
      rewrite Hco in Hf. discriminate.
    - assert (Hall : forall name, In name (column_names projected) ->
                Pipeline.resolve_property base_schema extension_schema De_th.descriptor name
                <> None).
      { intros name Hn. apply Hcover. exact (column_stages_names _ _ _ Hst name Hn). }
      destruct (type_coercion_Raise _ _ _ _ _ _ e Hall Hco) as [msg ->]. reflexivity. }
  split; [|split].
  - unfold De_th.convert, Pipeline.convert.
    destruct (Pipeline.column_stages De_th.descriptor gdf) as [projected|e] eqn:Hst;
      [|reflexivity]. cbn [bind].
    destruct (Pipeline.schema_resolution _ _ De_th.descriptor) as [resolved|e] eqn:Hres;
      [|reflexivity]. cbn [bind].
    specialize (Hrun projected resolved eq_refl eq_refl).
    destruct (Pipeline.type_coercion _ _ _ _ _ projected); [discriminate | reflexivity].
  - unfold De_th.convert, Pipeline.convert.
    destruct (Pipeline.column_stages De_th.descriptor gdf) as [projected|e] eqn:Hst;
      [|discriminate]. cbn [bind].
    destruct (Pipeline.schema_resolution _ _ De_th.descriptor) as [resolved|e] eqn:Hres;
      [|discriminate]. cbn [bind].
    intros _ _. exact (Hrun projected resolved eq_refl eq_refl).
  - intros name cells.
    destruct (coerce_cells_optional matches_pattern name area_last_year_schema cells)
      as [out [ws' [Hok F]]].
    exists out, ws'. split; [exact Hok|].
    eapply Forall2_impl; [|exact F]. intros c w [_ [_ Hviol]] Hc.
    destruct (area_last_year_zero_violates matches_pattern c Hc) as [Hna Hvio].
    exact (Hviol Hna _ Hvio).
Qed.

Lemma area_last_year_zero_witness :
  is_ok (De_th.convert Sample.base_schema Sample.extension_schema Sample.matches_pattern
           Sample.de_th_table_zero) = false /\
  is_coercion_error
    (De_th.convert Sample.base_schema Sample.extension_schema Sample.matches_pattern
       Sample.de_th_table_zero) = true.
Proof.
  destruct (area_last_year_zero Sample.base_schema Sample.extension_schema
              Sample.matches_pattern Sample.de_th_table_zero
              [VStr "LF"; VStr "LF"; VStr "XX"] [VFloat 25; VFloat 0; VFloat 3]
              1%nat (VFloat 0) eq_refl eq_refl eq_refl eq_refl eq_refl (or_introl eq_refl))
    as [_ [Hfail [Hcoercion _]]].
  split; [exact Hfail|]. apply Hcoercion; vm_compute; reflexivity.
Defined.

(** C5, as stated, fails: a 0 in [FB_FL_VJ] in a row the filter on [LF]
    drops never reaches the coercion, and the run goes through. *)
Lemma filtered_zero_passes :
  get_column (setitem Sample.de_th_table "FB_FL_VJ" [VFloat 25; VFloat 1.25; VFloat 0])
             "FB_FL_VJ"
  = Some [VFloat 25; VFloat 1.25; VFloat 0] /\
  is_ok (De_th.convert Sample.base_schema Sample.extension_schema Sample.matches_pattern
           (setitem Sample.de_th_table "FB_FL_VJ" [VFloat 25; VFloat 1.25; VFloat 0]))
  = true.
Proof. split; vm_compute; reflexivity. Qed.

(* ===================================================================== *)
(** * The split of [FBI_VJ] *)
(* ===================================================================== *)

Lemma str_append_assoc (a b c : string) : ((a ++ b) ++ c = a ++ (b ++ c))%string.
Proof. induction a as [|x a IH]; simpl; [reflexivity | now rewrite IH]. Qed.

Lemma str_length_append (a b : string) :
  String.length (a ++ b) = (String.length a + String.length b)%nat.
Proof. induction a as [|x a IH]; simpl; [reflexivity | now rewrite IH]. Qed.

Lemma string_forall_append (p : ascii -> bool) (a b : string) :
  string_forall p (a ++ b) = string_forall p a && string_forall p b.
Proof.
  induction a as [|x a IH]; simpl; [reflexivity|].
  now rewrite IH, andb_assoc.
Qed.

Lemma star_rests_nonempty (c : char_class) (s : string) : star_rests c s <> [].
Proof.
  destruct s as [|a r]; simpl; [discriminate|].
  destruct (in_class c a); [|discriminate].
  intros H. apply app_eq_nil in H as [_ H]. discriminate.
Qed.

(** After a run of whitespace the longest repetition of [\s*] comes first. *)
Lemma star_rests_whitespace (w v : string) :
  all_space w = true ->
  match v with EmptyString => true | String a _ => negb (is_space a) end = true ->
  exists tl, star_rests Whitespace (w ++ v) = v :: tl.
Proof.
  intros Hw Hv. induction w as [|b w IH]; simpl.
  - destruct v as [|a r]; [eexists; reflexivity|].
    simpl. apply negb_true_iff in Hv. rewrite Hv. eexists; reflexivity.
  - simpl in Hw. apply andb_prop in Hw as [Hb Hw]. rewrite Hb.
    destruct (IH Hw) as [tl ->]. eexists. reflexivity.
Qed.

(** The matches of [delim] at the start of a text, spelled out. *)
Lemma matches_here_delim (s : string) :
  matches_here De_th.delim s
  = flat_map (fun s1 =>
                match s1 with
                | String a r1 =>
                    if is_comma a then star_rests Whitespace r1 else []
                | EmptyString => []
                end)
             (star_rests Whitespace s).
Proof.
  unfold De_th.delim. cbn [matches_here]. apply flat_map_ext. intros [|a r1]; [reflexivity|].
  cbn [in_class]. unfold is_comma. rewrite Ascii.eqb_sym.
  destruct (Ascii.eqb a ","); [|reflexivity].
  induction (star_rests Whitespace r1) as [|x l IH]; simpl; [reflexivity | now rewrite IH].
Qed.

(** A separator (whitespace, a comma, whitespace) is matched whole. *)
Lemma matches_here_separator (w w' u : string) :
  all_space w = true -> all_space w' = true ->
  match u with EmptyString => true | String a _ => negb (is_space a) end = true ->
  exists tl, matches_here De_th.delim (w ++ String "," (w' ++ u)) = u :: tl.
Proof.
  intros Hw Hw' Hu. rewrite matches_here_delim.
  destruct (star_rests_whitespace w (String "," (w' ++ u)) Hw eq_refl) as [tl ->].
  destruct (star_rests_whitespace w' u Hw' Hu) as [tl' Htl'].
  cbn [flat_map]. change (is_comma ",") with true. cbv iota. rewrite Htl'.
  eexists. reflexivity.
Qed.

(** No match starts at a character that is neither whitespace nor a comma. *)
Lemma matches_here_code_char (a : ascii) (r : string) :
  is_space a = false -> is_comma a = false ->
  matches_here De_th.delim (String a r) = [].
Proof.
  intros Hs Hc. rewrite matches_here_delim. cbn [star_rests in_class].
  rewrite Hs. cbn [flat_map]. now rewrite Hc.
Qed.

(** A comma is always matched. *)
Lemma matches_here_comma (r : string) :
  matches_here De_th.delim (String "," r) <> [].
Proof.
  rewrite matches_here_delim. cbn [star_rests in_class].
  change (is_space ",") with false. cbv iota. cbn [flat_map].
  change (is_comma ",") with true. cbv iota. rewrite app_nil_r.
  apply star_rests_nonempty.
Qed.

Lemma star_rests_no_comma (s s1 : string) :
  no_comma s = true -> In s1 (star_rests Whitespace s) -> no_comma s1 = true.
Proof.
  induction s as [|a r IH]; simpl; intros H.
  - intros [<-|[]]. reflexivity.
  - unfold no_comma in H. simpl in H. apply andb_prop in H as [Ha Hr].
    assert (Hs : no_comma (String a r) = true).
    { unfold no_comma. simpl. now rewrite Ha, Hr. }
    destruct (is_space a).
    + intros Hin. apply in_app_or in Hin as [Hin|[<-|[]]]; [|exact Hs].
      exact (IH Hr Hin).
    + intros [<-|[]]. exact Hs.
Qed.

(** Without a comma there is no match. *)
Lemma matches_here_no_comma (s : string) :
  no_comma s = true -> matches_here De_th.delim s = [].
Proof.
  intros H. rewrite matches_here_delim.
  assert (Hall : forall s1, In s1 (star_rests Whitespace s) -> no_comma s1 = true).
  { intros s1. exact (star_rests_no_comma s s1 H). }
  induction (star_rests Whitespace s) as [|s1 l IH]; [reflexivity|].
  cbn [flat_map]. rewrite IH by (intros x Hx; apply Hall; now right).
  specialize (Hall s1 (or_introl eq_refl)).
  destruct s1 as [|a r1]; [reflexivity|].
  unfold no_comma in Hall. simpl in Hall. apply andb_prop in Hall as [Ha _].
  apply negb_true_iff in Ha. now rewrite Ha.
Qed.

(** The characters of a match are skipped one by one. *)
Lemma split_from_skip (p : regex) (x u piece : string) :
  split_from p (x ++ u) (String.length x) piece = split_from p u O piece.
Proof.
  induction x as [|a x IH]; simpl; [reflexivity | exact IH].
Qed.

Lemma split_from_code (c t piece : string) :
  code_like c = true ->
  split_from De_th.delim (c ++ t) O piece = split_from De_th.delim t O (piece ++ c).
Proof.
  revert piece. induction c as [|a c IH]; intros piece H.
  - simpl. replace (piece ++ "")%string with piece; [reflexivity|].
    clear. induction piece as [|x piece IH]; simpl; [reflexivity | now rewrite <- IH].
  - unfold code_like in H. simpl in H. apply andb_prop in H as [Ha Hc].
    apply andb_prop in Ha as [Hs Hcm]. apply negb_true_iff in Hs, Hcm.
    change (String a c ++ t)%string with (String a (c ++ t)).
    cbn [split_from]. rewrite (matches_here_code_char a (c ++ t) Hs Hcm).
    rewrite (IH _ Hc). rewrite str_append_assoc. reflexivity.
Qed.

Lemma split_from_separator (w w' u piece : string) :
  all_space w = true -> all_space w' = true ->
  match u with EmptyString => true | String a _ => negb (is_space a) end = true ->
  split_from De_th.delim (w ++ String "," (w' ++ u)) O piece
  = piece :: split_from De_th.delim u O EmptyString.
Proof.
  intros Hw Hw' Hu.
  destruct (matches_here_separator w w' u Hw Hw' Hu) as [tl Hm].
  assert (Hsep : exists a x, (w ++ String "," w')%string = String a x).
  { destruct w as [|b w]; simpl; eauto. }
  destruct Hsep as [a [x Hx]].
  assert (Ht : (w ++ String "," (w' ++ u))%string = String a (x ++ u)).
  { change (String "," (w' ++ u)) with (String "," w' ++ u)%string.
    rewrite <- str_append_assoc, Hx. reflexivity. }
  rewrite Ht in *. cbn [split_from]. rewrite Hm.
  replace (String.length (String a (x ++ u)) - String.length u)%nat
    with (S (String.length x)).
  - now rewrite split_from_skip.
  - change (String.length (String a (x ++ u))) with (S (String.length (x ++ u))).
    rewrite str_length_append. lia.
Qed.

(** Codes joined by separators come back as they were. *)
Lemma split_from_join (rest : list (string * string * string)) (c piece : string) :
  code_like c = true ->
  forallb separator_ok rest = true ->
  split_from De_th.delim (c ++ join_codes rest) O piece
  = (piece ++ c)%string :: map snd rest.
Proof.
  revert c piece. induction rest as [|[[w w'] c1] rest IH]; intros c piece Hc Hrest.
  - simpl join_codes. rewrite split_from_code by exact Hc. reflexivity.
  - rewrite split_from_code by exact Hc.
    simpl in Hrest. apply andb_prop in Hrest as [Hsep Hrest].
    unfold separator_ok in Hsep. cbn [fst snd] in Hsep.
    apply andb_prop in Hsep as [Hsep Hne]. apply andb_prop in Hsep as [Hsep Hc1].
    apply andb_prop in Hsep as [Hw Hw'].
    cbn [join_codes]. rewrite split_from_separator; try assumption.
    + rewrite (IH c1 EmptyString Hc1 Hrest). reflexivity.
    + destruct c1 as [|a c1]; [discriminate|].
      unfold code_like in Hc1. simpl in Hc1.
      apply andb_prop in Hc1 as [Ha _]. apply andb_prop in Ha as [Ha _]. exact Ha.
Qed.

Lemma no_comma_append_char (piece : string) (a : ascii) :
  no_comma piece = true -> is_comma a = false ->
  no_comma (piece ++ String a EmptyString) = true.
Proof.
  intros Hp Ha. unfold no_comma in *. rewrite string_forall_append, Hp.
  simpl. now rewrite Ha.
Qed.

(** No piece of a split by [delim] has a comma in it. *)
Lemma split_from_no_comma (s : string) (skip : nat) (piece : string) :
  no_comma piece = true ->
  Forall (fun x => no_comma x = true) (split_from De_th.delim s skip piece).
Proof.
  revert skip piece. induction s as [|a r IH]; intros skip piece Hp.
  - simpl. constructor; [exact Hp | constructor].
  - cbn [split_from]. destruct skip as [|k]; [|exact (IH k piece Hp)].
    destruct (matches_here De_th.delim (String a r)) as [|rest tl] eqn:Hm.
    + apply IH. apply no_comma_append_char; [exact Hp|].
      destruct (is_comma a) eqn:Ha; [|reflexivity].
      unfold is_comma in Ha. apply Ascii.eqb_eq in Ha. subst a.
      exfalso. exact (matches_here_comma r Hm).
    + assert (Hlt : (String.length rest < String.length (String a r))%nat).
      { apply delim_match_consumes. rewrite Hm. now left. }
      destruct (String.length (String a r) - String.length rest)%nat as [|k] eqn:Hn;
        [lia|].
      constructor; [exact Hp|]. apply IH. reflexivity.
Qed.

Lemma split_from_whole (s piece : string) :
  no_comma s = true -> split_from De_th.delim s O piece = [(piece ++ s)%string].
Proof.
  revert piece. induction s as [|a r IH]; intros piece H.
  - simpl. replace (piece ++ "")%string with piece; [reflexivity|].
    clear. induction piece as [|x piece IH]; simpl; [reflexivity | now rewrite <- IH].
  - cbn [split_from]. rewrite (matches_here_no_comma _ H).
    unfold no_comma in H. simpl in H. apply andb_prop in H as [_ Hr].
    rewrite (IH _ Hr), str_append_assoc. reflexivity.
Qed.

Lemma split_from_nonempty (p : regex) (s : string) (skip : nat) (piece : string) :
  split_from p s skip piece <> [].
Proof.
  revert skip piece. induction s as [|a r IH]; intros skip piece; cbn [split_from].
  - discriminate.
  - destruct skip; [|apply IH].
    destruct (matches_here p (String a r)); [apply IH|].
    destruct (_ - _)%nat; [apply IH | discriminate].
Qed.

(** X1. In the column the [FBI_VJ] migration returns, every string has
    become a list that is not empty and whose pieces hold no comma, and every
    other cell is a missing value. *)
Theorem FBI_VJ_pieces (column out : Series) :
  De_th.migrate_FBI_VJ column = Ok out ->
  Forall2 (fun v w =>
             match v with
             | VStr s =>
                 exists pieces,
                   w = VList pieces /\ pieces <> [] /\
                   Forall (fun x => no_comma x = true) pieces
             | _ => isna w = true
             end)
          column out.
Proof.
  intros H. apply str_split_cells in H. subst out.
  apply Forall2_map_right. intros v _.
  destruct v as [| |b|z|f|s|l|ns tz|g]; try reflexivity.
  - cbn [split_cell isna]. destruct (PrimFloat.is_nan f) eqn:E; [exact E | reflexivity].
  - exists (re_split De_th.delim s). split; [reflexivity|]. split.
    + apply split_from_nonempty.
    + apply split_from_no_comma. reflexivity.
Qed.

Lemma FBI_VJ_pieces_witness :
  Forall2 (fun v w =>
             match v with
             | VStr s =>
                 exists pieces,
                   w = VList pieces /\ pieces <> [] /\
                   Forall (fun x => no_comma x = true) pieces
             | _ => isna w = true
             end)
          [VStr "DETHLI0512340001 , DETHLI0512340002,"; VNone]
          [VList ["DETHLI0512340001"; "DETHLI0512340002"; ""]; VNone].
Proof.
  apply (FBI_VJ_pieces [VStr "DETHLI0512340001 , DETHLI0512340002,"; VNone]).
  vm_compute. reflexivity.
Defined.

(** X2. A string without a comma comes out of the [FBI_VJ] migration as the
    list of that one string, whitespace at its ends included: nothing is
    trimmed where nothing is split. *)
Theorem FBI_VJ_without_comma (column out : Series) :
  De_th.migrate_FBI_VJ column = Ok out ->
  Forall2 (fun v w => forall s, v = VStr s -> no_comma s = true -> w = VList [s])
          column out.
Proof.
  intros H. apply str_split_cells in H. subst out.
  apply Forall2_map_right. intros v _ s -> Hs.
  unfold split_cell, re_split. now rewrite split_from_whole.
Qed.

Lemma FBI_VJ_without_comma_witness :
  Forall2 (fun v w => forall s, v = VStr s -> no_comma s = true -> w = VList [s])
          [VStr " DETHLI0512340001 "; VStr ""]
          [VList [" DETHLI0512340001 "]; VList [""]].
Proof.
  apply (FBI_VJ_without_comma [VStr " DETHLI0512340001 "; VStr ""]).
  vm_compute. reflexivity.
Defined.

(** X3. A string made of codes (texts with neither whitespace nor comma, the
    ones after the first not empty), each two separated by a comma with any
    whitespace on either side, comes out of the [FBI_VJ] migration as the
    list of exactly these codes, in their order. *)
Theorem FBI_VJ_join_split (column out : Series) :
  De_th.migrate_FBI_VJ column = Ok out ->
  Forall2 (fun v w =>
             forall code rest,
               code_like code = true -> forallb separator_ok rest = true ->
               v = VStr (code ++ join_codes rest) ->
               w = VList (code :: map snd rest))
          column out.
Proof.
  intros H. apply str_split_cells in H. subst out.
  apply Forall2_map_right. intros v _ code rest Hc Hr ->.
  unfold split_cell, re_split. now rewrite split_from_join.
Qed.

Lemma FBI_VJ_join_split_witness :
  Forall2 (fun v w =>
             forall code rest,
               code_like code = true -> forallb separator_ok rest = true ->
               v = VStr (code ++ join_codes rest) ->
               w = VList (code :: map snd rest))
          [VStr "DETHLI0512340001 ,  DETHLI0512340002,DETHLI0512340003";
           VStr ("A" ++ String "160" (String "," (String "133" "B")))]
          [VList ["DETHLI0512340001"; "DETHLI0512340002"; "DETHLI0512340003"];
           VList ["A"; "B"]].
Proof.
  apply (FBI_VJ_join_split
           [VStr "DETHLI0512340001 ,  DETHLI0512340002,DETHLI0512340003";
            VStr ("A" ++ String "160" (String "," (String "133" "B")))]).
  vm_compute. reflexivity.
Defined.

(* ===================================================================== *)
(** * The value maps, applied again *)
(* ===================================================================== *)

(** X4. The value maps of [de_th] are no projections: applied to a column
    that [AFO] (or [KOND_LE]) has returned, the same migration gives [False]
    in every row, and applied to a column that [AENDERUNG] has returned, it
    gives NaN in every row. *)
Theorem value_maps_applied_again (column out : Series) :
  (De_th.migrate_AFO column = Ok out ->
   De_th.migrate_AFO out = Ok (map (fun _ => VBool false) out)) /\
  (De_th.migrate_KOND_LE column = Ok out ->
   De_th.migrate_KOND_LE out = Ok (map (fun _ => VBool false) out)) /\
  (De_th.migrate_AENDERUNG column = Ok out ->
   De_th.migrate_AENDERUNG out = Ok (map (fun _ => VNaN) out)).
Proof.
  assert (HJ : De_th.migrate_AFO column = Ok out ->
               De_th.migrate_AFO out = Ok (map (fun _ => VBool false) out)).
  { intros H. apply migrate_AFO_Ok in H. subst out.
    rewrite migrate_AFO_cells.
    - f_equal. rewrite !map_map. apply map_ext. intros v. destruct v; reflexivity.
    - rewrite forallb_forall. intros w Hw. apply in_map_iff in Hw as [v [<- _]].
      destruct v; reflexivity. }
  split; [exact HJ|]. split; [exact HJ|].
  intros H. apply migrate_AENDERUNG_Ok in H. subst out.
  rewrite migrate_AENDERUNG_cells.
  - f_equal. rewrite !map_map. apply map_ext. intros v.
    destruct (AENDERUNG_cell_values v) as [E|[E|E]]; try (rewrite E; reflexivity).
    destruct (AENDERUNG_cell v); try reflexivity; discriminate.
  - rewrite forallb_forall. intros w Hw. apply in_map_iff in Hw as [v [<- _]].
    destruct (AENDERUNG_cell_values v) as [E|[E|E]]; try (rewrite E; reflexivity).
    destruct (AENDERUNG_cell v); try reflexivity; discriminate.
Qed.

Lemma value_maps_applied_again_witness :
  De_th.migrate_AFO [VBool true; VBool false; VBool false]
  = Ok (map (fun _ => VBool false) [VBool true; VBool false; VBool false]).
Proof.
  apply (proj1 (value_maps_applied_again [VStr "J"; VStr "N"; VNone]
                  [VBool true; VBool false; VBool false])).
  reflexivity.
Defined.


(* ===================================================================== *)
(** * Dates written day.month.year *)
(* ===================================================================== *)

Lemma digit_of_digit_char (k : Z) :
  0 <= k <= 9 -> digit_of (digit_char k) = Some k.
Proof.
  intros H.
  assert (E : k = 0 \/ k = 1 \/ k = 2 \/ k = 3 \/ k = 4 \/ k = 5 \/ k = 6 \/ k = 7
              \/ k = 8 \/ k = 9) by lia.
  repeat destruct E as [->|E]; try subst k; reflexivity.
Qed.

Lemma candidates_year (y : Z) :
  0 <= y <= 9999 -> candidates Dyear (four_digits y) = [(y, EmptyString)].
Proof.
  intros H. unfold four_digits. cbn [candidates].
  rewrite !digit_of_digit_char by (Z.div_mod_to_equations; lia).
  do 2 f_equal. Z.div_mod_to_equations. lia.
Qed.

(** Enumeration of an integer between two bounds. *)
Ltac enumerate d lo n :=
  lazymatch n with
  | O => exfalso; lia
  | S ?n' =>
      destruct (Z.eq_dec d lo) as [->|];
      [ | let lo' := eval cbv in (lo + 1) in enumerate d lo' n' ]
  end.

Lemma candidates_day (padded : bool) (d : Z) (r : string) :
  1 <= d <= 31 ->
  exists others,
    candidates Dday (day_or_month_text padded d ++ String "." r)
    = (d, String "." r) :: others.
Proof.
  intros H.
  enumerate d 1 31%nat; destruct padded; eexists; cbv; reflexivity.
Qed.

Lemma candidates_month (padded : bool) (m : Z) (r : string) :
  1 <= m <= 12 ->
  exists others,
    candidates Dmonth (day_or_month_text padded m ++ String "." r)
    = (m, String "." r) :: others.
Proof.
  intros H.
  enumerate m 1 12%nat; destruct padded; eexists; cbv; reflexivity.
Qed.

Lemma candidates_dot (r : string) :
  candidates (Dliteral ".") (String "." r) = [(0, r)].
Proof. reflexivity. Qed.

(** The matcher takes the first alternative after which the rest of the
    format matches. *)
Lemma match_format_first (d : directive) (ds : list directive) (s r : string)
    (acc : date_fields) (n : Z) (others : list (Z * string))
    (x : date_fields * string) :
  candidates d s = (n, r) :: others ->
  match_format ds r (set_field d n acc) = Some x ->
  match_format (d :: ds) s acc = Some x.
Proof.
  intros Hc Hm. cbn [match_format]. rewrite Hc. cbn [first_some fst snd].
  rewrite Hm. reflexivity.
Qed.

Lemma match_format_date (pad_day pad_month : bool) (d m y : Z) :
  1 <= d <= 31 -> 1 <= m <= 12 -> 0 <= y <= 9999 ->
  match_format [Dday; Dliteral "."; Dmonth; Dliteral "."; Dyear]
    (date_text pad_day pad_month d m y) default_fields
  = Some ({| year := y; month := m; day := d |}, EmptyString).
Proof.
  intros Hd Hm Hy. unfold date_text.
  destruct (candidates_day pad_day d
              (day_or_month_text pad_month m ++ String "." (four_digits y)) Hd)
    as [o1 H1].
  destruct (candidates_month pad_month m (four_digits y) Hm) as [o2 H2].
  eapply match_format_first; [exact H1|].
  eapply match_format_first; [apply candidates_dot|].
  eapply match_format_first; [exact H2|].
  eapply match_format_first; [apply candidates_dot|].
  eapply match_format_first; [apply candidates_year; exact Hy|].
  reflexivity.
Qed.

Lemma strptime_date (pad_day pad_month : bool) (d m y : Z) :
  1 <= d <= 31 -> 1 <= m <= 12 -> 1 <= y <= 9999 ->
  strptime [Dday; Dliteral "."; Dmonth; Dliteral "."; Dyear]
    (date_text pad_day pad_month d m y)
  = if days_in_month y m <? d
    then Raise (ValueError "day is out of range for month")
    else if (- max_ns <=? days_from_civil y m d * ns_per_day)
            && (days_from_civil y m d * ns_per_day <=? max_ns)
         then Ok (days_from_civil y m d * ns_per_day)
         else Raise (OutOfBoundsDatetime "Out of bounds nanosecond timestamp").
Proof.
  intros Hd Hm Hy.
  change (strptime [Dday; Dliteral "."; Dmonth; Dliteral "."; Dyear]
            (date_text pad_day pad_month d m y))
    with (parse_with_format [Dday; Dliteral "."; Dmonth; Dliteral "."; Dyear]
            (date_text pad_day pad_month d m y)).
  unfold parse_with_format, check_bounds.
  rewrite match_format_date by lia. cbn [year month day].
  destruct (Z.ltb_spec y 1); [lia | reflexivity].
Qed.

Lemma days_in_month_bound (y m : Z) : 28 <= days_in_month y m <= 31.
Proof.
  unfold days_in_month.
  destruct (m =? 2); [destruct (is_leap y); lia|].
  destruct (_ || _); lia.
Qed.

Lemma valid_date_bounds (y m d : Z) :
  valid_date y m d = true ->
  1 <= y <= 9999 /\ 1 <= m <= 12 /\ 1 <= d <= days_in_month y m.
Proof.
  unfold valid_date. rewrite !Bool.andb_true_iff, !Z.leb_le. tauto.
Qed.

(** The texts read as a missing date are short. *)
Lemma missing_text_length (s : string) :
  String.eqb s "" || existsb (String.eqb s) nat_strings = true ->
  (String.length s <= 3)%nat.
Proof.
  intros H. apply Bool.orb_true_iff in H as [H|H].
  - apply String.eqb_eq in H. subst. simpl. lia.
  - apply existsb_exists in H as [x [Hin Hx]]. apply String.eqb_eq in Hx. subst x.
    unfold nat_strings in Hin. simpl in Hin.
    repeat destruct Hin as [<-|Hin]; simpl; try lia.
Qed.

Lemma date_text_length (pad_day pad_month : bool) (d m y : Z) :
  (8 <= String.length (date_text pad_day pad_month d m y))%nat.
Proof.
  unfold date_text, day_or_month_text.
  rewrite str_length_append.
  change (String.length (String "." ?x)) with (S (String.length x)).
  cbn [String.length]. rewrite str_length_append.
  destruct (pad_day || _), (pad_month || _); simpl; lia.
Qed.

Lemma date_text_not_missing (pad_day pad_month : bool) (d m y : Z) :
  String.eqb (date_text pad_day pad_month d m y) ""
  || existsb (String.eqb (date_text pad_day pad_month d m y)) nat_strings = false.
Proof.
  destruct (_ || _) eqn:E; [|reflexivity].
  apply missing_text_length in E.
  pose proof (date_text_length pad_day pad_month d m y). lia.
Qed.

Lemma mapM_In_raises {A B : Type} (f : A -> result B) (l : list A) (a : A) (e : error) :
  In a l -> f a = Raise e -> exists e', mapM f l = Raise e'.
Proof.
  induction l as [|x l IH]; intros Hin Hf; [contradiction|].
  simpl. destruct (f x) as [b|e1] eqn:Hx; [|eauto].
  destruct Hin as [->|Hin]; [congruence|].
  destruct (IH Hin Hf) as [e' ->]. simpl. eauto.
Qed.

(* ===================================================================== *)
(** * The global migration of [de_th] on its date column *)
(* ===================================================================== *)

Lemma setitem_existing_names (gdf : DataFrame) (col : string) (old s : Series) :
  get_column gdf col = Some old -> column_names (setitem gdf col s) = column_names gdf.
Proof.
  unfold column_names. induction gdf as [|[n c] gdf IH]; simpl; [discriminate|].
  destruct (String.eqb n col); simpl; intros H; [reflexivity|].
  f_equal. exact (IH H).
Qed.

Lemma setitem_setitem (gdf : DataFrame) (col : string) (s s' : Series) :
  setitem (setitem gdf col s) col s' = setitem gdf col s'.
Proof.
  induction gdf as [|[n c] gdf IH]; simpl.
  - now rewrite String.eqb_refl.
  - destruct (String.eqb n col) eqn:E; simpl; rewrite E; [reflexivity|].
    now rewrite IH.
Qed.


(** What [to_datetime] has returned under [utc = True], it returns as it
    is. *)
Lemma to_datetime_cell_fixed (ds ds' : list directive) (v w : value) :
  to_datetime_cell ds true v = Ok w -> to_datetime_cell ds' true w = Ok w.
Proof.
  destruct v as [| |b|z|f|s|l|ns tz|g]; simpl; intros H;
    split_to_datetime H; reflexivity.
Qed.


Lemma de_th_format :
  parse_format "%d.%m.%Y" = Ok [Dday; Dliteral "."; Dmonth; Dliteral "."; Dyear].
Proof. reflexivity. Qed.

Lemma de_th_migrate_cells (gdf gdf' : DataFrame) :
  De_th.migrate gdf = Ok gdf' ->
  exists old new,
    get_column gdf "GEO_UPDAT" = Some old /\
    get_column gdf' "GEO_UPDAT" = Some new /\
    gdf' = setitem gdf "GEO_UPDAT" new /\
    Forall2 (fun v w =>
               exists o,
                 (o = v \/ exists f, v = VFloat f /\ o = float64_as_int v) /\
                 to_datetime_cell [Dday; Dliteral "."; Dmonth; Dliteral "."; Dyear] true o
                 = Ok w) old new.
Proof.
  intros H. apply de_th_migrate_Ok in H as (old & new & Hold & Hnew & ->).
  exists old, new. repeat split; auto using get_column_setitem_same.
  exact (to_datetime_cells _ _ _ _ _ de_th_format Hnew).
Qed.

Lemma to_datetime_cell_Raise (ds : list directive) (utc : bool) (v : value) (e : error) :
  to_datetime_cell ds utc v = Raise e ->
  (exists msg, e = ValueError msg) \/ (exists msg, e = OutOfBoundsDatetime msg).
Proof.
  assert (Hb : forall ns e', check_bounds ns = Raise e' ->
               (exists msg, e' = ValueError msg)
               \/ (exists msg, e' = OutOfBoundsDatetime msg)).
  { intros ns e'. unfold check_bounds.
    destruct (_ && _); intros H; inversion H; eauto. }
  assert (Hp : forall s e', parse_with_format ds s = Raise e' ->
               (exists msg, e' = ValueError msg)
               \/ (exists msg, e' = OutOfBoundsDatetime msg)).
  { intros s e'. unfold parse_with_format.
    destruct (match_format ds s default_fields) as [[f [|a r]]|];
      try (intros H; inversion H; eauto; fail).
    destruct (year f <? 1); [intros H; inversion H; eauto|].
    destruct (days_in_month _ _ <? day f); [intros H; inversion H; eauto|].
    apply Hb. }
  assert (Hs : forall s e', strptime ds s = Raise e' ->
               (exists msg, e' = ValueError msg)
               \/ (exists msg, e' = OutOfBoundsDatetime msg)).
  { intros s e'. unfold strptime.
    destruct ds as [|[| | |c] [|d ds']]; try apply Hp.
    destruct (string_to_dts_year s); [apply Hb | apply Hp]. }
  destruct v as [| |b|z|f|s|l|ns tz|g]; cbn [to_datetime_cell]; intros H;
    try discriminate; try (inversion H; eauto; fail).
  - destruct (z =? iNaT); [discriminate|].
    destruct (strptime ds (str_of_int z)) as [ns|e'] eqn:E; [discriminate|].
    simpl in H. inversion H; subst. exact (Hs _ _ E).
  - destruct (PrimFloat.is_nan f); [discriminate | inversion H; eauto].
  - destruct (_ || _); [discriminate|].
    destruct (strptime ds s) as [ns|e'] eqn:E; [discriminate|].
    simpl in H. inversion H; subst. exact (Hs _ _ E).
Qed.

(** The parser raises no [KeyError]. *)
Lemma to_datetime_Raise (column : Series) (format : string) (ds : list directive)
    (utc : bool) (e : error) :
  parse_format format = Ok ds ->
  to_datetime column format utc = Raise e ->
  (exists msg, e = ValueError msg) \/ (exists msg, e = OutOfBoundsDatetime msg)
  \/ (exists msg, e = TypeError msg).
Proof.
  intros Hp. unfold to_datetime. rewrite Hp. cbn [bind].
  destruct (maybe_convert_dtype column) as [objects|e'] eqn:Hm; cbn [bind].
  - intros H. apply mapM_raises in H as [v [_ Hv]].
    destruct (to_datetime_cell_Raise _ _ _ _ Hv) as [E|E]; auto.
  - intros H. inversion H; subst e'. unfold maybe_convert_dtype in Hm.
    destruct (dtype_of column); inversion Hm. right. right. eauto.
Qed.

(** A cell the parser refuses, in a column that is parsed as it is, makes the
    whole call raise. *)
Lemma to_datetime_raises_at (column : Series) (format : string) (ds : list directive)
    (utc : bool) (v : value) (e : error) :
  parse_format format = Ok ds ->
  In v column -> is_float v = false -> is_bool v = false ->
  to_datetime_cell ds utc v = Raise e ->
  exists e', to_datetime column format utc = Raise e'.
Proof.
  intros Hp Hin Hf Hb Hv. unfold to_datetime. rewrite Hp. cbn [bind].
  rewrite (maybe_convert_dtype_same column v Hin Hf Hb). cbn [bind].
  exact (mapM_In_raises _ _ _ _ Hin Hv).
Qed.

(** What the parser has returned under [utc = True], it returns as it is. *)
Lemma to_datetime_again (column out : Series) (format : string) (ds : list directive) :
  parse_format format = Ok ds ->
  to_datetime column format true = Ok out -> to_datetime out format true = Ok out.
Proof.
  intros Hp H. pose proof (to_datetime_cells _ _ _ _ _ Hp H) as F.
  unfold to_datetime. rewrite Hp. cbn [bind].
  rewrite maybe_convert_dtype_id.
  - cbn [bind]. clear H. induction F as [|v w l l' [o [_ Ho]] F IH]; [reflexivity|].
    cbn [mapM]. rewrite (to_datetime_cell_fixed _ ds _ _ Ho), IH. reflexivity.
  - clear H. induction F as [|v w l l' [o [_ Ho]] F IH]; constructor; auto.
    exact (to_datetime_cell_instant _ _ _ _ Ho).
Qed.

Lemma getitem_Raise (gdf : DataFrame) (col : string) (e : error) :
  getitem gdf col = Raise e -> e = KeyError col /\ get_column gdf col = None.
Proof.
  unfold getitem. destruct (get_column gdf col); [discriminate|].
  intros H. inversion H. auto.
Qed.

(** X5. [de_th]'s global migration and its column: without a column
    [GEO_UPDAT] it fails with [KeyError('GEO_UPDAT')]; a [KeyError] it raises
    names [GEO_UPDAT], and the table has no such column; and when it returns,
    the table has the same column names in the same order. *)
Theorem de_th_migrate_columns (gdf : DataFrame) :
  (get_column gdf "GEO_UPDAT" = None ->
   De_th.migrate gdf = Raise (KeyError "GEO_UPDAT")) /\
  (forall key, De_th.migrate gdf = Raise (KeyError key) ->
     key = "GEO_UPDAT"%string /\ get_column gdf "GEO_UPDAT" = None) /\
  (forall gdf', De_th.migrate gdf = Ok gdf' -> column_names gdf' = column_names gdf).
Proof.
  split; [|split].
  - intros Hnone. unfold De_th.migrate, getitem. now rewrite Hnone.
  - intros key. unfold De_th.migrate.
    destruct (getitem gdf "GEO_UPDAT") as [old|e] eqn:Hold; cbn [bind].
    + destruct (to_datetime old "%d.%m.%Y" true) as [new|e'] eqn:Hm; cbn [bind];
        [discriminate|].
      intros H. inversion H; subst e'.
      destruct (to_datetime_Raise _ _ _ _ _ de_th_format Hm) as [[m E]|[[m E]|[m E]]];
        discriminate.
    + intros H. apply getitem_Raise in Hold as [-> Hold]. inversion H. auto.
  - intros gdf' H. apply de_th_migrate_Ok in H as (old & new & Hold & _ & ->).
    exact (setitem_existing_names _ _ _ _ Hold).
Qed.

(** X6. [de_th]'s global migration is idempotent: on a table it has
    returned it returns, and returns that very table. *)
Theorem de_th_migrate_idempotent (gdf gdf' : DataFrame) :
  De_th.migrate gdf = Ok gdf' -> De_th.migrate gdf' = Ok gdf'.
Proof.
  intros H. apply de_th_migrate_Ok in H as (old & new & _ & Hnew & ->).
  unfold De_th.migrate, getitem. rewrite get_column_setitem_same. cbn [bind].
  rewrite (to_datetime_again _ _ _ _ de_th_format Hnew). cbn [bind].
  now rewrite setitem_setitem.
Qed.

Lemma de_th_migrate_idempotent_witness :
  De_th.migrate Sample.de_th_migrated = Ok Sample.de_th_migrated.
Proof.
  apply (de_th_migrate_idempotent Sample.de_th_table).
  vm_compute. reflexivity.
Defined.

(** X7. The date column is read day first: when [de_th]'s global migration
    returns, a cell of [GEO_UPDAT] holding a day of the calendar written
    day.month.year (the year in four digits, day and month with or without a
    leading zero) has become midnight UTC of that day. *)
Theorem GEO_UPDAT_day_first (gdf gdf' : DataFrame) :
  De_th.migrate gdf = Ok gdf' ->
  exists old new,
    get_column gdf "GEO_UPDAT" = Some old /\
    get_column gdf' "GEO_UPDAT" = Some new /\
    Forall2 (fun v w =>
               forall pad_day pad_month d m y,
                 valid_date y m d = true ->
                 v = VStr (date_text pad_day pad_month d m y) ->
                 w = VTimestamp (days_from_civil y m d * ns_per_day) (Some UTC))
            old new.
Proof.
  intros H. apply de_th_migrate_cells in H as (old & new & Hold & Hnew & _ & F).
  exists old, new. repeat split; auto.
  eapply Forall2_impl; [|exact F]. cbv beta.
  intros v w [o [Ho Hv]] pd pm d m y Hvalid ->.
  destruct Ho as [->|[f [E _]]]; [|discriminate].
  apply valid_date_bounds in Hvalid as (Hy & Hm & Hd).
  pose proof (days_in_month_bound y m) as Hb.
  cbn [to_datetime_cell] in Hv. rewrite date_text_not_missing in Hv.
  rewrite strptime_date in Hv by lia.
  destruct (Z.ltb_spec (days_in_month y m) d); [lia|].
  destruct (_ && _); cbn [bind] in Hv; [|discriminate].
  inversion Hv. reflexivity.
Qed.

Lemma GEO_UPDAT_day_first_witness :
  (valid_date 2022 1 5 = true /\ date_text false false 5 1 2022 = "5.1.2022"%string) /\
  exists old new,
    get_column Sample.de_th_table "GEO_UPDAT" = Some old /\
    get_column Sample.de_th_migrated "GEO_UPDAT" = Some new /\
    Forall2 (fun v w =>
               forall pad_day pad_month d m y,
                 valid_date y m d = true ->
                 v = VStr (date_text pad_day pad_month d m y) ->
                 w = VTimestamp (days_from_civil y m d * ns_per_day) (Some UTC))
            old new.
Proof.
  split; [split; reflexivity|].
  apply (GEO_UPDAT_day_first Sample.de_th_table).
  vm_compute. reflexivity.
Defined.

(** X8. A date that does not exist stops the migration: with a cell of
    [GEO_UPDAT] written day.month.year whose day, at most 31, is beyond the
    end of the month, [de_th]'s global migration raises and returns no
    table. *)
Theorem GEO_UPDAT_day_beyond_month (gdf : DataFrame) (old : Series)
    (pad_day pad_month : bool) (d m y : Z) :
  get_column gdf "GEO_UPDAT" = Some old ->
  In (VStr (date_text pad_day pad_month d m y)) old ->
  1 <= y <= 9999 -> 1 <= m <= 12 -> days_in_month y m < d <= 31 ->
  exists e, De_th.migrate gdf = Raise e.
Proof.
  intros Hold Hin Hy Hm Hd.
  pose proof (days_in_month_bound y m) as Hb.
  unfold De_th.migrate, getitem. rewrite Hold. cbn [bind].
  destruct (to_datetime_raises_at old "%d.%m.%Y" _ true _
              (ValueError "day is out of range for month") de_th_format Hin
              eq_refl eq_refl) as [e He].
  - cbn [to_datetime_cell]. rewrite date_text_not_missing.
    rewrite strptime_date by lia.
    destruct (Z.ltb_spec (days_in_month y m) d); [reflexivity | lia].
  - rewrite He. cbn [bind]. eauto.
Qed.

Lemma GEO_UPDAT_day_beyond_month_witness :
  date_text true true 30 2 2024 = "30.02.2024"%string /\
  exists e,
    De_th.migrate [("GEO_UPDAT", [VStr "01.03.2024"; VStr "30.02.2024"])] = Raise e.
Proof.
  split; [reflexivity|].
  apply (GEO_UPDAT_day_beyond_month
           [("GEO_UPDAT", [VStr "01.03.2024"; VStr "30.02.2024"])]
           [VStr "01.03.2024"; VStr "30.02.2024"] true true 30 2 2024).
  - reflexivity.
  - simpl. auto.
  - lia.
  - lia.
  - vm_compute. split; [reflexivity | discriminate].
Defined.

(** X9. [de_th]'s global migration never turns a text it cannot read into
    a missing date: when it returns, a missing cell of [GEO_UPDAT] (None, NaN
    or NaT) has become NaT, and a string has become NaT exactly when it is
    empty or one of the texts NaT, nat, NAT, nan, NaN and NAN. *)
Theorem GEO_UPDAT_NaT_only_from_missing (gdf gdf' : DataFrame) :
  De_th.migrate gdf = Ok gdf' ->
  exists old new,
    get_column gdf "GEO_UPDAT" = Some old /\
    get_column gdf' "GEO_UPDAT" = Some new /\
    Forall2 (fun v w =>
               (isna v = true -> w = VNaT) /\
               (forall s, v = VStr s ->
                  (w = VNaT <-> s = EmptyString \/ In s nat_strings)))
            old new.
Proof.
  intros H. apply de_th_migrate_cells in H as (old & new & Hold & Hnew & _ & F).
  exists old, new. split; [exact Hold|]. split; [exact Hnew|].
  eapply Forall2_impl; [|exact F]. cbv beta.
  intros v w [o [Ho Hv]]. split.
  - destruct v as [| |b|z|f|s|l|ns tz|g]; cbn [isna]; try discriminate.
    + destruct Ho as [->|[f [E _]]]; [|discriminate]. intros _. now inversion Hv.
    + destruct Ho as [->|[f [E _]]]; [|discriminate]. intros _. now inversion Hv.
    + intros En. destruct Ho as [->|[f' [E ->]]].
      * cbn [to_datetime_cell] in Hv. rewrite En in Hv. now inversion Hv.
      * rewrite (float64_as_int_nan f En) in Hv. now inversion Hv.
  - intros s ->. destruct Ho as [->|[f [E _]]]; [|discriminate].
    cbn [to_datetime_cell] in Hv.
    destruct (String.eqb s "" || existsb (String.eqb s) nat_strings) eqn:En.
    + inversion Hv. split; [|reflexivity]. intros _.
      apply Bool.orb_true_iff in En as [En|En].
      * left. now apply String.eqb_eq.
      * right. apply existsb_exists in En as [x [Hin Hx]].
        apply String.eqb_eq in Hx. now subst.
    + destruct (strptime _ s); cbn [bind] in Hv; [|discriminate].
      inversion Hv. split; [discriminate|].
      intros Hs. exfalso.
      assert (Ht : String.eqb s "" || existsb (String.eqb s) nat_strings = true);
        [|congruence].
      apply Bool.orb_true_iff. destruct Hs as [->|Hs]; [now left|].
      right. apply existsb_exists. exists s. split; [exact Hs | apply String.eqb_refl].
Qed.

Lemma GEO_UPDAT_NaT_only_from_missing_witness :
  exists old new,
    get_column [("GEO_UPDAT", [VStr "24.12.2023"; VStr ""; VNone; VStr "NaT"])]
               "GEO_UPDAT" = Some old /\
    get_column [("GEO_UPDAT", [VTimestamp 1703376000000000000 (Some UTC);
                               VNaT; VNaT; VNaT])]
               "GEO_UPDAT" = Some new /\
    Forall2 (fun v w =>
               (isna v = true -> w = VNaT) /\
               (forall s, v = VStr s ->
                  (w = VNaT <-> s = EmptyString \/ In s nat_strings)))
            old new.
Proof.
  apply (GEO_UPDAT_NaT_only_from_missing
           [("GEO_UPDAT", [VStr "24.12.2023"; VStr ""; VNone; VStr "NaT"])]).
  vm_compute. reflexivity.
Defined.

(* ===================================================================== *)
(** * The global migration of [fi] *)
(* ===================================================================== *)

Lemma fi_format : parse_format "%Y" = Ok [Dyear].
Proof. reflexivity. Qed.

(** Every int of four digits, run through the parser. *)
Lemma four_digit_years_checked : forallb year_cell_check four_digit_years = true.
Proof. vm_compute. reflexivity. Qed.

Lemma year_cell_checked (y : Z) :
  1000 <= y <= 9999 -> year_cell_check y = true.
Proof.
  intros H. apply (forallb_In _ _ _ four_digit_years_checked).
  unfold four_digit_years. apply in_map_iff. exists (Z.to_nat (y - 1000)).
  split; [lia|]. apply in_seq. lia.
Qed.

Lemma year_cell (y : Z) (w : value) :
  1000 <= y <= 9999 ->
  to_datetime_cell [Dyear] false (VInt y) = Ok w ->
  1678 <= y <= 2262 /\ w = VTimestamp (first_of_january y) None.
Proof.
  intros Hy Hw. pose proof (year_cell_checked y Hy) as Hc.
  unfold year_cell_check in Hc. rewrite Hw in Hc.
  destruct w as [| |b|z|f|s|l|ns [tz|]|g]; try discriminate.
  apply andb_prop in Hc as [Hc Hns]. apply andb_prop in Hc as [Hlo Hhi].
  apply Z.leb_le in Hlo, Hhi. apply Z.eqb_eq in Hns. subst ns. auto.
Qed.

Lemma digit_char_not_minus (k : Z) :
  0 <= k <= 9 -> Ascii.eqb (digit_char k) "-" = false.
Proof.
  intros H.
  assert (E : k = 0 \/ k = 1 \/ k = 2 \/ k = 3 \/ k = 4 \/ k = 5 \/ k = 6 \/ k = 7
              \/ k = 8 \/ k = 9) by lia.
  repeat destruct E as [->|E]; try subst k; reflexivity.
Qed.

Lemma four_digit_number_digits (y : Z) :
  0 <= y <= 9999 -> four_digit_number (four_digits y) = Some y.
Proof.
  intros H. unfold four_digits. cbn [four_digit_number].
  rewrite !digit_of_digit_char by (Z.div_mod_to_equations; lia).
  f_equal. Z.div_mod_to_equations. lia.
Qed.

(** The ISO parser reads a year written in four digits. *)
Lemma string_to_dts_year_digits (y : Z) :
  0 <= y <= 9999 -> string_to_dts_year (four_digits y) = Some y.
Proof.
  intros H. pose proof (four_digit_number_digits y H) as Hn.
  unfold four_digits in *. cbn [string_to_dts_year].
  rewrite digit_char_not_minus by (Z.div_mod_to_equations; lia). exact Hn.
Qed.

Lemma year_text_cell (y : Z) (w : value) :
  0 <= y <= 9999 ->
  to_datetime_cell [Dyear] false (VStr (four_digits y)) = Ok w ->
  w = VTimestamp (first_of_january y) None.
Proof.
  intros Hy. cbn [to_datetime_cell].
  destruct (_ || _) eqn:E.
  { apply missing_text_length in E. simpl in E. lia. }
  unfold strptime. rewrite (string_to_dts_year_digits y Hy).
  unfold check_bounds, first_of_january.
  destruct (_ && _); cbn [bind]; [|discriminate].
  intros H. inversion H. reflexivity.
Qed.

Lemma fi_migrate_cells (mv : geometry -> geometry) (ar : geometry -> float)
    (gdf gdf' : DataFrame) :
  Fi.migrate mv ar gdf = Ok gdf' ->
  exists vuosi dt,
    get_column gdf "VUOSI" = Some vuosi /\
    get_column gdf' "determination_datetime" = Some dt /\
    Forall2 (fun v w =>
               exists o,
                 (o = v \/ exists f, v = VFloat f /\ o = float64_as_int v) /\
                 to_datetime_cell [Dyear] false o = Ok w) vuosi dt.
Proof.
  intros H.
  apply fi_migrate_Ok in H
    as (vuosi & dt & geoms & valid & pinta & areas & hectares & cells
        & H1 & H2 & _ & _ & _ & _ & _ & _ & ->).
  exists vuosi, dt. split; [exact H1|]. split.
  - rewrite !get_column_setitem_other by discriminate.
    apply get_column_setitem_same.
  - exact (to_datetime_cells _ _ _ _ _ fi_format H2).
Qed.

(** X10. The year becomes the first of January: when [fi]'s global
    migration returns, a cell of [VUOSI] holding a year of four digits, as an
    int or as its text, has become midnight of the first of January of that
    year, without timezone, in [determination_datetime]; and an int of four
    digits in [VUOSI] is then a year from 1678 to 2262, the years whose first
    day fits a nanosecond timestamp. *)
Theorem VUOSI_first_of_january (mv : geometry -> geometry) (ar : geometry -> float)
    (gdf gdf' : DataFrame) :
  Fi.migrate mv ar gdf = Ok gdf' ->
  exists vuosi dt,
    get_column gdf "VUOSI" = Some vuosi /\
    get_column gdf' "determination_datetime" = Some dt /\
    Forall2 (fun v w =>
               forall y,
                 (v = VInt y -> 1000 <= y <= 9999 ->
                  1678 <= y <= 2262 /\ w = VTimestamp (first_of_january y) None) /\
                 (v = VStr (four_digits y) -> 0 <= y <= 9999 ->
                  w = VTimestamp (first_of_january y) None))
            vuosi dt.
Proof.
  intros H. apply fi_migrate_cells in H as (vuosi & dt & H1 & H2 & F).
  exists vuosi, dt. split; [exact H1|]. split; [exact H2|].
  eapply Forall2_impl; [|exact F]. cbv beta. intros v w [o [Ho Hv]] y. split.
  - intros -> Hy. destruct Ho as [->|[f [E _]]]; [|discriminate].
    exact (year_cell y w Hy Hv).
  - intros -> Hy. destruct Ho as [->|[f [E _]]]; [|discriminate].
    exact (year_text_cell y w Hy Hv).
Qed.

Lemma VUOSI_first_of_january_witness :
  exists vuosi dt,
    get_column Sample.fi_table "VUOSI" = Some vuosi /\
    get_column Sample.fi_migrated "determination_datetime" = Some dt /\
    Forall2 (fun v w =>
               forall y,
                 (v = VInt y -> 1000 <= y <= 9999 ->
                  1678 <= y <= 2262 /\ w = VTimestamp (first_of_january y) None) /\
                 (v = VStr (four_digits y) -> 0 <= y <= 9999 ->
                  w = VTimestamp (first_of_january y) None))
            vuosi dt.
Proof.
  apply (VUOSI_first_of_january Sample.make_valid_geom Sample.geom_area Sample.fi_table).
  vm_compute. reflexivity.
Defined.

Lemma make_valid_Raise (mv : geometry -> geometry) (column : Series) (e : error) :
  make_valid mv column = Raise e -> exists msg, e = TypeError msg.
Proof.
  intros H. apply mapM_raises in H as [v [_ Hv]].
  destruct v; simpl in Hv; try discriminate; inversion Hv; eauto.
Qed.

Lemma area_cells_Raise (ar : geometry -> float) (column : Series) (e : error) :
  mapM (area_cell ar) column = Raise e -> exists msg, e = TypeError msg.
Proof.
  intros H. apply mapM_raises in H as [v [_ Hv]].
  destruct v; simpl in Hv; try discriminate; inversion Hv; eauto.
Qed.

Lemma truediv_Raise (column : Series) (n : Z) (e : error) :
  truediv column n = Raise e -> exists msg, e = TypeError msg.
Proof.
  intros H. apply mapM_raises in H as [v [_ Hv]].
  destruct v; simpl in Hv; try discriminate; inversion Hv; eauto.
Qed.

Lemma np_where_Raise (cond x y : Series) (e : error) :
  np_where cond x y = Raise e -> exists msg, e = ValueError msg.
Proof.
  unfold np_where. destruct (_ && _); [discriminate|].
  intros H. inversion H. eauto.
Qed.

Lemma get_column_name (gdf : DataFrame) (col : string) (s : Series) :
  get_column gdf col = Some s -> In col (column_names gdf).
Proof.
  intros H. apply get_column_In in H. unfold column_names.
  apply in_map_iff. exists (col, s). auto.
Qed.

(** X11. [fi]'s global migration and the columns: a [KeyError] names one of
    [VUOSI], [geometry] and [PINTA_ALA], and that column is missing from the
    table; without [VUOSI] the error is [KeyError('VUOSI')]; and when the
    migration returns, the table has the columns it had and the two columns
    [determination_datetime] and [area], and every column but these two and
    [geometry] is as it was. *)
Theorem fi_migrate_columns (mv : geometry -> geometry) (ar : geometry -> float)
    (gdf : DataFrame) :
  (forall key, Fi.migrate mv ar gdf = Raise (KeyError key) ->
     In key ["VUOSI"; "geometry"; "PINTA_ALA"]%string /\ get_column gdf key = None) /\
  (get_column gdf "VUOSI" = None -> Fi.migrate mv ar gdf = Raise (KeyError "VUOSI")) /\
  (forall gdf', Fi.migrate mv ar gdf = Ok gdf' ->
     (forall name, In name (column_names gdf') <->
                   name = "determination_datetime"%string \/ name = "area"%string
                   \/ In name (column_names gdf)) /\
     (forall col, col <> "determination_datetime"%string -> col <> "geometry"%string ->
                  col <> "area"%string -> get_column gdf' col = get_column gdf col)).
Proof.
  split; [|split].
  - intros key. unfold Fi.migrate.
    destruct (getitem gdf "VUOSI") as [vuosi|e] eqn:H1; cbn [bind].
    2:{ intros H. apply getitem_Raise in H1 as [-> H1]. inversion H; subst key.
        simpl; auto. }
    destruct (to_datetime vuosi "%Y" false) as [dt|e] eqn:H2; cbn [bind].
    2:{ intros H. inversion H; subst e.
        destruct (to_datetime_Raise _ _ _ _ _ fi_format H2) as [[m E]|[[m E]|[m E]]];
          discriminate. }
    destruct (getitem (setitem gdf "determination_datetime" dt) "geometry")
      as [geoms|e] eqn:H3; cbn [bind].
    2:{ intros H. apply getitem_Raise in H3 as [-> H3]. inversion H; subst key.
        rewrite get_column_setitem_other in H3 by discriminate. simpl; auto. }
    destruct (make_valid mv geoms) as [valid|e] eqn:H4; cbn [bind].
    2:{ intros H. inversion H; subst e.
        apply make_valid_Raise in H4 as [m E]. discriminate. }
    set (g2 := setitem (setitem gdf "determination_datetime" dt) "geometry" valid).
    destruct (getitem g2 "PINTA_ALA") as [pinta|e] eqn:H5; cbn [bind].
    2:{ intros H. apply getitem_Raise in H5 as [-> H5]. inversion H; subst key.
        unfold g2 in H5. rewrite !get_column_setitem_other in H5 by discriminate.
        simpl; auto. }
    unfold area. destruct (getitem g2 "geometry") as [valid'|e] eqn:H6; cbn [bind].
    2:{ intros H. apply getitem_Raise in H6 as [_ H6]. unfold g2 in H6.
        rewrite get_column_setitem_same in H6. discriminate. }
    destruct (mapM (area_cell ar) valid') as [areas|e] eqn:H7; cbn [bind].
    2:{ intros H. inversion H; subst e.
        apply area_cells_Raise in H7 as [m E]. discriminate. }
    destruct (truediv areas 10000) as [hectares|e] eqn:H8; cbn [bind].
    2:{ intros H. inversion H; subst e.
        apply truediv_Raise in H8 as [m E]. discriminate. }
    destruct (np_where _ hectares pinta) as [cells|e] eqn:H9; cbn [bind].
    2:{ intros H. inversion H; subst e.
        apply np_where_Raise in H9 as [m E]. discriminate. }
    discriminate.
  - intros Hnone. unfold Fi.migrate, getitem. now rewrite Hnone.
  - intros gdf' H.
    apply fi_migrate_Ok in H
      as (vuosi & dt & geoms & valid & pinta & areas & hectares & cells
          & _ & _ & Hg & _ & _ & _ & _ & _ & ->).
    split.
    + intros name. rewrite !column_names_setitem.
      apply get_column_name in Hg. split.
      * intros [->|[->|[->|Hin]]]; auto.
      * intros [->|[->|Hin]]; auto.
    + intros col H1 H2 H3.
      rewrite !get_column_setitem_other by congruence. reflexivity.
Qed.



